(** * MARO: the data-center dataset pipeline and the citi-bike PPO trainer

    A shallow embedding of
      - [maro/cli/data_pipeline/data_center.py]  (module [DataCenter]), and
      - [examples/citi_bike/ppo/algorithms/fixamt_ppo_att.py]  (module [PPO]),
    followed by what is proved of them ([DataCenterFacts], [PPOFacts]).

    Python exceptions are values of [Py.exn]; a method that touches the file
    system, the download manager or the trainer's networks is a function from
    the state before the call to the state after it and an outcome. What the
    two files import and do not define (pandas, gzip, aria2, numpy, torch,
    the base class of the pipeline, the networks of the trainer) is a
    parameter: a field of one of the classes [Pandas], [Host], [Torch] and
    [Models]. *)

From Stdlib Require Import ZArith QArith Qminmax Qround String Ascii DecimalString Lia.
From stdpp Require Import base option list sorting gmap strings.

Local Open Scope string_scope.

(** ** Python outcomes *)

Module Py.

Inductive exn :=
| KeyError (key : string)
| FileNotFoundError (path : string)
| TypeError (msg : string)
| IndexError
| ZeroDivisionError
| BadGzipFile
| ParserError.

(** What a call does: return a value, raise, or (for the polling loop, which
    the model runs on fuel) still be running when the fuel is spent. *)
Inductive outcome (A : Type) :=
| Return (a : A)
| Raise (e : exn)
| Running.
Arguments Return {A} a.
Arguments Raise {A} e.
Arguments Running {A}.

(** A statement of a method with state [S]. The state travels with the
    outcome: after [Raise e] it is the state at the raise. *)
Definition M (S A : Type) : Type := S -> S * outcome A.

Definition ret {S A} (a : A) : M S A := fun s => (s, Return a).
Definition raise {S A} (e : exn) : M S A := fun s => (s, Raise e).
Definition bind {S A B} (m : M S A) (k : A -> M S B) : M S B :=
  fun s =>
    match m s with
    | (s', Return a) => k a s'
    | (s', Raise e) => (s', Raise e)
    | (s', Running) => (s', Running)
    end.
Definition get {S} : M S S := fun s => (s, Return s).
Definition gets {S A} (f : S -> A) : M S A := fun s => (s, Return (f s)).
Definition modify {S} (f : S -> S) : M S unit := fun s => (f s, Return tt).

End Py.

Declare Scope py_scope.
Delimit Scope py_scope with py.
Notation "x <- m ;; k" := (Py.bind m (fun x => k))
  (at level 100, m at next level, right associativity) : py_scope.
Notation "m ;;; k" := (Py.bind m (fun _ => k))
  (at level 100, right associativity) : py_scope.

(** ** [maro/cli/data_pipeline/data_center.py] *)

Module DataCenter.
Import Py.

(** *** The part of pandas that [_process_vm_table] uses

    A cell is what [pd.read_csv] leaves in a frame: a missing value, a number
    or a piece of text. The four coerced columns of the data set hold whole
    numbers, so numbers are integers here; [Z] has no overflow, where pandas
    keeps a column of whole numbers in a machine integer. *)
Inductive cell :=
| NaN
| Num (z : Z)
| Text (s : string).

#[global] Instance cell_eq_dec : EqDecision cell.
Proof. solve_decision. Defined.
#[global] Instance cell_inhabited : Inhabited cell := populate NaN.

(** A frame: its column labels in order, and one dict per row. *)
Record DataFrame := mkFrame {
  columns : list string;
  rows : list (gmap string cell)
}.

(** What of pandas is outside the source: its tokenizer, its reading of a
    piece of text as a number, and how it prints a cell. *)
Class Pandas := {
  (** the records of a csv text as [pd.read_csv] types them; [None] when it
      refuses the text (an empty file, a record with too many fields) *)
  csv_records : string -> option (list (list cell));
  (** [pd.to_numeric] on one text element: [None] when it cannot be read *)
  numeric_of_text : string -> option Z;
  (** how [DataFrame.to_csv] prints one cell *)
  csv_field : cell -> string
}.

(** [pd.read_csv(f, header=None, index_col=False, names=names)]: every record
    gets the labels in order, and a short record is filled up with NaN. *)
Definition label_record (names : list string) (fields : list cell) : gmap string cell :=
  list_to_map (zip names (fields ++ replicate (length names - length fields) NaN)).

Definition read_csv (names : list string) (records : list (list cell)) : DataFrame :=
  {| columns := names; rows := label_record names <$> records |}.

(** [r[c]] for a label of the frame. *)
Definition at_col (r : gmap string cell) (c : string) : cell := r !!! c.

(** [df.loc[:, cols]] *)
Definition loc_columns (cols : list string) (df : DataFrame) : DataFrame :=
  {| columns := cols;
     rows := (fun r => filter (fun kv => kv.1 ∈ cols) r) <$> rows df |}.

(** [df[c] = f(df)], row by row: a new label goes last. *)
Definition set_column (c : string) (f : gmap string cell -> cell) (df : DataFrame) : DataFrame :=
  {| columns := if decide (c ∈ columns df) then columns df else columns df ++ [c];
     rows := (fun r => <[c := f r]> r) <$> rows df |}.

(** [pd.to_numeric(x, errors="coerce", downcast="integer")] on one element. *)
Definition to_numeric `{Pandas} (c : cell) : cell :=
  match c with
  | NaN => NaN
  | Num z => Num z
  | Text s => match numeric_of_text s with Some z => Num z | None => NaN end
  end.

(** [x // d] on a numeric element: floor division, NaN stays NaN. A text
    element cannot reach it: [to_numeric] has run on the column before. *)
Definition floordiv (c : cell) (d : Z) : cell :=
  match c with
  | Num z => Num (z / d)
  | _ => NaN
  end.

(** [x - y] on numeric elements. *)
Definition cell_sub (a b : cell) : cell :=
  match a, b with
  | Num x, Num y => Num (x - y)
  | _, _ => NaN
  end.

(** [x <= k] on a numeric element: False on NaN. *)
Definition cell_le (c : cell) (k : Z) : bool :=
  match c with
  | Num z => bool_decide (z <= k)%Z
  | _ => false
  end.

Definition isna (c : cell) : bool :=
  match c with NaN => true | _ => false end.

(** [df.dropna(inplace=True)]: a row goes when any of its columns is NaN. *)
Definition dropna (df : DataFrame) : DataFrame :=
  {| columns := columns df;
     rows := filter (fun r => Forall (fun c => isna (at_col r c) = false) (columns df)) (rows df) |}.

(** [df[mask(df)]] *)
Definition mask_rows (p : gmap string cell -> bool) (df : DataFrame) : DataFrame :=
  {| columns := columns df; rows := filter (fun r => p r = true) (rows df) |}.

(** The order [sort_values] puts cells in: numbers ascending, NaN last. *)
Definition cell_order (a b : cell) : Prop :=
  match a, b with
  | Num x, Num y => (x <= y)%Z
  | Num _, _ => True
  | _, Num _ => False
  | _, _ => True
  end.

#[global] Instance cell_order_dec a b : Decision (cell_order a b).
Proof. destruct a, b; simpl; apply _. Defined.

Definition by_column (c : string) (r1 r2 : gmap string cell) : Prop :=
  cell_order (at_col r1 c) (at_col r2 c).

#[global] Instance by_column_dec c r1 r2 : Decision (by_column c r1 r2).
Proof. unfold by_column. apply _. Defined.

(** [df.sort_values(by=c, ascending=True)]. pandas does not say in which
    order it leaves rows with equal keys; nothing below depends on it. *)
Definition sort_values (c : string) (df : DataFrame) : DataFrame :=
  {| columns := columns df; rows := merge_sort (by_column c) (rows df) |}.

(** [df.to_csv(f, index=False, header=True)] *)
Definition csv_line (fields : list string) : string :=
  String.concat "," fields +:+ String (ascii_of_nat 10) "".

Definition to_csv `{Pandas} (df : DataFrame) : string :=
  csv_line (columns df) +:+
  String.concat "" ((fun r => csv_line ((fun c => csv_field (at_col r c)) <$> columns df)) <$> rows df).

(** *** Strings and paths *)

Definition LF : ascii := ascii_of_nat 10.
Definition CR : ascii := ascii_of_nat 13.

(** [s.split(sep)] for a one-character separator. *)
Fixpoint split (sep : ascii) (s : string) : list string :=
  match s with
  | EmptyString => [""]
  | String c s' =>
      if decide (c = sep) then "" :: split sep s'
      else match split sep s' with
           | h :: t => String c h :: t
           | [] => [String c ""]
           end
  end.

(** [l[-1]] of a list that [split] made, which is never empty. *)
Definition last_of (l : list string) : string := List.last l "".

(** [s.splitlines()]. A text is held as the bytes of its UTF-8 encoding,
    which is what the file holds and what [open(.., encoding="utf-8")]
    decodes. The line boundaries of Python are LF, VT, FF, FS, GS and RS,
    one byte each; CR and CR LF; U+0085, the bytes C2 85; and U+2028 and
    U+2029, the bytes E2 80 A8 and E2 80 A9. Reading in text mode turns CR
    and CR LF into LF first, which leaves the lines as they are. *)
Definition line_break (c : ascii) : bool :=
  bool_decide (nat_of_ascii c ∈ [10; 11; 12; 28; 29; 30]).

(** [c] put in front of the first of [lines]. *)
Definition push (c : ascii) (lines : list string) : list string :=
  match lines with
  | h :: t => String c h :: t
  | [] => [String c ""]
  end.

Fixpoint splitlines (s : string) : list string :=
  match s with
  | EmptyString => []
  | String c s' =>
      if line_break c then "" :: splitlines s'
      else if decide (c = CR) then
        match s' with
        | String c' s'' => if decide (c' = LF) then "" :: splitlines s'' else "" :: splitlines s'
        | EmptyString => [""]
        end
      else if decide (nat_of_ascii c = 194) then
        match s' with
        | String c1 s1 =>
            if decide (nat_of_ascii c1 = 133) then "" :: splitlines s1
            else push c (splitlines s')
        | EmptyString => push c (splitlines s')
        end
      else if decide (nat_of_ascii c = 226) then
        match s' with
        | String c1 (String c2 s2) =>
            if decide (nat_of_ascii c1 = 128 /\ nat_of_ascii c2 ∈ [168; 169]) then "" :: splitlines s2
            else push c (splitlines s')
        | _ => push c (splitlines s')
        end
      else push c (splitlines s')
  end.

(** The texts that the decoder of [open(.., encoding="utf-8")] takes: the
    well-formed byte sequences of UTF-8. On any other file the read raises
    [UnicodeDecodeError], which the model leaves out. *)
Definition between (lo hi : nat) (c : ascii) : bool :=
  bool_decide (lo <= nat_of_ascii c <= hi).

Definition continuation (c : ascii) : bool := between 128 191 c.

Fixpoint utf8 (s : string) : bool :=
  match s with
  | EmptyString => true
  | String b0 s1 =>
      if between 0 127 b0 then utf8 s1
      else
        match s1 with
        | String b1 s2 =>
            if between 194 223 b0 then continuation b1 && utf8 s2
            else
              match s2 with
              | String b2 s3 =>
                  if between 224 224 b0 then between 160 191 b1 && continuation b2 && utf8 s3
                  else if between 225 236 b0 || between 238 239 b0 then
                    continuation b1 && continuation b2 && utf8 s3
                  else if between 237 237 b0 then between 128 159 b1 && continuation b2 && utf8 s3
                  else
                    match s3 with
                    | String b3 s4 =>
                        if between 240 240 b0 then
                          between 144 191 b1 && continuation b2 && continuation b3 && utf8 s4
                        else if between 241 243 b0 then
                          continuation b1 && continuation b2 && continuation b3 && utf8 s4
                        else if between 244 244 b0 then
                          between 128 143 b1 && continuation b2 && continuation b3 && utf8 s4
                        else false
                    | EmptyString => false
                    end
              | EmptyString => false
              end
        | EmptyString => false
        end
  end.

(** [s.startswith(pre)] *)
Definition startswith (s pre : string) : bool := String.prefix pre s.

Fixpoint endswith_char (s : string) (c : ascii) : bool :=
  match s with
  | EmptyString => false
  | String a EmptyString => bool_decide (a = c)
  | String _ s' => endswith_char s' c
  end.

(** [os.path.join(a, b)] of posixpath. *)
Definition os_path_join (a b : string) : string :=
  if startswith b "/" then b
  else if bool_decide (a = "") || endswith_char a "/" then a +:+ b
  else a +:+ "/" +:+ b.

(** [s * n] *)
Fixpoint str_repeat (s : string) (n : nat) : string :=
  match n with
  | O => ""
  | S n' => s +:+ str_repeat s n'
  end.

(** *** The world of the pipeline: files, the aria2 service, the log *)

(** One entry of [aria2.get_downloads()]. *)
Record Download := {
  name : string;
  status : string;
  progress : Q;
  is_complete : bool
}.

(** What the pipeline does to the outside, in order. *)
Inductive event :=
| info_green (msg : string)
| warning (msg : string)
| add_uris (uris : list string) (dir : string)
| get_downloads
| remove (downloads : list Download)
| sleep (secs : Z).

(** The aria2 service runs beside the pipeline: the model takes its answers
    as given, [aria2 n] being what the [n]-th call of [get_downloads]
    (counted from 0) returns. Directories are not modelled: a path exists
    when a file is stored under it. *)
Record world := {
  fs : gmap string string;
  aria2 : nat -> list Download;
  polls : nat;
  trace : list event
}.

(** What else is outside the source: gzip, the base class [DataPipeline] and
    the formatting of a float. *)
Class Host := {
  (** the bytes a gzip archive holds: [None] when it is not one *)
  gunzip : string -> option string;
  (** [DataPipeline.clean], the method [super().clean()] calls *)
  base_clean : world -> world;
  (** the rendering of [download.progress] under [:.2f] *)
  format_2f : Q -> string
}.

(** A call of the logger, of aria2 or of [time.sleep]. *)
Definition emit (e : event) : M world unit :=
  modify (fun w => {| fs := fs w; aria2 := aria2 w; polls := polls w; trace := trace w ++ [e] |}).

(** [os.path.exists(path)] *)
Definition os_path_exists (path : string) : M world bool :=
  gets (fun w => bool_decide (is_Some (fs w !! path))).

(** [open(path, "r").read()] *)
Definition read_text (path : string) : M world string :=
  fun w =>
    match fs w !! path with
    | Some text => (w, Return text)
    | None => (w, Raise (FileNotFoundError path))
    end.

(** [open(path, "w")] leaves an empty file; [f.write(text)] appends. *)
Definition set_file (path text : string) (w : world) : world :=
  {| fs := <[path := text]> (fs w); aria2 := aria2 w; polls := polls w; trace := trace w |}.

Definition open_w (path : string) : M world unit := modify (set_file path "").

Definition write_text (path text : string) : M world unit :=
  fun w =>
    match fs w !! path with
    | Some old => (set_file path (old +:+ text) w, Return tt)
    | None => (w, Raise (FileNotFoundError path))
    end.

(** [self.aria2.get_downloads()] *)
Definition aria2_get_downloads : M world (list Download) :=
  fun w =>
    ({| fs := fs w; aria2 := aria2 w; polls := S (polls w); trace := trace w ++ [get_downloads] |},
     Return (aria2 w (polls w))).

(** [for x in l: body(x)] *)
Fixpoint for_each {S A} (l : list A) (body : A -> M S unit) : M S unit :=
  match l with
  | [] => ret tt
  | x :: l' => (body x ;;; for_each l' body)%py
  end.

(** *** [DataCenterPipeline] *)

Definition _download_file_name : string := "AzurePublicDatasetLinksV2.txt".
Definition _vm_table_file_name : string := "vmtable.csv.gz".
Definition _clean_file_name : string := "vmtable.csv".

(** The attributes [DataPipeline.__init__] sets and the methods here read. *)
Record DataPipeline := {
  _download_folder : string;
  _download_file : string;
  _clean_folder : string;
  _clean_file : string
}.

Record DataCenterPipeline := {
  base :> DataPipeline;
  _vm_table_file : string
}.

Definition __init__ (b : DataPipeline) : DataCenterPipeline :=
  {| base := b; _vm_table_file := os_path_join (_download_folder b) _vm_table_file_name |}.

Section Pipeline.
Context `{Pandas} `{Host}.
Variable self : DataCenterPipeline.

(** The polling loop [while 1: ...]: [fuel] bounds the number of polls the
    model follows, and [Running] is the loop still going after them. *)
Fixpoint _check_all_download_completed (fuel : nat) : M world unit :=
  match fuel with
  | O => fun w => (w, Running)
  | S fuel' =>
      (downloads <- aria2_get_downloads ;;
       if bool_decide (length downloads = 0%nat) then
         emit (info_green "Doesn't exist any pending file.")
       else if forallb is_complete downloads then
         emit (remove downloads) ;;;
         emit (info_green "Download finished.")
       else
         for_each downloads (fun download =>
           emit (info_green (name download +:+ ", " +:+ status download +:+ ", "
                             +:+ format_2f (progress download) +:+ "%"))) ;;;
         emit (info_green (str_repeat "-" 60)) ;;;
         emit (sleep 5) ;;;
         _check_all_download_completed fuel')%py
  end.

(** The body of [for remote_url in urls.read().splitlines()], with the local
    [num_files] passed in and handed on. *)
Definition download_url (is_force : bool) (num_files : Z) (remote_url : string) : M world Z :=
  (let file_name := last_of (split "/" remote_url) in
   if startswith file_name "vm" then
     let num_files := if startswith file_name "vm_cpu_readings" then (num_files - 1)%Z else num_files in
     found <- os_path_exists (_vm_table_file self) ;;
     if negb is_force && found then
       emit (info_green "File already exists, skipping download.") ;;;
       emit (add_uris [remote_url] (_download_folder self)) ;;;
       ret num_files
     else
       emit (info_green ("Downloading vmtable from " +:+ remote_url +:+ " to "
                         +:+ _vm_table_file self +:+ ".")) ;;;
       ret num_files
   else ret num_files)%py.

(** The loop over the urls; it returns [num_files] as the loop leaves it. *)
Fixpoint download_urls (is_force : bool) (num_files : Z) (urls : list string) : M world Z :=
  match urls with
  | [] => ret num_files
  | remote_url :: rest =>
      (num_files <- download_url is_force num_files remote_url ;;
       download_urls is_force num_files rest)%py
  end.

(** [_aria2p_download]: [fuel] is for the polling loop it ends with. *)
Definition _aria2p_download (fuel : nat) (is_force : bool) : M world unit :=
  (let num_files := 4%Z in
   text <- read_text (_download_file self) ;;
   _ <- download_urls is_force num_files (splitlines text) ;;
   _check_all_download_completed fuel)%py.

(** [shutil.copyfileobj(f_in, f_out)] with [f_in = gzip.open(src, mode="r")]
    and [f_out = open(dst, "w")]. For [gzip.open] the mode ["r"] is ["rb"]:
    [f_in.read] returns [bytes]. [f_out] is a text file: its [write] takes
    [str] and raises [TypeError] on [bytes]. [copyfileobj] writes each chunk
    it reads as long as the chunk is not empty, so it raises at the first
    chunk of an archive that holds anything, and writes nothing for an
    archive that holds nothing. *)
Definition copyfileobj (src dst : string) : M world unit :=
  (archive <- read_text src ;;
   match gunzip archive with
   | None => raise BadGzipFile
   | Some EmptyString => ret tt
   | Some _ => raise (TypeError "write() argument must be str, not bytes")
   end)%py.

(** [clean]. Nothing follows the comment [# Preprocess vmtable.] in the
    source, so nothing follows ["Unzip finished."] here. *)
Definition clean : M world unit :=
  (modify base_clean ;;;
   emit (info_green "Cleaning VM data.") ;;;
   found <- os_path_exists (_vm_table_file self) ;;
   if found then
     let unzip_vm_table_file := os_path_join (_clean_folder self) _clean_file_name in
     emit (info_green "Unzip start.") ;;;
     emit (info_green ("Unzip " +:+ _clean_file_name +:+ " from " +:+ _vm_table_file self
                       +:+ " to " +:+ unzip_vm_table_file +:+ ".")) ;;;
     open_w unzip_vm_table_file ;;;
     copyfileobj (_vm_table_file self) unzip_vm_table_file ;;;
     emit (info_green "Unzip finished.")
   else
     emit (warning ("Not found downloaded source file: " +:+ _vm_table_file self +:+ ".")))%py.

Definition headers : list string :=
  ["vmid"; "subscriptionid"; "deploymentid"; "vmcreated"; "vmdeleted"; "maxcpu"; "avgcpu";
   "p95maxcpu"; "vmcategory"; "vmcorecountbucket"; "vmmemorybucket"].

Definition required_headers : list string :=
  ["vmid"; "vmcreated"; "vmdeleted"; "vmcorecountbucket"; "vmmemorybucket"].

(** The frame operations of [_process_vm_table], from the frame that
    [pd.read_csv] returned. *)
Definition process_frame (vm_table : DataFrame) : DataFrame :=
  let vm_table := loc_columns required_headers vm_table in
  let vm_table := set_column "vmcreated" (fun r => floordiv (to_numeric (at_col r "vmcreated")) 300) vm_table in
  let vm_table := set_column "vmdeleted" (fun r => floordiv (to_numeric (at_col r "vmdeleted")) 300) vm_table in
  let vm_table := set_column "vmcorecountbucket" (fun r => to_numeric (at_col r "vmcorecountbucket")) vm_table in
  let vm_table := set_column "vmmemorybucket" (fun r => to_numeric (at_col r "vmmemorybucket")) vm_table in
  let vm_table := dropna vm_table in
  let vm_table := mask_rows (fun r => cell_le (at_col r "vmdeleted") 43) vm_table in
  let vm_table := set_column "lifetime" (fun r => cell_sub (at_col r "vmdeleted") (at_col r "vmcreated")) vm_table in
  let vm_table := sort_values "vmcreated" vm_table in
  vm_table.

Definition _process_vm_table (unzip_vm_table_file : string) : M world DataFrame :=
  (text <- read_text unzip_vm_table_file ;;
   match csv_records text with
   | None => raise ParserError
   | Some records => ret (process_frame (read_csv headers records))
   end)%py.

Definition _preprocess (unzip_vm_table_file : string) : M world unit :=
  (vm_table <- _process_vm_table unzip_vm_table_file ;;
   open_w (_clean_file self) ;;;
   write_text (_clean_file self) (to_csv vm_table))%py.

End Pipeline.

(** *** [process_frame], one row at a time

    The frame operations work row by row until the sort; these are the
    row-wise steps, in the order of the source. *)

Section Rows.
Context `{Pandas}.

(** [.loc[:, required_headers]] *)
Definition project (raw : gmap string cell) : gmap string cell :=
  filter (fun kv => kv.1 ∈ required_headers) raw.

(** The four [pd.to_numeric] assignments. *)
Definition coerce (r : gmap string cell) : gmap string cell :=
  let r := <["vmcreated" := floordiv (to_numeric (at_col r "vmcreated")) 300]> r in
  let r := <["vmdeleted" := floordiv (to_numeric (at_col r "vmdeleted")) 300]> r in
  let r := <["vmcorecountbucket" := to_numeric (at_col r "vmcorecountbucket")]> r in
  <["vmmemorybucket" := to_numeric (at_col r "vmmemorybucket")]> r.

(** The rows [dropna] keeps. *)
Definition complete (r : gmap string cell) : Prop :=
  Forall (fun c => isna (at_col r c) = false) required_headers.

(** [vm_table['lifetime'] = vm_table['vmdeleted'] - vm_table['vmcreated']] *)
Definition add_lifetime (r : gmap string cell) : gmap string cell :=
  <["lifetime" := cell_sub (at_col r "vmdeleted") (at_col r "vmcreated")]> r.

(** What the code makes of a row that it keeps. *)
Definition code_row (raw : gmap string cell) : gmap string cell :=
  add_lifetime (coerce (project raw)).

(** *** The row the specification describes

    [vmcreated] and [vmdeleted] divided by 300, the two buckets as numbers,
    nothing when a value is missing or [vmdeleted] is past bucket 43, and
    [lifetime] added. *)

Definition bucket (c : cell) : option Z :=
  match to_numeric c with Num z => Some (z / 300)%Z | _ => None end.

Definition number (c : cell) : option Z :=
  match to_numeric c with Num z => Some z | _ => None end.

Definition cleaned_row (raw : gmap string cell) : option (gmap string cell) :=
  match at_col raw "vmid", bucket (at_col raw "vmcreated"), bucket (at_col raw "vmdeleted"),
        number (at_col raw "vmcorecountbucket"), number (at_col raw "vmmemorybucket") with
  | NaN, _, _, _, _ => None
  | vmid, Some created, Some deleted, Some cores, Some memory =>
      if bool_decide (deleted <= 43)%Z then
        Some (list_to_map [("vmid", vmid); ("vmcreated", Num created); ("vmdeleted", Num deleted);
                           ("vmcorecountbucket", Num cores); ("vmmemorybucket", Num memory);
                           ("lifetime", Num (deleted - created))])
      else None
  | _, _, _, _, _ => None
  end.

(** A value that [pd.to_numeric(errors="coerce")] turns into NaN. *)
Definition non_numeric (c : cell) : Prop := to_numeric c = NaN.

(** A row with such a value in one of the four coerced columns. *)
Definition offending (raw : gmap string cell) : Prop :=
  non_numeric (at_col raw "vmcreated") \/ non_numeric (at_col raw "vmdeleted") \/
  non_numeric (at_col raw "vmcorecountbucket") \/ non_numeric (at_col raw "vmmemorybucket").

End Rows.

(** *** The polling loop, one round at a time *)

(** Some task of the answer is not complete. *)
Definition pending (downloads : list Download) : Prop :=
  exists d, d ∈ downloads /\ is_complete d = false.

(** What the [k]-th poll after [w] is answered. *)
Definition answer (w : world) (k : nat) : list Download := aria2 w (polls w + k).

(** The world [n] polls and some events later. *)
Definition after_polls (w : world) (n : nat) (events : list event) : world :=
  {| fs := fs w; aria2 := aria2 w; polls := polls w + n; trace := (trace w ++ events)%list |}.

(** The urls handed to [aria2.add_uris] so far. *)
Definition enqueued (events : list event) : list string :=
  flat_map (fun e => match e with add_uris uris _ => uris | _ => [] end) events.

(** The [time.sleep] and [aria2.remove] calls so far. *)
Definition sleeps_and_removals (events : list event) : list event :=
  List.filter (fun e => match e with sleep _ | remove _ => true | _ => false end) events.

Section Rounds.
Context `{Host}.

(** The line logged for a download while the loop waits. *)
Definition progress_line (d : Download) : event :=
  info_green (name d +:+ ", " +:+ status d +:+ ", " +:+ format_2f (progress d) +:+ "%").

(** A round that ends in [time.sleep(5)], and the round that breaks. *)
Definition waiting_round (downloads : list Download) : list event :=
  (get_downloads :: (progress_line <$> downloads) ++ [info_green (str_repeat "-" 60); sleep 5])%list.

Definition final_round (downloads : list Download) : list event :=
  match downloads with
  | [] => [get_downloads; info_green "Doesn't exist any pending file."]
  | _ => [get_downloads; remove downloads; info_green "Download finished."]
  end.

Fixpoint waiting_rounds (answers : nat -> list Download) (from n : nat) : list event :=
  match n with
  | O => []
  | S n' => (waiting_round (answers from) ++ waiting_rounds answers (S from) n')%list
  end.

End Rounds.

(** *** [download]

    [DataPipeline.download], the method that [super().download(is_force=..)]
    calls, is not in the source: it is whatever the base class makes it. *)
Class BaseDownload := {
  base_download : bool -> M world unit
}.

Section Entry.
Context `{Host} `{BaseDownload}.
Variable self : DataCenterPipeline.

Definition download (fuel : nat) (is_force : bool) : M world unit :=
  (base_download is_force ;;;
   found <- os_path_exists (_download_file self) ;;
   if found then
     emit (info_green "Downloading vmtable and cpu readings.") ;;;
     _aria2p_download self fuel is_force
   else
     emit (warning ("Not found downloaded source file: " +:+ _download_file self +:+ ".")))%py.

End Entry.

(** *** The loop over the urls, one url at a time *)

(** [remote_url.split('/')[-1]] *)
Definition file_name (remote_url : string) : string := last_of (split "/" remote_url).

(** The two tests of the loop body. *)
Definition required (remote_url : string) : bool := startswith (file_name remote_url) "vm".
Definition reading (remote_url : string) : bool := startswith (file_name remote_url) "vm_cpu_readings".

(** What the loop body does for one url, [skipping] being
    [(not is_force) and os.path.exists(self._vm_table_file)]. *)
Definition url_events (self : DataCenterPipeline) (skipping : bool) (remote_url : string) : list event :=
  if required remote_url then
    if skipping then
      [info_green "File already exists, skipping download.";
       add_uris [remote_url] (_download_folder self)]
    else
      [info_green ("Downloading vmtable from " +:+ remote_url +:+ " to " +:+ _vm_table_file self +:+ ".")]
  else [].

(** The calls of [aria2.add_uris] so far: the uris and the directory of each. *)
Definition added (events : list event) : list (list string * string) :=
  omap (fun e => match e with add_uris uris dir => Some (uris, dir) | _ => None end) events.

(** The number of calls of [aria2.get_downloads], and the seconds slept. *)
Definition polled (events : list event) : nat :=
  length (List.filter (fun e => match e with get_downloads => true | _ => false end) events).

Definition slept (events : list event) : Z :=
  foldr (fun e total => match e with sleep secs => (secs + total)%Z | _ => total end) 0%Z events.

(** The first line of the file that [_preprocess] writes. *)
Definition header_line : string :=
  "vmid,vmcreated,vmdeleted,vmcorecountbucket,vmmemorybucket,lifetime" +:+ String LF "".

(** *** A host to run the pipeline on

    Decimal integers for numbers, commas and line feeds for csv, and, in
    place of gzip, an archive that is its content behind the two magic bytes
    of the format. *)

Module Reference.

Definition integer_of_text (s : string) : option Z :=
  Z.of_int <$> NilZero.int_of_string s.

Definition cell_of_field (s : string) : cell :=
  if bool_decide (s = "") then NaN
  else match integer_of_text s with Some z => Num z | None => Text s end.

Definition records_of_text (text : string) : option (list (list cell)) :=
  if bool_decide (text = "") then None
  else Some ((fun line : string => cell_of_field <$> split "," line) <$> splitlines text).

Definition field_of_cell (c : cell) : string :=
  match c with
  | NaN => ""
  | Num z => NilZero.string_of_int (Z.to_int z)
  | Text s => s
  end.

#[export] Instance pandas : Pandas := {|
  csv_records := records_of_text;
  numeric_of_text := integer_of_text;
  csv_field := field_of_cell
|}.

Definition gzip_magic : string := String (ascii_of_nat 31) (String (ascii_of_nat 139) "").

Definition archive_of (content : string) : string := gzip_magic +:+ content.

Definition content_of (archive : string) : option string :=
  if startswith archive gzip_magic then Some (String.substring 2 (String.length archive - 2) archive)
  else None.

Definition two_decimals (v : Q) : string :=
  let hundredths := Qfloor (v * 100 + (1 # 2)) in
  let cents := NilZero.string_of_int (Z.to_int (hundredths mod 100)) in
  NilZero.string_of_int (Z.to_int (hundredths / 100)) +:+ "." +:+
  (if bool_decide (String.length cents = 1%nat) then "0" +:+ cents else cents).

#[export] Instance host : Host := {|
  gunzip := content_of;
  base_clean w := w;
  format_2f := two_decimals
|}.

End Reference.

(** *** A pipeline, a manifest and a table *)

Module Example.

Definition nl : string := String LF "".

Definition pipeline : DataCenterPipeline :=
  __init__ {| _download_folder := "/data/_download";
              _download_file := "/data/_download/AzurePublicDatasetLinksV2.txt";
              _clean_folder := "/data/_clean";
              _clean_file := "/data/_clean/vmtable.csv" |}.

Definition table_url : string :=
  "https://azurepublicdataset.example/trace_data/vmtable/vmtable.csv.gz".
Definition readings_url (part : string) : string :=
  "https://azurepublicdataset.example/trace_data/vm_cpu_readings/vm_cpu_readings-file-"
  +:+ part +:+ "-of-195.csv.gz".

(** One table url and three reading urls. *)
Definition manifest : string :=
  table_url +:+ nl +:+ readings_url "1" +:+ nl +:+ readings_url "2" +:+ nl +:+ readings_url "3" +:+ nl.

(** The first run: the manifest is there, the table is not, and aria2 has
    nothing in its list. *)
Definition first_run : world :=
  {| fs := {[ "/data/_download/AzurePublicDatasetLinksV2.txt" := manifest ]};
     aria2 := fun _ => [];
     polls := 0;
     trace := [] |}.

(** A table of three machines: one deleted in bucket 43, one whose core
    count is not a number, and one deleted in bucket 44. *)
Definition kept_line : string := "vm1,sub1,dep1,900,12900,90,10,95,Unknown,2,4".
Definition offending_line : string := "vm2,sub1,dep1,0,600,90,10,95,Unknown,>24,64".
Definition late_line : string := "vm3,sub1,dep1,300,13200,90,10,95,Unknown,4,8".

Definition vm_table_text : string :=
  kept_line +:+ nl +:+ offending_line +:+ nl +:+ late_line +:+ nl.

Definition kept_record : list cell :=
  [Text "vm1"; Text "sub1"; Text "dep1"; Num 900; Num 12900; Num 90; Num 10; Num 95;
   Text "Unknown"; Num 2; Num 4].
Definition offending_record : list cell :=
  [Text "vm2"; Text "sub1"; Text "dep1"; Num 0; Num 600; Num 90; Num 10; Num 95;
   Text "Unknown"; Text ">24"; Num 64].
Definition late_record : list cell :=
  [Text "vm3"; Text "sub1"; Text "dep1"; Num 300; Num 13200; Num 90; Num 10; Num 95;
   Text "Unknown"; Num 4; Num 8].

(** The table has been downloaded. *)
Definition downloaded : world :=
  {| fs := {[ "/data/_download/vmtable.csv.gz" := Reference.archive_of vm_table_text ]};
     aria2 := fun _ => [];
     polls := 0;
     trace := [] |}.

(** The table has been downloaded and unpacked. *)
Definition unzipped : world :=
  {| fs := {[ "/data/_clean/vmtable.csv" := vm_table_text ]};
     aria2 := fun _ => [];
     polls := 0;
     trace := [] |}.

(** Two polls find a download going on, the third finds it complete. *)
Definition going : Download :=
  {| name := "vmtable.csv.gz"; status := "active"; progress := 1 # 2; is_complete := false |}.
Definition finished : Download :=
  {| name := "vmtable.csv.gz"; status := "complete"; progress := 100; is_complete := true |}.

Definition downloading : world :=
  {| fs := ∅;
     aria2 := fun n => if bool_decide (n < 2)%nat then [going] else [finished];
     polls := 0;
     trace := [] |}.

End Example.

(** *** More runs of the pipeline *)

Module Scenario.
Import Reference Example.

(** A base class whose [download] fetches the manifest, unless the file is
    there already and the download is not forced. *)
#[export] Instance mirror : BaseDownload := {|
  base_download is_force := fun w =>
    (if negb is_force && bool_decide (is_Some (fs w !! _download_file pipeline)) then w
     else set_file (_download_file pipeline) manifest w,
     Return tt)
|}.

(** Nothing has been downloaded yet. *)
Definition fresh : world :=
  {| fs := ∅; aria2 := fun _ => []; polls := 0; trace := [] |}.

(** A second run: the manifest and the table file are there. *)
Definition rerun : world := set_file "/data/_download/vmtable.csv.gz" "" first_run.

(** The table after [_preprocess] has run on it in place. *)
Definition cleaned : world :=
  (_preprocess pipeline "/data/_clean/vmtable.csv" unzipped).1.

(** The first machine again, with other values in the columns that
    [_process_vm_table] does not keep. *)
Definition reshuffled_record : list cell :=
  [Text "vm1"; Text "sub9"; Text "dep9"; Num 900; Num 12900; Num 1; Num 2; Num 3;
   Text "Interactive"; Num 2; Num 4].

(** The row that the first machine leaves in the cleaned table. *)
Definition kept_row : gmap string cell :=
  list_to_map [("vmid", Text "vm1"); ("vmcreated", Num 3); ("vmdeleted", Num 43);
               ("vmcorecountbucket", Num 2); ("vmmemorybucket", Num 4); ("lifetime", Num 40)].

End Scenario.

End DataCenter.

(** ** [examples/citi_bike/ppo/algorithms/fixamt_ppo_att.py] *)

Module PPO.
Import Py.
Local Open Scope Z_scope.

(** *** numpy and torch

    Arrays and tensors are whatever the libraries make them; the trainer only
    combines them with the operations below. A shape is a list of integers
    ([-1] for the dimension that is inferred). *)
Class Torch := {
  ndarray : Type;
  Tensor : Type;
  np_hstack : list ndarray -> ndarray;
  np_vstack : list ndarray -> ndarray;
  (** [np.sum(a)] *)
  np_sum : ndarray -> ndarray;
  (** [np.array([a1, ..., an])] *)
  np_array : list ndarray -> ndarray;
  (** [a.reshape(shape)] *)
  np_reshape : ndarray -> list Z -> ndarray;
  (** [a[0]] *)
  np_getitem0 : ndarray -> ndarray;
  (** a tuple of arrays read as one array, as [np.hstack] does with it *)
  np_of_tuple : list ndarray -> ndarray;
  (** [torch.from_numpy(a).to(device)], and [from_numpy(torch.FloatTensor,
      device, a)[0]] of [examples.citi_bike.ppo.utils] *)
  torch_from_numpy : ndarray -> Tensor;
  (** [t.cpu().numpy()] *)
  to_numpy : Tensor -> ndarray;
  (** [t.reshape(shape)], [t.repeat(sizes)], [t.float()], [t.mean()],
      [t.sum(-1)] *)
  t_reshape : Tensor -> list Z -> Tensor;
  t_repeat : Tensor -> list Z -> Tensor;
  t_float : Tensor -> Tensor;
  t_mean : Tensor -> Tensor;
  t_sum_last : Tensor -> Tensor;
  (** [t[0]] and [t[0, i]] *)
  t_getitem0 : Tensor -> Tensor;
  t_getitem0_at : Tensor -> Tensor -> Tensor;
  (** [a + b], [a - b], [a * b], [-a], [c * a] and [a / n] *)
  t_add : Tensor -> Tensor -> Tensor;
  t_sub : Tensor -> Tensor -> Tensor;
  t_mul : Tensor -> Tensor -> Tensor;
  t_neg : Tensor -> Tensor;
  t_scale : Q -> Tensor -> Tensor;
  t_div_int : Tensor -> Z -> Tensor;
  (** [0 + t], the first step of Python's [sum] over a list of tensors *)
  t_radd_int : Z -> Tensor -> Tensor;
  torch_exp : Tensor -> Tensor;
  torch_log : Tensor -> Tensor;
  (** [torch.min(a, b)] and [torch.clamp(a, lo, hi)] *)
  torch_min : Tensor -> Tensor -> Tensor;
  torch_clamp : Tensor -> Q -> Q -> Tensor;
  (** [nn.MSELoss()(input, target)] *)
  mse_loss : Tensor -> Tensor -> Tensor;
  (** [Categorical(probs).log_prob(value)] and [Categorical(probs).entropy()] *)
  categorical_log_prob : Tensor -> Tensor -> Tensor;
  categorical_entropy : Tensor -> Tensor
}.

(** [module.train()] (the default) or [module.eval()] *)
Inductive mode := Train | Eval.

(** What [obs_to_torch] returns. *)
Record TorchObs `{Torch} := {
  x : Tensor;
  edge_idx_list : list Tensor;
  action_edge_idx : Tensor;
  actual_amount : Tensor;
  obs_per_graph_size : Z
}.

(** What [AttTransPolicy.forward] returns. *)
Record PolicyOutput `{Torch} := {
  choice : Tensor;
  cnt : Tensor;
  att : Tensor
}.

(** *** The modules of the repository that are not in the source

    [LinearBackend] and [AttTransPolicy] of [examples.citi_bike.ppo.models],
    [batchize] and [obs_to_torch] of [examples.citi_bike.ppo.utils], and
    [torch.optim.Adam]. A network is known by its [state_dict]; its forward
    pass is a function of that, of its mode and of its input.

    [loss.backward()] followed by [opt.step()] is [adam_step]: it is given the
    optimizer's state, the scalar loss as a function of the parameters the
    optimizer owns, and their present value, and returns the new state and
    the new value. What the code detaches does not depend on the argument of
    that function. *)
Class Models `{Torch} := {
  Obs : Type;
  GnnParams : Type;
  PolicyParams : Type;
  GnnOpt : Type;
  PolicyOpt : Type;
  batchize : list Obs -> Obs;
  obs_to_torch : Obs -> TorchObs;
  (** [LinearBackend(node_dim, out_dim=.., channel_cnt=..)] *)
  LinearBackend : Z -> Z -> Z -> GnnParams;
  (** [AttTransPolicy(emb_dim, neighbor_cnt, graph_size)] *)
  AttTransPolicy : Z -> Z -> Z -> PolicyParams;
  gnn_forward : mode -> GnnParams -> Tensor -> list Tensor -> Tensor;
  policy_forward : mode -> PolicyParams -> Tensor -> Tensor -> Tensor -> PolicyOutput;
  policy_value : mode -> PolicyParams -> Tensor -> Tensor;
  (** [optim.Adam(params, lr=lr)] *)
  Adam_gnn : GnnParams -> Q -> GnnOpt;
  Adam_policy : PolicyParams -> Q -> PolicyOpt;
  adam_step_gnn : GnnOpt -> (GnnParams -> Tensor) -> GnnParams -> GnnOpt * GnnParams;
  adam_step_policy : PolicyOpt -> (PolicyParams -> Tensor) -> PolicyParams -> PolicyOpt * PolicyParams
}.

Section Trainer.
Context `{Models}.

(** *** Rollouts *)

(** [e["supplement"]], as [act] makes it. *)
Record Supplement := {
  choice_att : Tensor;
  att_prob : ndarray
}.

(** [e["a"]]: a tuple whose first item is the action array, or the array. *)
Inductive Action :=
| ATuple (items : list ndarray)
| AArray (arr : ndarray).

(** One transition of a rollout, a dict in the source. The keys ["a"],
    ["obs"], ["obs_"], ["r"] and ["gamma"] are read without a test and are
    fields here; ["supplement"] and ["self_r"] are tested for. *)
Record Exp := {
  e_a : Action;
  e_obs : Obs;
  e_obs_ : Obs;
  e_r : ndarray;
  e_gamma : ndarray;
  e_supplement : option Supplement;
  e_self_r : option ndarray
}.

(** A value of the dict that [batchize_exp] returns. *)
Inductive value :=
| Arr (a : ndarray)
| ObsV (o : Obs)
| Sups (l : list Supplement).

(** [d[key]] *)
Definition getitem {S} (d : gmap string value) (key : string) : M S value :=
  match d !! key with
  | Some v => ret v
  | None => raise (KeyError key)
  end.

Definition as_array {S} (v : value) : M S ndarray :=
  match v with Arr a => ret a | _ => raise (TypeError "ndarray expected") end.
Definition as_obs {S} (v : value) : M S Obs :=
  match v with ObsV o => ret o | _ => raise (TypeError "observation expected") end.
Definition as_supplements {S} (v : value) : M S (list Supplement) :=
  match v with Sups l => ret l | _ => raise (TypeError "list expected") end.

(** [[f(e) for e in l]] *)
Fixpoint comprehension {S A B} (f : A -> M S B) (l : list A) : M S (list B) :=
  match l with
  | [] => ret []
  | e :: l' => (y <- f e ;; ys <- comprehension f l' ;; ret (y :: ys))%py
  end.

(** [e["a"][0]] *)
Definition action_first {S} (a : Action) : M S ndarray :=
  match a with
  | ATuple (a0 :: _) => ret a0
  | ATuple [] => raise IndexError
  | AArray arr => ret (np_getitem0 arr)
  end.

(** [e["a"]] handed to [np.hstack] *)
Definition action_array (a : Action) : ndarray :=
  match a with
  | ATuple items => np_of_tuple items
  | AArray arr => arr
  end.

(** [e[key]] for a key that may be absent *)
Definition optional_item {S A} (key : string) (o : option A) : M S A :=
  match o with
  | Some v => ret v
  | None => raise (KeyError key)
  end.

(** [isinstance(a, tuple)] *)
Definition is_tuple (a : Action) : bool :=
  match a with ATuple _ => true | AArray _ => false end.

Definition batchize_exp {S} (batch : list Exp) : M S (gmap string value) :=
  match batch with
  | [] => ret ∅
  | batch0 :: _ =>
      (a <- (if is_tuple (e_a batch0)
             then l <- comprehension (fun e => action_first (e_a e)) batch ;; ret (np_hstack l)
             else ret (np_hstack ((fun e => action_array (e_a e)) <$> batch))) ;;
       let s := batchize (e_obs <$> batch) in
       let s_ := batchize (e_obs_ <$> batch) in
       let tot_r := np_array ((fun e => np_sum (e_r e)) <$> batch) in
       let r := np_hstack (e_r <$> batch) in
       let gamma := np_hstack (e_gamma <$> batch) in
       let rlt : gmap string value :=
         <["gamma" := Arr gamma]> (<["tot_r" := Arr tot_r]> (<["r" := Arr r]>
           (<["s_" := ObsV s_]> (<["s" := ObsV s]> (<["a" := Arr a]> ∅))))) in
       rlt <- (if bool_decide (is_Some (e_supplement batch0))
               then l <- comprehension (fun e => optional_item "supplement" (e_supplement e)) batch ;;
                    ret (<["supplement" := Sups l]> rlt)
               else ret rlt) ;;
       rlt <- (if bool_decide (is_Some (e_self_r batch0))
               then l <- comprehension (fun e => optional_item "self_r" (e_self_r e)) batch ;;
                    ret (<["self_r" := Arr (np_hstack l)]> rlt)
               else ret rlt) ;;
       ret rlt)%py
  end.

(** *** The trainer *)

(** One call of [writer.add_scalar(tag, value, step)]. *)
Record Scalar := {
  tag : string;
  scalar_value : Tensor;
  global_step : Z
}.

(** The attributes of an [AttGnnPPO]. A network attribute holds the
    network's [state_dict]; [writer] holds what was written so far, oldest
    first. The logger and the device have no part in what follows. *)
Record AttGnnPPO := {
  emb_dim : Z;
  channel_cnt : Z;
  neighbor_cnt : Z;
  per_graph_size : Z;
  gamma : Q;
  temporal_gnn : GnnParams;
  policy : PolicyParams;
  old_policy : PolicyParams;
  old_temporal_gnn : GnnParams;
  temporal_gnn_opt : GnnOpt;
  policy_opt : PolicyOpt;
  K_epochs : nat;
  eps_clip : Q;
  writer : list Scalar
}.

(** The trainer together with the two module-level counters. *)
Record State := {
  self : AttGnnPPO;
  epoch_count : Z;
  itr_count : Z
}.

(** The tags of the writer end in a backslash. *)
Definition backslash : string := String (ascii_of_nat 92) "".

(** [AttGnnPPO(node_dim, channel_cnt, graph_size, log_pth, emb_dim=..,
    neighbor_cnt=.., gamma=..)]: [deepcopy] gives the old networks the
    parameters of the new ones. *)
Definition __init__ (node_dim channel_cnt graph_size : Z) (kargs_emb_dim kargs_neighbor_cnt : Z)
    (kargs_gamma : Q) : AttGnnPPO :=
  let temporal_gnn := LinearBackend node_dim kargs_emb_dim channel_cnt in
  let policy := AttTransPolicy kargs_emb_dim kargs_neighbor_cnt graph_size in
  {| emb_dim := kargs_emb_dim;
     channel_cnt := channel_cnt;
     neighbor_cnt := kargs_neighbor_cnt;
     per_graph_size := graph_size;
     gamma := kargs_gamma;
     temporal_gnn := temporal_gnn;
     policy := policy;
     old_policy := policy;
     old_temporal_gnn := temporal_gnn;
     temporal_gnn_opt := Adam_gnn temporal_gnn (3 # 10000);
     policy_opt := Adam_policy policy (3 # 10000);
     K_epochs := 4%nat;
     eps_clip := 2 # 10;
     writer := [] |}.

(** The module as it is when it has been imported and a trainer made. *)
Definition start (trainer : AttGnnPPO) : State :=
  {| self := trainer; epoch_count := 0; itr_count := 0 |}.

(** An assignment to attributes of [self]. *)
Definition with_self (f : AttGnnPPO -> AttGnnPPO) (st : State) : State :=
  {| self := f (self st); epoch_count := epoch_count st; itr_count := itr_count st |}.

(** [self.writer.add_scalar(t, v, step)] *)
Definition add_scalar (t : string) (v : Tensor) (step : Z) : M State unit :=
  modify (with_self (fun a =>
    {| emb_dim := emb_dim a; channel_cnt := channel_cnt a; neighbor_cnt := neighbor_cnt a;
       per_graph_size := per_graph_size a; gamma := gamma a;
       temporal_gnn := temporal_gnn a; policy := policy a;
       old_policy := old_policy a; old_temporal_gnn := old_temporal_gnn a;
       temporal_gnn_opt := temporal_gnn_opt a; policy_opt := policy_opt a;
       K_epochs := K_epochs a; eps_clip := eps_clip a;
       writer := writer a ++ [{| tag := t; scalar_value := v; global_step := step |}] |})).

(** The four things an optimizer step changes. *)
Definition set_networks (g : GnnParams) (gopt : GnnOpt) (p : PolicyParams) (popt : PolicyOpt)
    (a : AttGnnPPO) : AttGnnPPO :=
  {| emb_dim := emb_dim a; channel_cnt := channel_cnt a; neighbor_cnt := neighbor_cnt a;
     per_graph_size := per_graph_size a; gamma := gamma a;
     temporal_gnn := g; policy := p;
     old_policy := old_policy a; old_temporal_gnn := old_temporal_gnn a;
     temporal_gnn_opt := gopt; policy_opt := popt;
     K_epochs := K_epochs a; eps_clip := eps_clip a;
     writer := writer a |}.

(** [self.old_policy.load_state_dict(self.policy.state_dict())] and
    [self.old_temporal_gnn.load_state_dict(self.temporal_gnn.state_dict())] *)
Definition load_old_networks (a : AttGnnPPO) : AttGnnPPO :=
  {| emb_dim := emb_dim a; channel_cnt := channel_cnt a; neighbor_cnt := neighbor_cnt a;
     per_graph_size := per_graph_size a; gamma := gamma a;
     temporal_gnn := temporal_gnn a; policy := policy a;
     old_policy := policy a; old_temporal_gnn := temporal_gnn a;
     temporal_gnn_opt := temporal_gnn_opt a; policy_opt := policy_opt a;
     K_epochs := K_epochs a; eps_clip := eps_clip a;
     writer := writer a |}.

(** [act]: everything runs under [torch.no_grad()] and nothing is assigned,
    so the trainer is an argument only. *)
Definition act (a : AttGnnPPO) (obs : Obs) : ndarray * ndarray * Supplement :=
  let o := obs_to_torch obs in
  let emb := gnn_forward Eval (old_temporal_gnn a) (x o) (edge_idx_list o) in
  let out := policy_forward Eval (old_policy a) emb (action_edge_idx o) (actual_amount o) in
  (to_numpy (choice out), to_numpy (cnt out),
   {| choice_att := att out;
      att_prob := to_numpy (torch_log (t_getitem0_at (att out) (choice out))) |}).

Definition supplement2torch (sup : list Supplement) : Tensor :=
  let tmp := (fun sup_i => np_reshape (att_prob sup_i) [-1]) <$> sup in
  torch_from_numpy (np_vstack tmp).

(** The locals of [grad] that are set before the loop and read in it. *)
Record Locals := {
  rewards : Tensor;
  gamma_rep : Tensor;
  s : TorchObs;
  s_ : TorchObs;
  old_actions : Tensor;
  old_logprobs : Tensor
}.

(** The tensors of one pass of the loop body. *)
Record Pass := {
  ratios : Tensor;
  advantages : Tensor;
  surr1 : Tensor;
  surr2 : Tensor;
  ploss : Tensor;
  mloss : Tensor;
  att_entropy : Tensor;
  loss : Tensor
}.

(** [t.detach()]: the value of [t], cut off from the parameters it was
    computed from. *)
Definition detach (t : Tensor) : Tensor := t.

(** The loop body down to [loss], as a function of the parameters [theta_g]
    and [theta_p] that [backward] differentiates in. The trainer [a] gives
    the old networks, and its present parameters give the detached
    [state_values]. [rewards.float()] is [rewards]: it came out of
    [from_numpy(torch.FloatTensor, ..)], and [float()] returns a float tensor
    as it is. *)
Definition forward (a : AttGnnPPO) (l : Locals) (theta_g : GnnParams) (theta_p : PolicyParams) : Pass :=
  let values_of g p := policy_value Train p (gnn_forward Train g (x (s l)) (edge_idx_list (s l))) in
  let ts_emb := gnn_forward Train theta_g (x (s l)) (edge_idx_list (s l)) in
  let ts_emb_ := gnn_forward Eval (old_temporal_gnn a) (x (s_ l)) (edge_idx_list (s_ l)) in
  let out := policy_forward Train theta_p ts_emb (action_edge_idx (s l)) (actual_amount (s l)) in
  let att_dist := t_reshape (att out) [-1; neighbor_cnt a + 1] in
  let action_logprobs := categorical_log_prob att_dist (t_reshape (t_getitem0 (old_actions l)) [-1]) in
  let att_entropy := categorical_entropy att_dist in
  let state_values := policy_value Train theta_p ts_emb in
  let state_values_ := detach (policy_value Eval (old_policy a) ts_emb_) in
  let ratios := torch_exp (t_sub action_logprobs (detach (old_logprobs l))) in
  let rewards := rewards l in
  let advantages :=
    t_sub (t_add rewards (t_mul (gamma_rep l) state_values_))
          (detach (values_of (temporal_gnn a) (policy a))) in
  let advantages := t_sum_last advantages in
  let surr1 := t_mul ratios advantages in
  let surr2 := t_mul (torch_clamp ratios (1 - eps_clip a) (1 + eps_clip a)) advantages in
  let ploss := t_neg (torch_min surr1 surr2) in
  let mloss := mse_loss state_values (t_add rewards (t_mul (gamma_rep l) state_values_)) in
  let loss := t_sub (t_add ploss mloss) (t_scale (1 # 100) att_entropy) in
  {| ratios := ratios; advantages := advantages; surr1 := surr1; surr2 := surr2;
     ploss := ploss; mloss := mloss; att_entropy := att_entropy; loss := loss |}.

(** One pass of [for _ in range(self.K_epochs)]: it returns [loss.mean()],
    which the loop appends to [loss_ret]. The two [print] calls are left
    out. [zero_grad], [backward] and the two [step] calls are the two
    [adam_step]s: both gradients are taken at the parameters the pass starts
    from. *)
Definition epoch (l : Locals) : M State Tensor :=
  (st <- get ;;
   let a := self st in
   let pass := forward a l (temporal_gnn a) (policy a) in
   add_scalar ("policy loss" +:+ backslash) (t_mean (ploss pass)) (itr_count st) ;;;
   add_scalar ("mse loss" +:+ backslash) (t_mean (mloss pass)) (itr_count st) ;;;
   add_scalar ("entropy" +:+ backslash) (t_mean (att_entropy pass)) (itr_count st) ;;;
   let objective g p := t_mean (loss (forward a l g p)) in
   let '(gopt, g) := adam_step_gnn (temporal_gnn_opt a) (fun g => objective g (policy a)) (temporal_gnn a) in
   let '(popt, p) := adam_step_policy (policy_opt a) (fun p => objective (temporal_gnn a) p) (policy a) in
   modify (with_self (set_networks g gopt p popt)) ;;;
   modify (fun st => {| self := self st; epoch_count := epoch_count st; itr_count := itr_count st + 1 |}) ;;;
   ret (t_mean (loss pass)))%py.

Fixpoint epochs (n : nat) (l : Locals) (loss_ret : list Tensor) : M State (list Tensor) :=
  match n with
  | O => ret loss_ret
  | S n' => (loss_mean <- epoch l ;; epochs n' l (loss_ret ++ [loss_mean]))%py
  end.

(** [sum(loss_ret)]: Python starts from the integer 0. *)
Definition py_sum (ts : list Tensor) : option Tensor :=
  match ts with
  | [] => None
  | t :: ts' => Some (fold_left t_add ts' (t_radd_int 0 t))
  end.

(** [grad]. The two [print] calls are left out. *)
Definition grad (batch : list Exp) : M State unit :=
  (batch <- batchize_exp batch ;;
   r <- getitem batch "r" ;;
   r <- as_array r ;;
   st <- get ;;
   let rewards := t_reshape (torch_from_numpy r) [-1; per_graph_size (self st)] in
   add_scalar ("Reward" +:+ backslash) (t_mean rewards) (epoch_count st) ;;;
   tot_gamma <- getitem batch "gamma" ;;
   tot_gamma <- as_array tot_gamma ;;
   let tot_gamma := torch_from_numpy tot_gamma in
   let gamma := t_repeat (t_reshape tot_gamma [-1; 1]) [1; per_graph_size (self st)] in
   bs <- getitem batch "s" ;;
   bs <- as_obs bs ;;
   bs_ <- getitem batch "s_" ;;
   bs_ <- as_obs bs_ ;;
   a <- getitem batch "a" ;;
   a <- as_array a ;;
   let old_actions := t_reshape (torch_from_numpy a) [2; -1] in
   sup <- getitem batch "supplement" ;;
   sup <- as_supplements sup ;;
   let supplement := t_float (supplement2torch sup) in
   let old_logprobs := t_reshape supplement [-1] in
   let locals := {| rewards := rewards; gamma_rep := gamma;
                    s := obs_to_torch bs; s_ := obs_to_torch bs_;
                    old_actions := old_actions; old_logprobs := old_logprobs |} in
   loss_ret <- epochs (K_epochs (self st)) locals [] ;;
   modify (with_self load_old_networks) ;;;
   st <- get ;;
   match py_sum loss_ret with
   | None => raise ZeroDivisionError
   | Some total =>
       add_scalar ("Loss" +:+ backslash) (t_div_int total (Z.of_nat (length loss_ret))) (epoch_count st) ;;;
       modify (fun st => {| self := self st; epoch_count := epoch_count st + 1; itr_count := itr_count st |})
   end)%py.

(** *** [grad], step by step

    Names for what [grad] computes on the way, to state what it does. *)

(** [[e["supplement"] for e in batch]] *)
Definition supplements_of (batch : list Exp) : list Supplement := omap e_supplement batch.

(** [e["a"][0]], when there is one. *)
Definition first_item (a : Action) : option ndarray :=
  match a with
  | ATuple (a0 :: _) => Some a0
  | ATuple [] => None
  | AArray arr => Some (np_getitem0 arr)
  end.

(** The array under ["a"] in the dict of [batchize_exp]. *)
Definition actions_of (batch : list Exp) : ndarray :=
  match batch with
  | [] => np_hstack []
  | batch0 :: _ =>
      if is_tuple (e_a batch0) then np_hstack (omap (fun e => first_item (e_a e)) batch)
      else np_hstack ((fun e => action_array (e_a e)) <$> batch)
  end.

(** A batch that [grad] can read: it is not empty, every transition has its
    ["supplement"] and an action with a first item, and ["self_r"] is in all
    transitions when it is in the first. *)
Definition well_formed (batch : list Exp) : Prop :=
  batch <> [] /\
  Forall (fun e => is_Some (e_supplement e)) batch /\
  Forall (fun e => is_Some (first_item (e_a e))) batch /\
  (from_option (fun e => is_Some (e_self_r e)) False (head batch) ->
   Forall (fun e => is_Some (e_self_r e)) batch).

(** The locals of [grad] at the loop. *)
Definition locals_of (a : AttGnnPPO) (batch : list Exp) : Locals :=
  {| rewards := t_reshape (torch_from_numpy (np_hstack (e_r <$> batch))) [-1; per_graph_size a]%Z;
     gamma_rep := t_repeat (t_reshape (torch_from_numpy (np_hstack (e_gamma <$> batch))) [-1; 1]%Z)
                    [1; per_graph_size a]%Z;
     s := obs_to_torch (batchize (e_obs <$> batch));
     s_ := obs_to_torch (batchize (e_obs_ <$> batch));
     old_actions := t_reshape (torch_from_numpy (actions_of batch)) [2; -1]%Z;
     old_logprobs := t_reshape (t_float (supplement2torch (supplements_of batch))) [-1]%Z |}.

(** The trainer after one pass of the loop, and the [loss.mean()] of the
    pass. *)
Definition after_epoch (l : Locals) (st : State) : State := (epoch l st).1.

Definition loss_mean (l : Locals) (st : State) : Tensor :=
  t_mean (loss (forward (self st) l (temporal_gnn (self st)) (policy (self st)))).

(** The scalar that [backward] differentiates in pass of the loop that
    starts from the trainer [a]. *)
Definition objective (a : AttGnnPPO) (l : Locals) (g : GnnParams) (p : PolicyParams) : Tensor :=
  t_mean (loss (forward a l g p)).

(** The state once ["Reward"] has been written, which is where the loop
    starts. *)
Definition log_reward (l : Locals) (st : State) : State :=
  (add_scalar ("Reward" +:+ backslash) (t_mean (rewards l)) (epoch_count st) st).1.

(** What [grad] does after the loop. *)
Definition finish (loss_ret : list Tensor) : M State unit :=
  (modify (with_self load_old_networks) ;;;
   st <- get ;;
   match py_sum loss_ret with
   | None => raise ZeroDivisionError
   | Some total =>
       add_scalar ("Loss" +:+ backslash) (t_div_int total (Z.of_nat (length loss_ret))) (epoch_count st) ;;;
       modify (fun st => {| self := self st; epoch_count := (epoch_count st + 1)%Z; itr_count := itr_count st |})
   end)%py.

(** The trainer at the start of pass [k] of the loop, counted from 0. *)
Definition at_pass (st : State) (batch : list Exp) (k : nat) : State :=
  let l := locals_of (self st) batch in
  Nat.iter k (after_epoch l) (log_reward l st).

(** The attributes that are set in [__init__] and read afterwards. *)
Definition constants (a : AttGnnPPO) : nat * Q * Z * Z :=
  (K_epochs a, eps_clip a, neighbor_cnt a, per_graph_size a).

(** A statement that leaves them as they are, however it ends. *)
Definition keeps {A} (m : M State A) : Prop :=
  forall st, constants (self (m st).1) = constants (self st).

(** The states the module can be in: a trainer has been made, and [grad]
    has been called any number of times. *)
Inductive reachable : State -> Prop :=
| reachable_start node_dim channel_cnt graph_size kargs_emb_dim kargs_neighbor_cnt kargs_gamma :
    reachable (start (__init__ node_dim channel_cnt graph_size kargs_emb_dim kargs_neighbor_cnt kargs_gamma))
| reachable_grad st batch :
    reachable st -> reachable (grad batch st).1.

(** *** The terms of the loss *)

(** The value head of the network with parameters [g] and [p] on [o]. *)
Definition value_of (m : mode) (g : GnnParams) (p : PolicyParams) (o : TorchObs) : Tensor :=
  policy_value m p (gnn_forward m g (x o) (edge_idx_list o)).

(** The log-probability that the policy with parameters [g] and [p] gives
    the stored actions. *)
Definition action_logprobs (nb : Z) (g : GnnParams) (p : PolicyParams) (l : Locals) : Tensor :=
  let ts_emb := gnn_forward Train g (x (s l)) (edge_idx_list (s l)) in
  let out := policy_forward Train p ts_emb (action_edge_idx (s l)) (actual_amount (s l)) in
  categorical_log_prob (t_reshape (att out) [-1; nb + 1]%Z)
                       (t_reshape (t_getitem0 (old_actions l)) [-1]%Z).

(** [reward + gamma * lagged-value(s_)], the lagged networks being those
    with the parameters [lag_g] and [lag_p]. *)
Definition td_target (lag_g : GnnParams) (lag_p : PolicyParams) (l : Locals) : Tensor :=
  t_add (rewards l) (t_mul (gamma_rep l) (value_of Eval lag_g lag_p (s_ l))).

(** [reward + gamma * lagged-value(s_) - current-value(s)], one entry per
    node, the current networks being those with the parameters [g] and [p]. *)
Definition td_residual (target : Tensor) (g : GnnParams) (p : PolicyParams) (l : Locals) : Tensor :=
  t_sub target (value_of Train g p (s l)).

(** [-min(ratio*A, clamp(ratio, 1-eps, 1+eps)*A) + value_loss - c*entropy] *)
Definition clipped_surrogate_loss (eps c : Q) (ratio A value_loss entropy : Tensor) : Tensor :=
  t_sub (t_add (t_neg (torch_min (t_mul ratio A) (t_mul (torch_clamp ratio (1 - eps) (1 + eps)) A)))
               value_loss)
        (t_scale c entropy).

(** *** What [grad] can change, and what it writes *)

(** The parameters, the optimizer states and the two counters. *)
Definition training_state (st : State) :=
  (temporal_gnn (self st), policy (self st), old_temporal_gnn (self st), old_policy (self st),
   temporal_gnn_opt (self st), policy_opt (self st), epoch_count st, itr_count st).

(** A statement that leaves the state as it is and comes to an end. *)
Definition stateless {S A} (m : M S A) : Prop :=
  forall st, (m st).1 = st /\ (m st).2 <> Running.

(** The call of [add_scalar] before the loop, the three of a pass, and the
    one after the loop. *)
Definition reward_scalar (st : State) (v : Tensor) : Scalar :=
  {| tag := "Reward" +:+ backslash; scalar_value := v; global_step := epoch_count st |}.

Definition pass_scalars (l : Locals) (st : State) : list Scalar :=
  let a := self st in
  let pass := forward a l (temporal_gnn a) (policy a) in
  [ {| tag := "policy loss" +:+ backslash; scalar_value := t_mean (ploss pass);
       global_step := itr_count st |};
    {| tag := "mse loss" +:+ backslash; scalar_value := t_mean (mloss pass);
       global_step := itr_count st |};
    {| tag := "entropy" +:+ backslash; scalar_value := t_mean (att_entropy pass);
       global_step := itr_count st |} ].

Definition loss_scalar (st : State) (loss_ret : list Tensor) : list Scalar :=
  match py_sum loss_ret with
  | Some total =>
      [ {| tag := "Loss" +:+ backslash;
           scalar_value := t_div_int total (Z.of_nat (length loss_ret));
           global_step := epoch_count st |} ]
  | None => []
  end.

(** *** [batchize_exp], entry by entry *)

(** The six entries that every dict of [batchize_exp] has, [a] being the
    array of the actions. *)
Definition entries (a : ndarray) (batch : list Exp) : gmap string value :=
  <["gamma" := Arr (np_hstack (e_gamma <$> batch))]>
    (<["tot_r" := Arr (np_array ((fun e => np_sum (e_r e)) <$> batch))]>
       (<["r" := Arr (np_hstack (e_r <$> batch))]>
          (<["s_" := ObsV (batchize (e_obs_ <$> batch))]>
             (<["s" := ObsV (batchize (e_obs <$> batch))]> (<["a" := Arr a]> ∅))))).

(** The array of the actions: the first transition decides whether the
    first items are taken, and there is none when a first item is asked of
    an empty tuple. *)
Definition stacked_actions (batch : list Exp) : option ndarray :=
  match batch with
  | [] => None
  | batch0 :: _ =>
      if is_tuple (e_a batch0) then np_hstack <$> mapM (fun e => first_item (e_a e)) batch
      else Some (np_hstack ((fun e => action_array (e_a e)) <$> batch))
  end.


(** A batch that [grad] reads up to its loop: the actions can be stacked,
    every transition has its ["supplement"], and ["self_r"] is in all
    transitions when it is in the first. Such a batch is not empty. *)
Definition readable (batch : list Exp) : Prop :=
  is_Some (stacked_actions batch) /\
  Forall (fun e => is_Some (e_supplement e)) batch /\
  (from_option (fun e => is_Some (e_self_r e)) False (head batch) ->
   Forall (fun e => is_Some (e_self_r e)) batch).

End Trainer.

(** *** A small instance to run the trainer on

    Tensors and arrays are matrices of rationals, a vector being a matrix of
    one column; operations broadcast a single row or a single entry. The
    exponential and the logarithm are cut after their linear term, the two
    networks have one weight each, and the optimizer steps along a finite
    difference. None of the general statements below depends on it. *)

Module Small.
Local Open Scope Q_scope.

Abbreviation matrix := (list (list Q)).

Definition elementwise (f : Q -> Q) (m : matrix) : matrix :=
  (fun r : list Q => (fun v => Qred (f v)) <$> r) <$> m.

Definition row_op (f : Q -> Q -> Q) (ra rb : list Q) : list Q :=
  match ra, rb with
  | [a], _ => (fun b => Qred (f a b)) <$> rb
  | _, [b] => (fun a => Qred (f a b)) <$> ra
  | _, _ => zip_with (fun a b => Qred (f a b)) ra rb
  end.

Definition broadcast (f : Q -> Q -> Q) (ma mb : matrix) : matrix :=
  match ma, mb with
  | [ra], _ => row_op f ra <$> mb
  | _, [rb] => (fun ra : list Q => row_op f ra rb) <$> ma
  | _, _ => zip_with (row_op f) ma mb
  end.

Definition total (r : list Q) : Q := Qred (foldr Qplus 0 r).

Fixpoint rows_of (fuel n : nat) (l : list Q) : matrix :=
  match fuel, l with
  | S fuel', _ :: _ => take n l :: rows_of fuel' n (drop n l)
  | _, _ => []
  end.

Definition shaped (m : matrix) (shape : list Z) : matrix :=
  let l := concat m in
  match shape with
  | [-1; n]%Z => rows_of (length l) (Z.to_nat n) l
  | [-1]%Z => (fun v => [v]) <$> l
  | [n; -1]%Z => rows_of (length l) (length l / Z.to_nat n) l
  | _ => m
  end.

Definition repeated (m : matrix) (sizes : list Z) : matrix :=
  match sizes with
  | [1; n]%Z => (fun r : list Q => concat (replicate (Z.to_nat n) r)) <$> m
  | _ => m
  end.

Definition mean (m : matrix) : matrix :=
  let l := concat m in [[Qred (total l / inject_Z (Z.of_nat (length l)))]].

Definition pick (r : list Q) (i : Q) : Q := nth (Z.to_nat (Qfloor i)) r 0.

#[export] Instance torch : Torch := {|
  ndarray := matrix;
  Tensor := matrix;
  np_hstack l := [concat (concat l)];
  np_vstack l := (fun a : matrix => concat a) <$> l;
  np_sum a := [[total (concat a)]];
  np_array l := [concat (concat l)];
  np_reshape := shaped;
  np_getitem0 a := take 1 a;
  np_of_tuple l := [concat (concat l)];
  torch_from_numpy a := a;
  to_numpy t := t;
  t_reshape := shaped;
  t_repeat := repeated;
  t_float t := t;
  t_mean := mean;
  t_sum_last m := (fun r : list Q => [total r]) <$> m;
  t_getitem0 m := take 1 m;
  t_getitem0_at m i := [pick (concat (take 1 m)) <$> concat i];
  t_add := broadcast Qplus;
  t_sub := broadcast Qminus;
  t_mul := broadcast Qmult;
  t_neg := elementwise Qopp;
  t_scale c := elementwise (Qmult c);
  t_div_int m n := elementwise (fun v => v / inject_Z n) m;
  t_radd_int z := elementwise (Qplus (inject_Z z));
  torch_exp := elementwise (fun v => 1 + v);
  torch_log := elementwise (fun v => v - 1);
  torch_min := broadcast Qmin;
  torch_clamp m lo hi := elementwise (fun v => Qmax lo (Qmin v hi)) m;
  mse_loss a b := mean (elementwise (fun v => v * v) (broadcast Qminus a b));
  categorical_log_prob probs v :=
    zip_with (fun r i => [Qred (pick r i - 1)]) probs (concat v);
  categorical_entropy probs :=
    (fun r : list Q => [Qred (- total ((fun p => p * (p - 1)) <$> r))]) <$> probs
|}.

Definition scalar_of (m : matrix) : Q := pick (concat m) 0.

#[export] Instance models : Models := {|
  Obs := matrix;
  GnnParams := Q;
  PolicyParams := Q;
  GnnOpt := Q;
  PolicyOpt := Q;
  batchize l := concat l;
  obs_to_torch o :=
    {| x := o; edge_idx_list := []; action_edge_idx := []; actual_amount := [];
       obs_per_graph_size := Z.of_nat (length (concat (take 1 o))) |};
  LinearBackend _ _ _ := 1;
  AttTransPolicy _ _ _ := 1 # 2;
  gnn_forward _ w x _ := elementwise (Qmult w) x;
  policy_forward _ p emb _ _ :=
    {| choice := (fun _ : list Q => [0]) <$> emb;
       cnt := (fun _ : list Q => [1]) <$> emb;
       att := (fun _ : list Q => [Qred p; Qred (1 - p)]) <$> emb |};
  policy_value _ p emb := elementwise (Qmult p) emb;
  Adam_gnn _ lr := lr;
  Adam_policy _ lr := lr;
  adam_step_gnn lr f w := (lr, Qred (w - lr * (scalar_of (f (w + 1)) - scalar_of (f w))));
  adam_step_policy lr f p := (lr, Qred (p - lr * (scalar_of (f (p + 1)) - scalar_of (f p))))
|}.

(** One graph of two stations, one neighbour each. *)
Definition trainer : AttGnnPPO := __init__ 1 1 2 1 1 (9 # 10).

(** One transition, its supplement being what [act] returned for it. *)
Definition transition : Exp :=
  {| e_a := AArray [[0; 1]];
     e_obs := [[1; 2]];
     e_obs_ := [[2; 1]];
     e_r := [[1; 2]];
     e_gamma := [[9 # 10]];
     e_supplement := Some (snd (act trainer [[1; 2]]));
     e_self_r := None |}.

(** The same transition without its supplement. *)
Definition unsupplemented : Exp :=
  {| e_a := AArray [[0; 1]];
     e_obs := [[1; 2]];
     e_obs_ := [[2; 1]];
     e_r := [[1; 2]];
     e_gamma := [[9 # 10]];
     e_supplement := None;
     e_self_r := None |}.

(** The module after one call of [grad]. *)
Definition trained : State := (grad [transition] (start trainer)).1.


End Small.

End PPO.

(** * Properties of the monad *)

Module PyFacts.
Import Py.

Lemma bind_returns {S A B} (m : M S A) (k : A -> M S B) st st' v :
  m st = (st', Return v) -> bind m k st = k v st'.
Proof. intros Hm. unfold bind. by rewrite Hm. Qed.

End PyFacts.

(** * Properties of the data-center pipeline *)

Module DataCenterFacts.
Import Py DataCenter.

Ltac in_headers :=
  unfold required_headers;
  first [ solve [repeat first [apply list_elem_of_here | apply list_elem_of_further]]
        | rewrite !not_elem_of_cons; split_and!; first [assumption | apply not_elem_of_nil] ].

Ltac decide_keys :=
  repeat first [ rewrite decide_True by reflexivity
               | rewrite decide_False by (first [discriminate | congruence]) ].

Section VmTable.
Context `{Pandas}.

(** ** [_process_vm_table] *)

Lemma process_frame_rows df :
  rows (process_frame df) =
  merge_sort (by_column "vmcreated")
    (add_lifetime <$> filter (fun r => cell_le (at_col r "vmdeleted") 43 = true)
       (filter complete (coerce <$> (project <$> rows df)))).
Proof.
  unfold process_frame. simpl. rewrite <- !list_fmap_compose. reflexivity.
Qed.

Lemma at_col_project raw c : c ∈ required_headers -> at_col (project raw) c = at_col raw c.
Proof.
  intros Hc. unfold at_col, project. rewrite !lookup_total_alt.
  destruct (raw !! c) as [x|] eqn:E.
  - erewrite (proj2 (map_lookup_filter_Some _ raw c x)); [done | split; [done | exact Hc]].
  - rewrite (proj2 (map_lookup_filter_None _ raw c)); [done | by left].
Qed.

Lemma project_other raw i : i ∉ required_headers -> project raw !! i = None.
Proof.
  intros Hi. apply map_lookup_filter_None. right. intros x _ Hin. by apply Hi.
Qed.

Lemma at_col_coerce r :
  at_col (coerce r) "vmid" = at_col r "vmid" /\
  at_col (coerce r) "vmcreated" = floordiv (to_numeric (at_col r "vmcreated")) 300 /\
  at_col (coerce r) "vmdeleted" = floordiv (to_numeric (at_col r "vmdeleted")) 300 /\
  at_col (coerce r) "vmcorecountbucket" = to_numeric (at_col r "vmcorecountbucket") /\
  at_col (coerce r) "vmmemorybucket" = to_numeric (at_col r "vmmemorybucket").
Proof.
  unfold coerce, at_col. cbv zeta.
  repeat split;
    repeat first [ rewrite lookup_total_insert_eq | rewrite lookup_total_insert_ne by done ]; reflexivity.
Qed.

Lemma code_row_lookup raw i :
  code_row raw !! i =
  if decide (i = "lifetime") then
    Some (cell_sub (floordiv (to_numeric (at_col raw "vmdeleted")) 300)
                   (floordiv (to_numeric (at_col raw "vmcreated")) 300))
  else if decide (i = "vmmemorybucket") then Some (to_numeric (at_col raw "vmmemorybucket"))
  else if decide (i = "vmcorecountbucket") then Some (to_numeric (at_col raw "vmcorecountbucket"))
  else if decide (i = "vmdeleted") then Some (floordiv (to_numeric (at_col raw "vmdeleted")) 300)
  else if decide (i = "vmcreated") then Some (floordiv (to_numeric (at_col raw "vmcreated")) 300)
  else if decide (i = "vmid") then raw !! "vmid"
  else None.
Proof.
  destruct (at_col_coerce (project raw)) as (_ & Hc & Hd & _ & _).
  rewrite !at_col_project in Hc, Hd by (in_headers).
  unfold code_row, add_lifetime. rewrite Hc, Hd.
  rewrite lookup_insert.
  destruct (decide (i = "lifetime")) as [->|?]; [by decide_keys|]. decide_keys.
  unfold coerce. cbv zeta.
  assert (Hat : forall (m : gmap string cell) k v c, k <> c -> at_col (<[k := v]> m) c = at_col m c).
  { intros. unfold at_col. by rewrite lookup_total_insert_ne. }
  rewrite !Hat by done.
  rewrite !at_col_project by (in_headers).
  rewrite !lookup_insert.
  destruct (decide (i = "vmmemorybucket")) as [->|?]; [by decide_keys|].
  destruct (decide (i = "vmcorecountbucket")) as [->|?]; [by decide_keys|].
  destruct (decide (i = "vmdeleted")) as [->|?]; [by decide_keys|].
  destruct (decide (i = "vmcreated")) as [->|?]; [by decide_keys|].
  destruct (decide (i = "vmid")) as [->|?]; decide_keys.
  - unfold project.
    destruct (raw !! "vmid") as [x|] eqn:Eid.
    + apply map_lookup_filter_Some. split; [done | in_headers].
    + apply map_lookup_filter_None. by left.
  - apply project_other. in_headers.
Qed.

Lemma to_numeric_not_text c s : to_numeric c <> Text s.
Proof. destruct c; simpl; try done. by destruct (numeric_of_text _). Qed.

Lemma at_col_present (raw : gmap string cell) c : at_col raw c <> NaN -> raw !! c = Some (at_col raw c).
Proof.
  unfold at_col. rewrite lookup_total_alt. by destruct (raw !! c).
Qed.

Lemma complete_iff r :
  complete r <->
  isna (at_col r "vmid") = false /\ isna (at_col r "vmcreated") = false /\
  isna (at_col r "vmdeleted") = false /\ isna (at_col r "vmcorecountbucket") = false /\
  isna (at_col r "vmmemorybucket") = false.
Proof.
  unfold complete, required_headers. rewrite !Forall_cons, Forall_nil. tauto.
Qed.

(** The row-wise steps of the code make the row of the specification, or
    drop the row where the specification has none. *)
Lemma cleaned_row_code raw :
  match cleaned_row raw with
  | Some r =>
      complete (coerce (project raw)) /\
      cell_le (at_col (coerce (project raw)) "vmdeleted") 43 = true /\
      code_row raw = r
  | None =>
      ~ (complete (coerce (project raw)) /\
         cell_le (at_col (coerce (project raw)) "vmdeleted") 43 = true)
  end.
Proof.
  destruct (at_col_coerce (project raw)) as (Hi & Hc & Hd & Hk & Hm).
  rewrite !at_col_project in Hi, Hc, Hd, Hk, Hm by in_headers.
  pose proof (complete_iff (coerce (project raw))) as Hcomp.
  rewrite Hi, Hc, Hd, Hk, Hm in Hcomp.
  pose proof (to_numeric_not_text (at_col raw "vmcreated")) as Tc.
  pose proof (to_numeric_not_text (at_col raw "vmdeleted")) as Td.
  pose proof (to_numeric_not_text (at_col raw "vmcorecountbucket")) as Tk.
  pose proof (to_numeric_not_text (at_col raw "vmmemorybucket")) as Tm.
  assert (Hlk := code_row_lookup raw).
  destruct (cleaned_row raw) as [r|] eqn:E; rewrite Hcomp, Hd; clear Hcomp;
    revert E; unfold cleaned_row, bucket, number;
    destruct (to_numeric (at_col raw "vmcreated")) as [|c|sc]; try (by destruct (Tc sc));
    destruct (to_numeric (at_col raw "vmdeleted")) as [|d|sd]; try (by destruct (Td sd));
    destruct (to_numeric (at_col raw "vmcorecountbucket")) as [|k|sk]; try (by destruct (Tk sk));
    destruct (to_numeric (at_col raw "vmmemorybucket")) as [|m|sm]; try (by destruct (Tm sm));
    destruct (at_col raw "vmid") as [|z|s] eqn:Eid; simpl;
    try case_bool_decide; intros E; simplify_eq;
    try (intros ((? & ? & ? & ? & ?) & ?); simpl in *; first [discriminate | by case_bool_decide]).
  all: split_and!; try done.
  all: apply map_eq; intros i; rewrite Hlk; simpl;
       rewrite (at_col_present raw "vmid") by (by rewrite Eid); rewrite Eid;
       rewrite !lookup_insert, lookup_empty;
       (destruct (decide (i = "lifetime")) as [->|?]; [by decide_keys|]);
       (destruct (decide (i = "vmmemorybucket")) as [->|?]; [by decide_keys|]);
       (destruct (decide (i = "vmcorecountbucket")) as [->|?]; [by decide_keys|]);
       (destruct (decide (i = "vmdeleted")) as [->|?]; [by decide_keys|]);
       (destruct (decide (i = "vmcreated")) as [->|?]; [by decide_keys|]);
       (destruct (decide (i = "vmid")) as [->|?]; by decide_keys).
Qed.

Lemma rows_cleaned (raws : list (gmap string cell)) :
  add_lifetime <$> filter (fun r => cell_le (at_col r "vmdeleted") 43 = true)
    (filter complete (coerce <$> (project <$> raws)))
  = omap cleaned_row raws.
Proof.
  induction raws as [|raw raws IH]; [done|].
  pose proof (cleaned_row_code raw) as Hrow.
  cbn [fmap list_fmap omap list_omap]. rewrite filter_cons.
  destruct (cleaned_row raw) as [r|].
  - destruct Hrow as (Hc & Hle & Hr).
    rewrite decide_True by done. rewrite filter_cons, decide_True by done.
    cbn [fmap list_fmap]. f_equal; [exact Hr | exact IH].
  - case_decide as Hc; [|exact IH].
    rewrite filter_cons. case_decide as Hle; [by destruct Hrow | exact IH].
Qed.

#[local] Instance cell_order_total : Total cell_order.
Proof. intros [|x|] [|y|]; simpl; try tauto. lia. Qed.

#[local] Instance cell_order_trans : Transitive cell_order.
Proof. intros [|x|] [|y|] [|z|]; simpl; try tauto. lia. Qed.

#[local] Instance by_column_total c : Total (by_column c).
Proof. intros r1 r2. apply cell_order_total. Qed.

#[local] Instance by_column_trans c : Transitive (by_column c).
Proof. intros r1 r2 r3. apply cell_order_trans. Qed.

Lemma process_frame_closed df :
  process_frame df =
  {| columns := (required_headers ++ ["lifetime"])%list;
     rows := merge_sort (by_column "vmcreated") (omap cleaned_row (rows df)) |}.
Proof.
  rewrite <- rows_cleaned, <- process_frame_rows. reflexivity.
Qed.

Lemma cleaned_row_created raw r :
  cleaned_row raw = Some r -> exists z, at_col r "vmcreated" = Num z.
Proof.
  unfold cleaned_row.
  destruct (at_col raw "vmid"), (bucket (at_col raw "vmcreated")) as [c|],
    (bucket (at_col raw "vmdeleted")) as [d|], (number (at_col raw "vmcorecountbucket")),
    (number (at_col raw "vmmemorybucket")); try done;
    case_bool_decide; try done; intros [= <-]; by exists c.
Qed.

Lemma sorted_keys (l : list (gmap string cell)) :
  StronglySorted (by_column "vmcreated") l ->
  Forall (fun r => exists z, at_col r "vmcreated" = Num z) l ->
  exists keys, (fun r => at_col r "vmcreated") <$> l = Num <$> keys /\ StronglySorted Z.le keys.
Proof.
  induction 1 as [|r l Hs IH Hall]; intros Hnum.
  - exists []. split; [done | constructor].
  - apply Forall_cons in Hnum as [[z Hz] Hnum].
    destruct (IH Hnum) as (keys & Hk & Hsorted).
    exists (z :: keys). split; [cbn; by rewrite Hz, Hk|].
    constructor; [done|].
    apply Forall_forall. intros k Hin.
    assert (Hin' : Num k ∈ (fun r => at_col r "vmcreated") <$> l)
      by (rewrite Hk; by apply list_elem_of_fmap_2).
    apply list_elem_of_fmap in Hin' as (r' & Hr' & Hl).
    rewrite Forall_forall in Hall. specialize (Hall r' Hl).
    unfold by_column in Hall. by rewrite Hz, <- Hr' in Hall.
Qed.

Lemma cleaned_row_offending raw : offending raw -> cleaned_row raw = None.
Proof.
  unfold offending, non_numeric, cleaned_row, bucket, number.
  intros [E|[E|[E|E]]]; rewrite E; clear E;
    destruct (at_col raw "vmid"); try done;
    repeat match goal with |- context [to_numeric ?c] => destruct (to_numeric c) end; done.
Qed.

(** What [cleaned_row] returns, spelled out. *)
Lemma cleaned_row_some raw r :
  cleaned_row raw = Some r <->
  exists c d k m,
    at_col raw "vmid" <> NaN /\
    to_numeric (at_col raw "vmcreated") = Num c /\
    to_numeric (at_col raw "vmdeleted") = Num d /\
    to_numeric (at_col raw "vmcorecountbucket") = Num k /\
    to_numeric (at_col raw "vmmemorybucket") = Num m /\
    (d / 300 <= 43)%Z /\
    r = list_to_map [("vmid", at_col raw "vmid"); ("vmcreated", Num (c / 300));
                     ("vmdeleted", Num (d / 300)); ("vmcorecountbucket", Num k);
                     ("vmmemorybucket", Num m); ("lifetime", Num (d / 300 - c / 300))].
Proof.
  unfold cleaned_row, bucket, number. split.
  - destruct (to_numeric (at_col raw "vmcreated")) as [|c|];
      [by destruct (at_col raw "vmid")| |by destruct (at_col raw "vmid")].
    destruct (to_numeric (at_col raw "vmdeleted")) as [|d|];
      [by destruct (at_col raw "vmid")| |by destruct (at_col raw "vmid")].
    destruct (to_numeric (at_col raw "vmcorecountbucket")) as [|k|];
      [by destruct (at_col raw "vmid")| |by destruct (at_col raw "vmid")].
    destruct (to_numeric (at_col raw "vmmemorybucket")) as [|m|];
      [by destruct (at_col raw "vmid")| |by destruct (at_col raw "vmid")].
    destruct (at_col raw "vmid") as [|z|s] eqn:Eid; [done| |];
      (case_bool_decide; [|done]); intros [= <-];
      exists c, d, k, m; split_and!; done.
  - intros (c & d & k & m & Hid & Hc & Hd & Hk & Hm & Hle & ->).
    rewrite Hc, Hd, Hk, Hm. rewrite bool_decide_eq_true_2 by done.
    by destruct (at_col raw "vmid").
Qed.

Lemma cleaned_row_columns raw r :
  cleaned_row raw = Some r ->
  exists c d,
    to_numeric (at_col raw "vmcreated") = Num c /\
    to_numeric (at_col raw "vmdeleted") = Num d /\
    (d / 300 <= 43)%Z /\
    at_col r "vmcreated" = Num (c / 300) /\
    at_col r "vmdeleted" = Num (d / 300) /\
    at_col r "lifetime" = Num (d / 300 - c / 300).
Proof.
  intros (c & d & k & m & _ & Hc & Hd & _ & _ & Hle & ->)%cleaned_row_some.
  exists c, d. split_and!; done.
Qed.

(** C6. For every table that [_process_vm_table] reads: the result has the
    five required columns and [lifetime]; its rows are, up to their order,
    the rows of the specification ([cleaned_row]: [vmcreated] and
    [vmdeleted] divided by 300 rounding down, [lifetime] their difference);
    the [vmcreated] column ascends; every row of the result has its
    [vmdeleted] bucket at most 43; a row whose bucket is more than 43 leaves
    no row; a row with all its values whose bucket is at most 43, so also
    exactly 43, is in the result; and a row with [vmcreated = 900] and
    [vmdeleted = 12900] is in the result with 3, 43 and lifetime 40. *)
Theorem process_vm_table_cleans (w : world) (path text : string) (records : list (list cell)) :
  fs w !! path = Some text ->
  csv_records text = Some records ->
  let table := label_record headers <$> records in
  exists out,
    _process_vm_table path w = (w, Return out) /\
    columns out = (required_headers ++ ["lifetime"])%list /\
    rows out ≡ₚ omap cleaned_row table /\
    (exists keys, (fun r => at_col r "vmcreated") <$> rows out = Num <$> keys /\
                  StronglySorted Z.le keys) /\
    (forall r, r ∈ rows out ->
       exists raw c d,
         raw ∈ table /\
         to_numeric (at_col raw "vmcreated") = Num c /\
         to_numeric (at_col raw "vmdeleted") = Num d /\
         (d / 300 <= 43)%Z /\
         at_col r "vmcreated" = Num (c / 300) /\
         at_col r "vmdeleted" = Num (d / 300) /\
         at_col r "lifetime" = Num (d / 300 - c / 300)) /\
    (forall raw d,
       to_numeric (at_col raw "vmdeleted") = Num d -> (43 < d / 300)%Z ->
       cleaned_row raw = None) /\
    (forall raw c d k m,
       raw ∈ table ->
       at_col raw "vmid" <> NaN ->
       to_numeric (at_col raw "vmcreated") = Num c ->
       to_numeric (at_col raw "vmdeleted") = Num d ->
       to_numeric (at_col raw "vmcorecountbucket") = Num k ->
       to_numeric (at_col raw "vmmemorybucket") = Num m ->
       (d / 300 <= 43)%Z ->
       exists r, r ∈ rows out /\
         at_col r "vmcreated" = Num (c / 300) /\
         at_col r "vmdeleted" = Num (d / 300) /\
         at_col r "lifetime" = Num (d / 300 - c / 300)) /\
    (forall raw k m,
       raw ∈ table ->
       at_col raw "vmid" <> NaN ->
       at_col raw "vmcreated" = Num 900 ->
       at_col raw "vmdeleted" = Num 12900 ->
       to_numeric (at_col raw "vmcorecountbucket") = Num k ->
       to_numeric (at_col raw "vmmemorybucket") = Num m ->
       exists r, r ∈ rows out /\
         at_col r "vmcreated" = Num 3 /\
         at_col r "vmdeleted" = Num 43 /\
         at_col r "lifetime" = Num 40).
Proof.
  intros Hfile Hcsv table.
  exists (process_frame (read_csv headers records)).
  split; [unfold _process_vm_table, bind, read_text, ret; by rewrite Hfile, Hcsv|].
  rewrite process_frame_closed. cbn [columns rows read_csv]. fold table.
  assert (Hkept : forall raw c d k m,
            raw ∈ table ->
            at_col raw "vmid" <> NaN ->
            to_numeric (at_col raw "vmcreated") = Num c ->
            to_numeric (at_col raw "vmdeleted") = Num d ->
            to_numeric (at_col raw "vmcorecountbucket") = Num k ->
            to_numeric (at_col raw "vmmemorybucket") = Num m ->
            (d / 300 <= 43)%Z ->
            exists r, r ∈ merge_sort (by_column "vmcreated") (omap cleaned_row table) /\
              at_col r "vmcreated" = Num (c / 300) /\
              at_col r "vmdeleted" = Num (d / 300) /\
              at_col r "lifetime" = Num (d / 300 - c / 300)).
  { intros raw c d k m Hin Hid Hc Hd Hk Hm Hle.
    eexists. split.
    - rewrite merge_sort_Permutation. apply list_elem_of_omap. exists raw. split; [done|].
      apply cleaned_row_some. exists c, d, k, m. split_and!; done.
    - done. }
  split; [done|]. split; [apply merge_sort_Permutation|].
  split.
  { apply sorted_keys; [apply (StronglySorted_merge_sort _)|].
    apply Forall_forall. intros r Hr.
    rewrite merge_sort_Permutation in Hr.
    apply list_elem_of_omap in Hr as (raw & _ & Hraw).
    by eapply cleaned_row_created. }
  split_and!.
  - intros r Hr. rewrite merge_sort_Permutation in Hr.
    apply list_elem_of_omap in Hr as (raw & Hin & Hraw).
    destruct (cleaned_row_columns raw r Hraw) as (c & d & ?). exists raw, c, d. by split.
  - intros raw d Hd Hgt. unfold cleaned_row, bucket, number. rewrite Hd.
    destruct (at_col raw "vmid"); try done;
      repeat match goal with |- context [to_numeric ?c] => destruct (to_numeric c) end; try done;
      by rewrite bool_decide_eq_false_2 by lia.
  - exact Hkept.
  - intros raw k m Hin Hid Hc Hd Hk Hm.
    apply (Hkept raw 900%Z 12900%Z k m); try done; by rewrite ?Hc, ?Hd.
Qed.

(** C9. When a row of the table has a value in [vmcreated], [vmdeleted],
    [vmcorecountbucket] or [vmmemorybucket] that is not a number,
    [_process_vm_table] returns. That row leaves no row. What is returned is
    what is returned for the table without it: its rows are, up to their
    order, the rows that the other rows of the table leave, every one of
    them comes from one of those other rows, and every other row of the
    table that has all its values and a [vmdeleted] bucket of at most 43 is
    in it, divided and with its [lifetime]. *)
Theorem process_vm_table_drops_offending
    (w : world) (path text : string) (pre post : list (list cell)) (bad : list cell) :
  fs w !! path = Some text ->
  csv_records text = Some (pre ++ bad :: post)%list ->
  offending (label_record headers bad) ->
  let rest := label_record headers <$> (pre ++ post)%list in
  exists out,
    _process_vm_table path w = (w, Return out) /\
    out = process_frame (read_csv headers (pre ++ post)%list) /\
    cleaned_row (label_record headers bad) = None /\
    rows out ≡ₚ omap cleaned_row rest /\
    (forall r, r ∈ rows out -> exists raw, raw ∈ rest /\ cleaned_row raw = Some r) /\
    (forall raw c d k m,
       raw ∈ rest ->
       at_col raw "vmid" <> NaN ->
       to_numeric (at_col raw "vmcreated") = Num c ->
       to_numeric (at_col raw "vmdeleted") = Num d ->
       to_numeric (at_col raw "vmcorecountbucket") = Num k ->
       to_numeric (at_col raw "vmmemorybucket") = Num m ->
       (d / 300 <= 43)%Z ->
       exists r, r ∈ rows out /\
         at_col r "vmid" = at_col raw "vmid" /\
         at_col r "vmcreated" = Num (c / 300) /\
         at_col r "vmdeleted" = Num (d / 300) /\
         at_col r "vmcorecountbucket" = Num k /\
         at_col r "vmmemorybucket" = Num m /\
         at_col r "lifetime" = Num (d / 300 - c / 300)).
Proof.
  intros Hfile Hcsv Hbad rest.
  exists (process_frame (read_csv headers (pre ++ post)%list)).
  assert (Hsame : process_frame (read_csv headers (pre ++ bad :: post)%list) =
                  process_frame (read_csv headers (pre ++ post)%list)).
  { rewrite !process_frame_closed. cbn [rows read_csv].
    do 2 f_equal. rewrite !fmap_app, !omap_app. cbn [fmap list_fmap omap list_omap].
    by rewrite (cleaned_row_offending _ Hbad). }
  split; [unfold _process_vm_table, bind, read_text, ret; by rewrite Hfile, Hcsv, Hsame|].
  split; [done|]. split; [by apply cleaned_row_offending|].
  rewrite process_frame_closed. cbn [rows read_csv]. fold rest.
  split_and!.
  - apply merge_sort_Permutation.
  - intros r Hr. rewrite merge_sort_Permutation in Hr.
    apply list_elem_of_omap in Hr as (raw & Hin & Hraw). by exists raw.
  - intros raw c d k m Hin Hid Hc Hd Hk Hm Hle.
    eexists. split.
    + rewrite merge_sort_Permutation. apply list_elem_of_omap. exists raw. split; [done|].
      apply cleaned_row_some. exists c, d, k, m. split_and!; done.
    + split_and!; done.
Qed.

(** ** More on [_process_vm_table] and [_preprocess] *)

Lemma cleaned_row_agree r1 r2 :
  (forall c, c ∈ required_headers -> at_col r1 c = at_col r2 c) -> cleaned_row r1 = cleaned_row r2.
Proof.
  intros Hagree. unfold cleaned_row.
  rewrite !(Hagree "vmid"), !(Hagree "vmcreated"), !(Hagree "vmdeleted"),
    !(Hagree "vmcorecountbucket"), !(Hagree "vmmemorybucket") by in_headers.
  reflexivity.
Qed.

(** X1. [_process_vm_table] reads the five required columns and nothing
    else: two tables whose rows agree, one by one, in [vmid], [vmcreated],
    [vmdeleted], [vmcorecountbucket] and [vmmemorybucket] give the same
    frame, whatever their six other columns hold. *)
Theorem process_frame_reads_required_columns (df1 df2 : DataFrame) :
  Forall2 (fun r1 r2 => forall c, c ∈ required_headers -> at_col r1 c = at_col r2 c)
          (rows df1) (rows df2) ->
  process_frame df1 = process_frame df2.
Proof.
  intros Hagree. rewrite !process_frame_closed. do 2 f_equal.
  induction Hagree as [|r1 r2 l1 l2 Hr _ IH]; [done|].
  cbn [omap list_omap]. by rewrite (cleaned_row_agree r1 r2 Hr), IH.
Qed.

Lemma process_frame_keys_numeric df c :
  c ∈ (fun r => at_col r "vmcreated") <$> rows (process_frame df) -> exists z, c = Num z.
Proof.
  rewrite process_frame_closed. cbn [rows].
  intros (r & -> & Hr)%list_elem_of_fmap.
  rewrite merge_sort_Permutation in Hr.
  apply list_elem_of_omap in Hr as (raw & _ & Hraw).
  by eapply cleaned_row_created.
Qed.

(** X2. The order of the rows of the table does not matter beyond ties:
    two tables with the same rows in another order give the same rows, and
    the [vmcreated] column of the two results is the same list. *)
Theorem process_frame_ignores_row_order (df1 df2 : DataFrame) :
  rows df1 ≡ₚ rows df2 ->
  rows (process_frame df1) ≡ₚ rows (process_frame df2) /\
  (fun r => at_col r "vmcreated") <$> rows (process_frame df1) =
  (fun r => at_col r "vmcreated") <$> rows (process_frame df2).
Proof.
  intros Hperm.
  assert (Hrows : rows (process_frame df1) ≡ₚ rows (process_frame df2)).
  { rewrite !process_frame_closed. cbn [rows]. rewrite !merge_sort_Permutation. by rewrite Hperm. }
  split; [exact Hrows|].
  assert (Hsorted : forall df, StronglySorted cell_order
                      ((fun r => at_col r "vmcreated") <$> rows (process_frame df))).
  { intros df. apply (StronglySorted_fmap _ (by_column "vmcreated")); [done|].
    rewrite process_frame_closed. apply (StronglySorted_merge_sort _). }
  apply (StronglySorted_unique_strong cell_order); [|apply Hsorted|apply Hsorted|by rewrite Hrows].
  intros c1 c2 [z1 ->]%process_frame_keys_numeric [z2 ->]%process_frame_keys_numeric.
  cbn. intros ? ?. f_equal. lia.
Qed.

(** A row of the result, column by column. *)
Lemma cleaned_row_bounds raw r :
  cleaned_row raw = Some r ->
  exists c d k m,
    at_col raw "vmid" <> NaN /\
    to_numeric (at_col raw "vmcreated") = Num c /\
    to_numeric (at_col raw "vmdeleted") = Num d /\
    at_col r "vmid" = at_col raw "vmid" /\
    at_col r "vmcreated" = Num (c / 300) /\
    at_col r "vmdeleted" = Num (d / 300) /\
    at_col r "vmcorecountbucket" = Num k /\
    at_col r "vmmemorybucket" = Num m /\
    at_col r "lifetime" = Num (d / 300 - c / 300) /\
    (d / 300 <= 43)%Z /\
    dom r = list_to_set (required_headers ++ ["lifetime"]).
Proof.
  intros (c & d & k & m & Hid & Hc & Hd & _ & _ & Hle & ->)%cleaned_row_some.
  exists c, d, k, m. split_and!; done.
Qed.

(** X3. [lifetime] is the difference of the two buckets, not the bucket of
    the difference: for a machine created at [c] and deleted at [d] it is
    [(d - c) // 300] or one more; it is not negative when [c <= d]; and it
    is at most [43 - c // 300]. *)
Theorem lifetime_within_one_bucket (df : DataFrame) (r : gmap string cell) :
  r ∈ rows (process_frame df) ->
  exists raw c d L,
    raw ∈ rows df /\
    to_numeric (at_col raw "vmcreated") = Num c /\
    to_numeric (at_col raw "vmdeleted") = Num d /\
    at_col r "lifetime" = Num L /\
    ((d - c) / 300 <= L <= (d - c) / 300 + 1)%Z /\
    ((c <= d)%Z -> (0 <= L)%Z) /\
    (L <= 43 - c / 300)%Z.
Proof.
  rewrite process_frame_closed. cbn [rows]. rewrite merge_sort_Permutation.
  intros (raw & Hin & Hraw)%list_elem_of_omap.
  destruct (cleaned_row_bounds raw r Hraw)
    as (c & d & k & m & _ & Hc & Hd & _ & _ & _ & _ & _ & HL & Hle & _).
  exists raw, c, d, (d / 300 - c / 300)%Z.
  pose proof (Z.div_mod c 300 ltac:(lia)). pose proof (Z.mod_pos_bound c 300 ltac:(lia)).
  pose proof (Z.div_mod d 300 ltac:(lia)). pose proof (Z.mod_pos_bound d 300 ltac:(lia)).
  pose proof (Z.div_mod (d - c) 300 ltac:(lia)). pose proof (Z.mod_pos_bound (d - c) 300 ltac:(lia)).
  split_and!; try done; lia.
Qed.

Lemma omap_length_le {A B} (f : A -> option B) (l : list A) : length (omap f l) <= length l.
Proof. induction l as [|x l IH]; [done|]. cbn. destruct (f x); cbn; lia. Qed.

(** X4. The result has no more rows than the table, and no row of it has a
    missing value: every row has exactly the six columns of the frame and
    none of them is NaN; the four coerced columns and [lifetime] hold
    numbers, not text; [vmcreated] and [vmdeleted] are whole buckets,
    [vmdeleted] at most 43, and [lifetime] is [vmdeleted - vmcreated] of the
    row itself. *)
Theorem process_frame_rows_complete (df : DataFrame) :
  length (rows (process_frame df)) <= length (rows df) /\
  forall r, r ∈ rows (process_frame df) ->
    dom r = list_to_set (columns (process_frame df)) /\
    Forall (fun c => at_col r c <> NaN) (columns (process_frame df)) /\
    Forall (fun c => forall s, at_col r c <> Text s)
           ["vmcreated"; "vmdeleted"; "vmcorecountbucket"; "vmmemorybucket"; "lifetime"] /\
    exists c d,
      at_col r "vmcreated" = Num c /\
      at_col r "vmdeleted" = Num d /\
      at_col r "lifetime" = Num (d - c) /\
      (d <= 43)%Z.
Proof.
  rewrite process_frame_closed. cbn [rows columns]. split.
  - rewrite merge_sort_Permutation. apply omap_length_le.
  - intros r Hr. rewrite merge_sort_Permutation in Hr.
    apply list_elem_of_omap in Hr as (raw & _ & Hraw).
    destruct (cleaned_row_bounds raw r Hraw)
      as (c & d & k & m & Hid & _ & _ & Hrid & Hc & Hd & Hk & Hm & HL & Hle & Hdom).
    split_and!; [done | | |].
    + unfold required_headers. repeat constructor; by rewrite ?Hrid, ?Hc, ?Hd, ?Hk, ?Hm, ?HL.
    + repeat constructor; intros s; by rewrite ?Hc, ?Hd, ?Hk, ?Hm, ?HL.
    + exists (c / 300)%Z, (d / 300)%Z. split_and!; done.
Qed.

(** A record with fewer fields than there are headers has no
    [vmmemorybucket], the last of them. *)
Lemma short_record_dropped (fields : list cell) :
  length fields < length headers -> cleaned_row (label_record headers fields) = None.
Proof.
  intros Hlen.
  assert (Hm : at_col (label_record headers fields) "vmmemorybucket" = NaN).
  { do 11 (destruct fields as [|? fields]; [vm_compute; reflexivity|]).
    cbn in Hlen. lia. }
  unfold cleaned_row, number. rewrite Hm. cbn [to_numeric].
  repeat case_match; done.
Qed.

Lemma preprocess_run (self : DataCenterPipeline) (path : string) (w : world) :
  _preprocess self path w =
  match fs w !! path with
  | None => (w, Raise (FileNotFoundError path))
  | Some text =>
      match csv_records text with
      | None => (w, Raise ParserError)
      | Some records =>
          (set_file (_clean_file self) (to_csv (process_frame (read_csv headers records))) w, Return tt)
      end
  end.
Proof.
  unfold _preprocess, _process_vm_table, bind, read_text.
  destruct (fs w !! path) as [text|]; [|done].
  destruct (csv_records text) as [records|]; [|done].
  cbn [ret open_w modify]. unfold write_text, set_file. cbn [fs aria2 polls trace].
  by rewrite lookup_insert_eq, insert_insert_eq.
Qed.

(** X5. [_preprocess] reads the whole table before it opens the clean
    file: when it raises (the table is not there, or pandas refuses it)
    nothing has changed, the clean file included; when it returns, the clean
    file is the one file that changed, and it holds the frame of
    [_process_vm_table] as csv, the header line first. The table may be the
    clean file itself. *)
Theorem preprocess_changes_only_clean_file (self : DataCenterPipeline) (path : string) (w : world) :
  let w' := (_preprocess self path w).1 in
  (forall e, (_preprocess self path w).2 = Raise e -> w' = w) /\
  (forall p, p <> _clean_file self -> fs w' !! p = fs w !! p) /\
  trace w' = trace w /\
  (_preprocess self path w).2 <> Running /\
  ((_preprocess self path w).2 = Return tt ->
   exists text records body,
     fs w !! path = Some text /\
     csv_records text = Some records /\
     fs w' !! _clean_file self = Some (to_csv (process_frame (read_csv headers records))) /\
     to_csv (process_frame (read_csv headers records)) = header_line +:+ body).
Proof.
  cbv zeta. rewrite preprocess_run.
  destruct (fs w !! path) as [text|] eqn:Hfile; [|by split_and!].
  destruct (csv_records text) as [records|] eqn:Hcsv; [|by split_and!].
  cbn [fst snd set_file fs trace]. split_and!; try done.
  - intros p Hp. by rewrite lookup_insert_ne.
  - intros _. exists text, records.
    eexists. split_and!; [done | done | by rewrite lookup_insert_eq |].
    rewrite process_frame_closed. unfold to_csv. cbn [columns rows]. reflexivity.
Qed.

(** X6. A record with fewer than eleven fields is dropped, for pandas
    fills it up with NaN and [vmmemorybucket] is the last column. So on a
    table of such records [_process_vm_table] returns the empty frame and
    [_preprocess] writes the header line alone; the file that [_preprocess]
    writes, with its six columns, is such a table. *)
Theorem preprocess_drops_short_records (self : DataCenterPipeline) (path text : string)
    (records : list (list cell)) (w : world) :
  fs w !! path = Some text ->
  csv_records text = Some records ->
  Forall (fun fields => length fields < length headers) records ->
  _process_vm_table path w =
    (w, Return {| columns := (required_headers ++ ["lifetime"])%list; rows := [] |}) /\
  _preprocess self path w = (set_file (_clean_file self) header_line w, Return tt).
Proof.
  intros Hfile Hcsv Hshort.
  assert (Hout : process_frame (read_csv headers records) =
                 {| columns := (required_headers ++ ["lifetime"])%list; rows := [] |}).
  { assert (Hnone : omap cleaned_row (label_record headers <$> records) = []).
    { clear Hcsv. induction Hshort as [|fields rest Hf _ IH]; [done|].
      cbn [fmap list_fmap omap list_omap]. by rewrite (short_record_dropped fields Hf). }
    rewrite process_frame_closed. cbn [rows read_csv]. by rewrite Hnone. }
  split.
  - unfold _process_vm_table, bind, read_text, ret. by rewrite Hfile, Hcsv, Hout.
  - rewrite preprocess_run, Hfile, Hcsv, Hout. reflexivity.
Qed.


End VmTable.

Section Download.
Context `{Host}.

(** ** [_check_all_download_completed] *)

Lemma pending_forallb ds : pending ds <-> forallb is_complete ds = false.
Proof.
  unfold pending. split.
  - intros (d & Hin & Hd). apply not_true_iff_false. intros Hall.
    rewrite forallb_forall in Hall. apply list_elem_of_In in Hin.
    specialize (Hall d Hin). congruence.
  - intros Hf. induction ds as [|d ds IH]; [done|].
    simpl in Hf. apply andb_false_iff in Hf as [Hd|Hds].
    + exists d. split; [left | done].
    + destruct (IH Hds) as (d' & Hin & Hd'). exists d'. split; [by right | done].
Qed.

Lemma for_each_emit {A} (l : list A) (f : A -> event) (w : world) :
  for_each l (fun x => emit (f x)) w = (after_polls w 0 (f <$> l), Return tt).
Proof.
  revert w. induction l as [|x l IH]; intros w.
  - unfold after_polls. cbn. rewrite Nat.add_0_r, app_nil_r. by destruct w.
  - cbn [for_each]. unfold bind at 1. cbn [emit modify]. rewrite IH.
    unfold after_polls. cbn. by rewrite <- app_assoc.
Qed.

Lemma poll_waiting fuel w :
  pending (answer w 0) ->
  _check_all_download_completed (S fuel) w =
  _check_all_download_completed fuel (after_polls w 1 (waiting_round (answer w 0))).
Proof.
  intros Hp. pose proof Hp as Hf. apply pending_forallb in Hf.
  unfold answer in *. rewrite Nat.add_0_r in *.
  assert (Hlen : length (aria2 w (polls w)) <> 0%nat).
  { destruct Hp as (d & Hin & _). destruct (aria2 w (polls w)); [by apply elem_of_nil in Hin | done]. }
  cbn [_check_all_download_completed]. unfold bind at 1. cbn [aria2_get_downloads].
  rewrite bool_decide_eq_false_2 by done. rewrite Hf.
  unfold bind at 1. rewrite for_each_emit. cbn [after_polls fs aria2 polls trace].
  unfold bind at 1. cbn [emit modify fs aria2 polls trace].
  unfold bind at 1. cbn [emit modify fs aria2 polls trace].
  unfold after_polls, waiting_round. cbn [fs aria2 polls trace].
  do 2 f_equal; [lia|]. rewrite ?Nat.add_0_r. by rewrite <- !app_assoc.
Qed.

Lemma poll_final fuel w :
  ~ pending (answer w 0) ->
  _check_all_download_completed (S fuel) w =
  (after_polls w 1 (final_round (answer w 0)), Return tt).
Proof.
  intros Hp. rewrite pending_forallb in Hp. apply not_false_iff_true in Hp.
  unfold answer in *. rewrite Nat.add_0_r in *.
  cbn [_check_all_download_completed]. unfold bind at 1. cbn [aria2_get_downloads].
  destruct (aria2 w (polls w)) as [|d ds] eqn:E.
  - rewrite bool_decide_eq_true_2 by done.
    unfold emit, modify, after_polls, final_round. cbn [fs aria2 polls trace].
    do 2 f_equal; [lia|]. by rewrite <- app_assoc.
  - rewrite bool_decide_eq_false_2 by done. rewrite Hp.
    unfold bind, emit, modify, after_polls, final_round. cbn [fs aria2 polls trace].
    do 2 f_equal; [lia|]. by rewrite <- !app_assoc.
Qed.

Lemma after_polls_after_polls w n1 e1 n2 e2 :
  after_polls (after_polls w n1 e1) n2 e2 = after_polls w (n1 + n2) (e1 ++ e2).
Proof.
  unfold after_polls. cbn [fs aria2 polls trace]. f_equal; [lia | by rewrite <- app_assoc].
Qed.

Lemma poll_exits n : forall fuel w,
  n < fuel ->
  (forall k, k < n -> pending (answer w k)) ->
  ~ pending (answer w n) ->
  _check_all_download_completed fuel w =
  (after_polls w (S n) (waiting_rounds (aria2 w) (polls w) n ++ final_round (answer w n)), Return tt).
Proof.
  induction n as [|n IH]; intros [|fuel] w Hlt Hbefore Hlast; try lia.
  - by rewrite poll_final.
  - rewrite poll_waiting by (apply Hbefore; lia).
    rewrite IH; [|lia| |].
    + rewrite after_polls_after_polls. cbn [waiting_rounds after_polls polls aria2].
      unfold answer. cbn [aria2 polls after_polls].
      rewrite Nat.add_0_r, Nat.add_1_r, <- app_assoc.
      by replace (S (polls w) + n) with (polls w + S n) by lia.
    + intros k Hk. specialize (Hbefore (S k) ltac:(lia)).
      unfold answer in *. cbn [aria2 polls after_polls].
      by replace (polls w + 1 + k) with (polls w + S k) by lia.
    + unfold answer in *. cbn [aria2 polls after_polls].
      by replace (polls w + 1 + n) with (polls w + S n) by lia.
Qed.

Lemma poll_running fuel : forall w,
  (forall k, k < fuel -> pending (answer w k)) ->
  _check_all_download_completed fuel w =
  (after_polls w fuel (waiting_rounds (aria2 w) (polls w) fuel), Running).
Proof.
  induction fuel as [|fuel IH]; intros w Hall.
  - cbn. unfold after_polls. rewrite Nat.add_0_r, app_nil_r. by destruct w.
  - rewrite poll_waiting by (apply Hall; lia).
    rewrite IH.
    + rewrite after_polls_after_polls. cbn [waiting_rounds after_polls polls aria2].
      unfold answer. by rewrite Nat.add_0_r, Nat.add_1_r.
    + intros k Hk. specialize (Hall (S k) ltac:(lia)).
      unfold answer in *. cbn [aria2 polls after_polls].
      by replace (polls w + 1 + k) with (polls w + S k) by lia.
Qed.

#[local] Instance pending_dec ds : Decision (pending ds).
Proof.
  destruct (forallb is_complete ds) eqn:E.
  - right. rewrite pending_forallb. congruence.
  - left. by apply pending_forallb.
Defined.

Lemma first_settled (answers : nat -> list Download) fuel :
  (forall k, k < fuel -> pending (answers k)) \/
  (exists n, n < fuel /\ ~ pending (answers n) /\ forall k, k < n -> pending (answers k)).
Proof.
  induction fuel as [|fuel [Hall|(n & Hn & Hlast & Hbefore)]].
  - left. lia.
  - destruct (decide (pending (answers fuel))) as [Hp|Hp].
    + left. intros k Hk. destruct (decide (k = fuel)) as [->|]; [done | apply Hall; lia].
    + right. exists fuel. split_and!; [lia | done | done].
  - right. exists n. split_and!; [lia | done | done].
Qed.

(** C8. The loop ends only at a poll whose answer has no incomplete task,
    every answer before it having one; it ends at the first such poll; as
    long as every answer has an incomplete task it goes on; between two
    polls it sleeps 5 seconds; and when the last answer is not empty it
    removes its downloads before it returns. *)
Theorem polling_waits_for_completion (fuel : nat) (w : world) :
  (forall w' o, _check_all_download_completed fuel w = (w', o) -> o <> Running ->
     exists n, n < fuel /\
       (forall k, k < n -> pending (answer w k)) /\
       ~ pending (answer w n) /\
       o = Return tt /\
       w' = after_polls w (S n)
              (waiting_rounds (aria2 w) (polls w) n ++ final_round (answer w n))) /\
  (forall n, n < fuel -> (forall k, k < n -> pending (answer w k)) -> ~ pending (answer w n) ->
     exists w', _check_all_download_completed fuel w = (w', Return tt)) /\
  ((forall k, k < fuel -> pending (answer w k)) ->
     exists w', _check_all_download_completed fuel w = (w', Running)) /\
  (forall downloads, In (sleep 5) (waiting_round downloads) /\
     (downloads <> [] -> In (remove downloads) (final_round downloads))).
Proof.
  split_and!.
  - intros w' o Hrun Ho.
    destruct (first_settled (answer w) fuel) as [Hall|(n & Hn & Hlast & Hbefore)].
    + rewrite poll_running in Hrun by done. congruence.
    + rewrite (poll_exits n) in Hrun by done.
      exists n. split_and!; try done; congruence.
  - intros n Hn Hbefore Hlast. eexists. by apply poll_exits.
  - intros Hall. eexists. by apply poll_running.
  - intros downloads. split.
    + unfold waiting_round. right. apply in_or_app. right. right. by left.
    + intros Hne. destruct downloads; [done|]. right. by left.
Qed.

(** ** [_aria2p_download] *)

(** Whatever the manifest holds, a url is handed to aria2 only when the
    table file is already there and the download is not forced. *)
Lemma download_urls_enqueues_only_existing (self : DataCenterPipeline) (is_force : bool)
    (urls : list string) : forall (num_files : Z) (w : world),
  is_force = true \/ fs w !! _vm_table_file self = None ->
  let w' := (download_urls self is_force num_files urls w).1 in
  enqueued (trace w') = enqueued (trace w) /\ fs w' = fs w.
Proof.
  induction urls as [|url urls IH]; intros num_files w Hno; [done|].
  cbn [download_urls].
  assert (Hstep : exists n, download_url self is_force num_files url w
                            = (after_polls w 0 (snd n), Return (fst n))
                            /\ enqueued (snd n) = []).
  { unfold download_url.
    destruct (startswith (last_of (split "/" url)) "vm"); [|by exists (num_files, []); destruct w; unfold after_polls; cbn; rewrite Nat.add_0_r, app_nil_r].
    unfold bind at 1. cbn [os_path_exists gets].
    assert (negb is_force && bool_decide (is_Some (fs w !! _vm_table_file self)) = false) as ->.
    { destruct Hno as [->|Hnone]; [done|]. rewrite Hnone.
      rewrite (bool_decide_eq_false_2 (is_Some None)) by (by intros [? ?]). apply andb_false_r. }
    eexists (_, [_]).
    split; [unfold bind, emit, modify, ret, after_polls; cbn; by rewrite Nat.add_0_r | done]. }
  destruct Hstep as ([n events] & Hstep & Hnone). cbn [fst snd] in *.
  cbv zeta. rewrite (PyFacts.bind_returns _ _ _ _ _ Hstep).
  destruct (IH n (after_polls w 0 events)) as [Htrace Hfs]; [done|].
  cbv zeta in Htrace, Hfs. rewrite Htrace, Hfs. cbn [after_polls trace fs]. split; [|done].
  unfold enqueued in *. by rewrite flat_map_app, Hnone, app_nil_r.
Qed.

(** ** [clean] *)

Lemma copyfileobj_state src dst w : (copyfileobj src dst w).1 = w.
Proof.
  unfold copyfileobj, bind, read_text.
  destruct (fs w !! src) as [archive|]; [|done].
  by destruct (gunzip archive) as [[|? ?]|].
Qed.

(** [clean] changes one file at most beyond what the base class does: the
    file it unpacks to, which it leaves empty. *)
Lemma clean_writes_nothing (self : DataCenterPipeline) (w : world) :
  let w' := (clean self w).1 in
  let unzip_vm_table_file := os_path_join (_clean_folder self) _clean_file_name in
  forall path,
    (path <> unzip_vm_table_file -> fs w' !! path = fs (base_clean w) !! path) /\
    (is_Some (fs (base_clean w) !! _vm_table_file self) ->
     fs w' !! unzip_vm_table_file = Some "").
Proof.
  cbv zeta. intros path. unfold clean.
  erewrite PyFacts.bind_returns by reflexivity.
  erewrite PyFacts.bind_returns by reflexivity.
  erewrite PyFacts.bind_returns by reflexivity.
  cbn [fs].
  destruct (bool_decide (is_Some (fs (base_clean w) !! _vm_table_file self))) eqn:Hfound.
  - erewrite PyFacts.bind_returns by reflexivity.
    erewrite PyFacts.bind_returns by reflexivity.
    erewrite PyFacts.bind_returns by reflexivity.
    unfold bind.
    match goal with |- context [copyfileobj ?src ?dst ?w4] =>
      pose proof (copyfileobj_state src dst w4) as Hsame;
      destruct (copyfileobj src dst w4) as [w5 [[]|e|]]
    end; cbn [fst] in Hsame; subst w5; cbn;
      (split; [intros Hne; by rewrite lookup_insert_ne | intros _; by rewrite lookup_insert_eq]).
  - cbn. split; [done|]. intros Hsome. apply bool_decide_eq_false in Hfound. by destruct Hfound.
Qed.

(** ** More on [_aria2p_download], the polling loop, [download] and [clean] *)

Lemma reading_required url : reading url = true -> required url = true.
Proof.
  unfold reading, required, startswith. generalize (file_name url). intros s.
  destruct s as [|a s]; [done|]. cbn [String.prefix].
  destruct (ascii_dec _ a); [|done].
  destruct s as [|b s]; [done|]. cbn [String.prefix].
  destruct (ascii_dec _ b); [|done]. intros _. by destruct s.
Qed.

Lemma download_url_run self is_force n url w :
  download_url self is_force n url w =
  (after_polls w 0 (url_events self (negb is_force && bool_decide (is_Some (fs w !! _vm_table_file self))) url),
   Return (if reading url then n - 1 else n)%Z).
Proof.
  assert (Hw : forall evs, after_polls w 0 evs =
     {| fs := fs w; aria2 := aria2 w; polls := polls w; trace := trace w ++ evs |}).
  { intros. unfold after_polls. by rewrite Nat.add_0_r. }
  unfold download_url, url_events. fold (file_name url). fold (required url). fold (reading url).
  destruct (required url) eqn:Hreq.
  - unfold bind at 1. cbn [os_path_exists gets].
    destruct (negb is_force && bool_decide (is_Some (fs w !! _vm_table_file self))).
    + unfold bind, emit, modify, ret. cbn [fs aria2 polls trace]. rewrite Hw.
      by rewrite <- app_assoc.
    + unfold bind, emit, modify, ret. cbn [fs aria2 polls trace]. by rewrite Hw.
  - destruct (reading url) eqn:Hr; [by rewrite (reading_required _ Hr) in Hreq|].
    unfold ret. rewrite Hw, app_nil_r. by destruct w.
Qed.

(** The loop over the urls in closed form. *)
Lemma download_urls_run self is_force urls : forall n w,
  download_urls self is_force n urls w =
  (after_polls w 0
     (flat_map (url_events self (negb is_force && bool_decide (is_Some (fs w !! _vm_table_file self)))) urls),
   Return (n - Z.of_nat (length (List.filter reading urls)))%Z).
Proof.
  induction urls as [|url urls IH]; intros n w.
  - cbn. unfold ret, after_polls. rewrite Nat.add_0_r, app_nil_r, Z.sub_0_r. by destruct w.
  - cbn [download_urls]. unfold bind. rewrite download_url_run, IH.
    cbn [after_polls fs flat_map List.filter]. rewrite after_polls_after_polls.
    f_equal. f_equal. destruct (reading url); cbn [length]; lia.
Qed.

Lemma added_app l1 l2 : added (l1 ++ l2) = (added l1 ++ added l2)%list.
Proof. apply omap_app. Qed.

Lemma added_url_events self skipping urls :
  added (flat_map (url_events self skipping) urls) =
  if skipping then (fun url => ([url], _download_folder self)) <$> List.filter required urls else [].
Proof.
  induction urls as [|url urls IH]; [by destruct skipping|].
  cbn [flat_map List.filter]. rewrite added_app, IH. unfold url_events.
  destruct (required url), skipping; reflexivity.
Qed.

Lemma added_waiting_rounds answers n : forall from, added (waiting_rounds answers from n) = [].
Proof.
  induction n as [|n IH]; intros from; [done|].
  cbn [waiting_rounds]. rewrite added_app, IH, app_nil_r.
  unfold waiting_round. generalize (answers from). intros ds.
  change (added (get_downloads :: ?l)) with (added l).
  rewrite added_app. cbn. rewrite app_nil_r.
  induction ds as [|d ds IHd]; [done | exact IHd].
Qed.

Lemma added_final_round ds : added (final_round ds) = [].
Proof. by destruct ds. Qed.

Lemma polled_app l1 l2 : polled (l1 ++ l2) = polled l1 + polled l2.
Proof. unfold polled. by rewrite List.filter_app, length_app. Qed.

Lemma polled_waiting_round ds : polled (waiting_round ds) = 1.
Proof.
  unfold waiting_round, polled. cbn [List.filter length]. f_equal.
  rewrite List.filter_app, length_app. cbn [List.filter length]. rewrite Nat.add_0_r.
  induction ds as [|d ds IH]; [done | exact IH].
Qed.

Lemma polled_waiting_rounds answers n : forall from, polled (waiting_rounds answers from n) = n.
Proof.
  induction n as [|n IH]; intros from; [done|].
  cbn [waiting_rounds]. by rewrite polled_app, polled_waiting_round, IH.
Qed.

Lemma polled_final_round ds : polled (final_round ds) = 1.
Proof. by destruct ds. Qed.

Lemma slept_app l1 l2 : slept (l1 ++ l2) = (slept l1 + slept l2)%Z.
Proof.
  induction l1 as [|e l1 IH]; [done|].
  cbn [app slept foldr]. fold (slept (l1 ++ l2)). fold (slept l1). rewrite IH.
  destruct e; lia.
Qed.

Lemma slept_waiting_round ds : slept (waiting_round ds) = 5%Z.
Proof.
  unfold waiting_round. change (slept (get_downloads :: ?l)) with (slept l).
  rewrite slept_app. cbn.
  assert (slept (progress_line <$> ds) = 0%Z) as ->; [|done].
  induction ds as [|d ds IH]; [done | exact IH].
Qed.

Lemma slept_waiting_rounds answers n : forall from,
  slept (waiting_rounds answers from n) = (5 * Z.of_nat n)%Z.
Proof.
  induction n as [|n IH]; intros from; [done|].
  cbn [waiting_rounds]. rewrite slept_app, slept_waiting_round, IH. lia.
Qed.

Lemma slept_final_round ds : slept (final_round ds) = 0%Z.
Proof. by destruct ds. Qed.

(** The polling loop changes no file, hands nothing to aria2 and does not
    raise. *)
Lemma poll_quiet fuel w :
  exists n events,
    (_check_all_download_completed fuel w).1 = after_polls w n events /\
    added events = [] /\
    ((_check_all_download_completed fuel w).2 = Return tt \/
     (_check_all_download_completed fuel w).2 = Running).
Proof.
  destruct (first_settled (answer w) fuel) as [Hall|(n & Hn & Hlast & Hbefore)].
  - rewrite poll_running by done. eexists _, _. split; [reflexivity|].
    split; [apply added_waiting_rounds | by right].
  - rewrite (poll_exits n) by done. eexists _, _. split; [reflexivity|].
    split; [|by left]. by rewrite added_app, added_waiting_rounds, added_final_round.
Qed.

Lemma aria2p_download_run (self : DataCenterPipeline) (fuel : nat) (is_force : bool)
    (w : world) (text : string) :
  fs w !! _download_file self = Some text ->
  exists n events,
    (_aria2p_download self fuel is_force w).1 =
      after_polls w n
        (flat_map (url_events self (negb is_force && bool_decide (is_Some (fs w !! _vm_table_file self))))
           (splitlines text) ++ events) /\
    added events = [] /\
    ((_aria2p_download self fuel is_force w).2 = Return tt \/
     (_aria2p_download self fuel is_force w).2 = Running).
Proof.
  intros Hfile. unfold _aria2p_download.
  assert (Hread : read_text (_download_file self) w = (w, Return text))
    by (unfold read_text; by rewrite Hfile).
  rewrite (PyFacts.bind_returns _ _ _ _ _ Hread).
  rewrite (PyFacts.bind_returns _ _ _ _ _ (download_urls_run self is_force (splitlines text) 4 w)).
  match goal with |- context [_check_all_download_completed ?f ?w1] =>
    destruct (poll_quiet f w1) as (n & events & Hw & Hadd & Hout)
  end.
  exists n, events. rewrite Hw, after_polls_after_polls. done.
Qed.

(** X7. Which urls [_aria2p_download] hands to aria2, for every manifest
    that is UTF-8 text: when the download is not forced and the table file
    is there already, every line of the manifest whose file name starts with
    ["vm"], each in a call of its own with the download folder as directory,
    in the order of the manifest; and none at all when the download is
    forced or the table file is not there. It changes no file and does not
    raise. *)
Theorem aria2p_download_adds_required_urls (self : DataCenterPipeline) (fuel : nat) (is_force : bool)
    (w : world) (text : string) :
  fs w !! _download_file self = Some text ->
  utf8 text = true ->
  let w' := (_aria2p_download self fuel is_force w).1 in
  added (trace w') =
    (added (trace w) ++
     if negb is_force && bool_decide (is_Some (fs w !! _vm_table_file self))
     then (fun url => ([url], _download_folder self)) <$> List.filter required (splitlines text)
     else [])%list /\
  fs w' = fs w /\
  forall e, (_aria2p_download self fuel is_force w).2 <> Raise e.
Proof.
  intros Hfile _. cbv zeta.
  destruct (aria2p_download_run self fuel is_force w text Hfile) as (n & events & Hw & Hadd & Hout).
  rewrite Hw. cbn [after_polls trace fs]. split_and!.
  - by rewrite !added_app, Hadd, app_nil_r, added_url_events.
  - done.
  - intros e. destruct Hout as [-> | ->]; discriminate.
Qed.

(** X8. [num_files] only counts: the loop leaves it at its first value
    less the number of urls whose file name starts with ["vm_cpu_readings"],
    below zero when there are more than four of them, and nothing that the
    loop does depends on it. *)
Theorem num_files_only_counts (self : DataCenterPipeline) (is_force : bool) (urls : list string)
    (n m : Z) (w : world) :
  (download_urls self is_force n urls w).2 =
    Return (n - Z.of_nat (length (List.filter reading urls)))%Z /\
  (download_urls self is_force n urls w).1 = (download_urls self is_force m urls w).1.
Proof. by rewrite !download_urls_run. Qed.

(** X9. The polling loop only polls, logs, sleeps and removes: it changes
    no file, hands nothing to aria2 and does not raise. When it returns
    after [p] polls it has slept [5 * (p - 1)] seconds; as long as it runs
    it has slept 5 seconds for every poll. *)
Theorem polling_only_polls_and_sleeps (fuel : nat) (w : world) :
  let w' := (_check_all_download_completed fuel w).1 in
  exists events,
    trace w' = (trace w ++ events)%list /\
    fs w' = fs w /\
    added events = [] /\
    (forall e, (_check_all_download_completed fuel w).2 <> Raise e) /\
    polls w' = polls w + polled events /\
    ((_check_all_download_completed fuel w).2 = Return tt ->
     1 <= polled events <= fuel /\
     slept events = (5 * (Z.of_nat (polled events) - 1))%Z) /\
    ((_check_all_download_completed fuel w).2 = Running ->
     polled events = fuel /\ slept events = (5 * Z.of_nat fuel)%Z).
Proof.
  cbv zeta.
  destruct (first_settled (answer w) fuel) as [Hall|(n & Hn & Hlast & Hbefore)].
  - rewrite poll_running by done. cbn [fst snd after_polls trace fs polls].
    eexists. split; [reflexivity|].
    rewrite added_waiting_rounds, polled_waiting_rounds, slept_waiting_rounds.
    split_and!; done.
  - rewrite (poll_exits n) by done. cbn [fst snd after_polls trace fs polls].
    eexists. split; [reflexivity|].
    rewrite added_app, added_waiting_rounds, added_final_round.
    rewrite polled_app, polled_waiting_rounds, polled_final_round.
    rewrite slept_app, slept_waiting_rounds, slept_final_round.
    split_and!; try done; lia.
Qed.

Context `{BaseDownload}.



Lemma endswith_char_app a b c : b <> "" -> endswith_char (a +:+ b) c = endswith_char b c.
Proof.
  intros Hb. induction a as [|x a IH]; [done|].
  change (String x a +:+ b) with (String x (a +:+ b)).
  destruct (a +:+ b) as [|y s] eqn:E.
  - destruct a; [done | discriminate].
  - exact IH.
Qed.

Lemma os_path_join_ends a b c :
  b <> "" -> startswith b "/" = false -> endswith_char (os_path_join a b) c = endswith_char b c.
Proof.
  intros Hb Hs. unfold os_path_join. rewrite Hs.
  destruct (bool_decide (a = "") || endswith_char a "/").
  - by apply endswith_char_app.
  - rewrite endswith_char_app; [by apply (endswith_char_app "/") | by destruct b].
Qed.

(** The file [clean] unpacks to is never the archive: one name ends in
    [v], the other in [z]. *)
Lemma unzip_target_not_archive (b : DataPipeline) :
  os_path_join (_clean_folder b) _clean_file_name <> _vm_table_file (__init__ b).
Proof.
  intros Heq. apply (f_equal (fun s => endswith_char s "z")) in Heq.
  cbn [_vm_table_file __init__] in Heq.
  rewrite !os_path_join_ends in Heq by done. discriminate Heq.
Qed.

(** X11. [clean] on a pipeline that [__init__] made. The file it unpacks
    to is not the archive. Without the archive [clean] logs a warning and
    returns. With it, [clean] leaves the file it unpacks to empty, whether
    it returns or raises, so what that file held before is gone, and it
    changes no other file; it returns when the archive holds nothing and
    raises [TypeError] when it holds anything. *)
Theorem clean_empties_unzip_target (b : DataPipeline) (w : world) :
  let self := __init__ b in
  let w0 := base_clean w in
  let target := os_path_join (_clean_folder self) _clean_file_name in
  target <> _vm_table_file self /\
  match fs w0 !! _vm_table_file self with
  | None =>
      clean self w =
      (after_polls w0 0
         [info_green "Cleaning VM data.";
          warning ("Not found downloaded source file: " +:+ _vm_table_file self +:+ ".")],
       Return tt)
  | Some archive =>
      fs (clean self w).1 = <[target := ""]> (fs w0) /\
      forall content, gunzip archive = Some content ->
        (clean self w).2 =
        if bool_decide (content = "") then Return tt
        else Raise (TypeError "write() argument must be str, not bytes")
  end.
Proof.
  cbv zeta. split; [apply unzip_target_not_archive|].
  pose proof (unzip_target_not_archive b) as Hne.
  set (self := __init__ b) in *. set (w0 := base_clean w).
  set (target := os_path_join (_clean_folder self) _clean_file_name) in *.
  unfold clean. fold target.
  erewrite PyFacts.bind_returns by reflexivity.
  erewrite PyFacts.bind_returns by reflexivity.
  erewrite PyFacts.bind_returns by reflexivity.
  cbn [fs]. fold w0.
  destruct (fs w0 !! _vm_table_file self) as [archive|] eqn:Hfile.
  - rewrite bool_decide_eq_true_2 by done.
    erewrite PyFacts.bind_returns by reflexivity.
    erewrite PyFacts.bind_returns by reflexivity.
    erewrite PyFacts.bind_returns by reflexivity.
    unfold bind, copyfileobj, read_text, bind. cbn [fs set_file].
    rewrite lookup_insert_ne by done. rewrite Hfile.
    split.
    + by destruct (gunzip archive) as [[|? ?]|].
    + intros content ->. by destruct content.
  - rewrite bool_decide_eq_false_2 by (by intros [? ?]).
    unfold emit, modify, after_polls. cbn [fs aria2 polls trace].
    by rewrite Nat.add_0_r, <- app_assoc.
Qed.


End Download.

(** ** The claims on concrete inputs *)

Import Reference Example.

(** [process_vm_table_cleans] on the table of three machines. *)
Lemma process_vm_table_cleans_witness :
  fs unzipped !! "/data/_clean/vmtable.csv" = Some vm_table_text /\
  csv_records vm_table_text = Some [kept_record; offending_record; late_record] /\
  exists out,
    _process_vm_table "/data/_clean/vmtable.csv" unzipped = (unzipped, Return out) /\
    rows out ≡ₚ omap cleaned_row (label_record headers <$> [kept_record; offending_record; late_record]) /\
    exists r, r ∈ rows out /\
      at_col r "vmcreated" = Num 3 /\ at_col r "vmdeleted" = Num 43 /\ at_col r "lifetime" = Num 40.
Proof.
  assert (Hfile : fs unzipped !! "/data/_clean/vmtable.csv" = Some vm_table_text)
    by (vm_compute; reflexivity).
  assert (Hcsv : csv_records vm_table_text = Some [kept_record; offending_record; late_record])
    by (vm_compute; reflexivity).
  split; [exact Hfile|]. split; [exact Hcsv|].
  destruct (process_vm_table_cleans unzipped "/data/_clean/vmtable.csv" vm_table_text
              [kept_record; offending_record; late_record] Hfile Hcsv)
    as (out & Hrun & _ & Hrows & _ & _ & _ & _ & Hkept).
  exists out. split; [exact Hrun|]. split; [exact Hrows|].
  apply (Hkept (label_record headers kept_record) 2%Z 4%Z);
    [apply list_elem_of_here | vm_compute; discriminate | vm_compute; reflexivity
    | vm_compute; reflexivity | vm_compute; reflexivity | vm_compute; reflexivity].
Defined.

(** [process_vm_table_drops_offending] on the same table: the machine whose
    core count reads [>24] is the one dropped, no row of the result has its
    [vmid], and the first machine is in the result with 3, 43 and 40. *)
Lemma process_vm_table_drops_offending_witness :
  fs unzipped !! "/data/_clean/vmtable.csv" = Some vm_table_text /\
  csv_records vm_table_text = Some ([kept_record] ++ offending_record :: [late_record])%list /\
  offending (label_record headers offending_record) /\
  exists out,
    _process_vm_table "/data/_clean/vmtable.csv" unzipped = (unzipped, Return out) /\
    (forall r, r ∈ rows out -> at_col r "vmid" <> Text "vm2") /\
    exists r, r ∈ rows out /\
      at_col r "vmid" = Text "vm1" /\
      at_col r "vmcreated" = Num 3 /\ at_col r "vmdeleted" = Num 43 /\ at_col r "lifetime" = Num 40.
Proof.
  assert (Hfile : fs unzipped !! "/data/_clean/vmtable.csv" = Some vm_table_text)
    by (vm_compute; reflexivity).
  assert (Hcsv : csv_records vm_table_text = Some ([kept_record] ++ offending_record :: [late_record])%list)
    by (vm_compute; reflexivity).
  assert (Hbad : offending (label_record headers offending_record))
    by (right; right; left; vm_compute; reflexivity).
  split; [exact Hfile|]. split; [exact Hcsv|]. split; [exact Hbad|].
  destruct (process_vm_table_drops_offending unzipped "/data/_clean/vmtable.csv" vm_table_text
              [kept_record] [late_record] offending_record Hfile Hcsv Hbad)
    as (out & Hrun & _ & _ & _ & Hfrom & Hkept).
  exists out. split; [exact Hrun|]. split.
  - intros r Hr. destruct (Hfrom r Hr) as (raw & Hraw & Hclean).
    cbn [fmap list_fmap app] in Hraw.
    apply elem_of_cons in Hraw as [-> | Hraw].
    + revert Hclean. vm_compute. intros [= <-]. discriminate.
    + apply elem_of_cons in Hraw as [-> | Hraw]; [|by apply elem_of_nil in Hraw].
      revert Hclean. vm_compute. discriminate.
  - destruct (Hkept (label_record headers kept_record) 900%Z 12900%Z 2%Z 4%Z)
      as (r & Hin & Hid & Hc & Hd & _ & _ & HL);
      [apply list_elem_of_here | vm_compute; discriminate | vm_compute; reflexivity
      | vm_compute; reflexivity | vm_compute; reflexivity | vm_compute; reflexivity
      | vm_compute; discriminate |].
    exists r. split; [exact Hin|]. split; [exact Hid|]. split; [exact Hc|]. split; [exact Hd | exact HL].
Defined.

(** The loop on a download that two polls find going on and the third finds
    complete: three polls, two sleeps of 5 seconds, one [remove]. *)
Lemma polling_three_rounds :
  _check_all_download_completed 5 downloading =
  (after_polls downloading 3
     (waiting_round [going] ++ waiting_round [going] ++ final_round [finished]),
   Return tt) /\
  sleeps_and_removals (trace (_check_all_download_completed 5 downloading).1)
  = [sleep 5; sleep 5; remove [finished]].
Proof. split; vm_compute; reflexivity. Qed.

(** C7, on the first run, with the manifest of one table url and three
    reading urls: the counter goes from 4 to 1 and the loop over the urls
    logs "Downloading vmtable from ..." four times, but no url reaches
    aria2; only a run that finds the table file already there and is not
    forced hands the four urls over, under the message "File already exists,
    skipping download.". *)
Theorem aria2p_download_enqueues_nothing_on_first_run :
  (download_urls pipeline false 4 (splitlines manifest) first_run).2 = Return 1%Z /\
  (_aria2p_download pipeline 1 false first_run).2 = Return tt /\
  enqueued (trace (_aria2p_download pipeline 1 false first_run).1) = [] /\
  enqueued (trace (_aria2p_download pipeline 1 true first_run).1) = [] /\
  trace (_aria2p_download pipeline 1 false first_run).1 =
    [info_green ("Downloading vmtable from " +:+ table_url +:+ " to /data/_download/vmtable.csv.gz.");
     info_green ("Downloading vmtable from " +:+ readings_url "1" +:+ " to /data/_download/vmtable.csv.gz.");
     info_green ("Downloading vmtable from " +:+ readings_url "2" +:+ " to /data/_download/vmtable.csv.gz.");
     info_green ("Downloading vmtable from " +:+ readings_url "3" +:+ " to /data/_download/vmtable.csv.gz.");
     get_downloads;
     info_green "Doesn't exist any pending file."] /\
  enqueued (trace (_aria2p_download pipeline 1 false
                     (set_file "/data/_download/vmtable.csv.gz" "" first_run)).1)
  = [table_url; readings_url "1"; readings_url "2"; readings_url "3"].
Proof. split_and!; vm_compute; reflexivity. Qed.

(** C2, on a downloaded archive of the table of three machines: [clean]
    raises while it copies the unpacked bytes into the file it opened as
    text, it never reaches "Unzip finished.", and the clean file is left
    empty; [_preprocess], which would write the cleaned table with its
    header, is not called by [clean]. *)
Theorem clean_stops_after_unzip :
  (clean pipeline downloaded).2 = Raise (TypeError "write() argument must be str, not bytes") /\
  fs (clean pipeline downloaded).1 !! "/data/_clean/vmtable.csv" = Some "" /\
  trace (clean pipeline downloaded).1 =
    [info_green "Cleaning VM data.";
     info_green "Unzip start.";
     info_green "Unzip vmtable.csv from /data/_download/vmtable.csv.gz to /data/_clean/vmtable.csv."] /\
  (_preprocess pipeline "/data/_clean/vmtable.csv" unzipped).2 = Return tt /\
  fs (_preprocess pipeline "/data/_clean/vmtable.csv" unzipped).1 !! "/data/_clean/vmtable.csv" =
    Some ("vmid,vmcreated,vmdeleted,vmcorecountbucket,vmmemorybucket,lifetime" +:+ nl +:+
          "vm1,3,43,2,4,40" +:+ nl).
Proof. split_and!; vm_compute; reflexivity. Qed.

(** ** The further properties on concrete inputs *)

Import Scenario.

(** [process_frame_reads_required_columns] on the first machine and on the
    same machine with other values in the six columns that are not kept. *)
Lemma process_frame_reads_required_columns_witness :
  kept_record <> reshuffled_record /\
  process_frame (read_csv headers [kept_record]) = process_frame (read_csv headers [reshuffled_record]).
Proof.
  split; [discriminate|].
  apply process_frame_reads_required_columns.
  constructor; [|constructor].
  intros c Hc. unfold required_headers in Hc.
  repeat (apply elem_of_cons in Hc as [->|Hc]; [vm_compute; reflexivity|]).
  by apply elem_of_nil in Hc.
Defined.

(** [process_frame_ignores_row_order] on the table of three machines and on
    the same table with the last machine first. *)
Lemma process_frame_ignores_row_order_witness :
  rows (read_csv headers [late_record; kept_record; offending_record]) ≡ₚ
  rows (read_csv headers [kept_record; offending_record; late_record]) /\
  rows (process_frame (read_csv headers [late_record; kept_record; offending_record])) ≡ₚ
  rows (process_frame (read_csv headers [kept_record; offending_record; late_record])).
Proof.
  assert (Hperm : rows (read_csv headers [late_record; kept_record; offending_record]) ≡ₚ
                  rows (read_csv headers [kept_record; offending_record; late_record])).
  { cbn [rows read_csv fmap list_fmap].
    etransitivity; [apply perm_swap|]. apply perm_skip, perm_swap. }
  split; [exact Hperm|].
  exact (proj1 (process_frame_ignores_row_order _ _ Hperm)).
Defined.

(** [lifetime_within_one_bucket] on the row that the first machine leaves. *)
Lemma lifetime_within_one_bucket_witness :
  kept_row ∈ rows (process_frame (read_csv headers [kept_record; offending_record; late_record])) /\
  exists raw c d L,
    raw ∈ rows (read_csv headers [kept_record; offending_record; late_record]) /\
    to_numeric (at_col raw "vmcreated") = Num c /\
    to_numeric (at_col raw "vmdeleted") = Num d /\
    at_col kept_row "lifetime" = Num L /\
    ((d - c) / 300 <= L <= (d - c) / 300 + 1)%Z.
Proof.
  assert (Hin : kept_row ∈ rows (process_frame (read_csv headers [kept_record; offending_record; late_record]))).
  { assert (rows (process_frame (read_csv headers [kept_record; offending_record; late_record])) = [kept_row])
      as -> by (vm_compute; reflexivity).
    apply list_elem_of_here. }
  split; [exact Hin|].
  destruct (lifetime_within_one_bucket _ _ Hin) as (raw & c & d & L & Hraw & Hc & Hd & HL & Hb & _).
  by exists raw, c, d, L.
Defined.

(** [preprocess_drops_short_records] on the file that [_preprocess] wrote:
    run on its own result, [_preprocess] leaves the header line alone. *)
Lemma preprocess_drops_short_records_witness :
  fs cleaned !! "/data/_clean/vmtable.csv" = Some (header_line +:+ "vm1,3,43,2,4,40" +:+ nl) /\
  _preprocess pipeline "/data/_clean/vmtable.csv" cleaned =
    (set_file "/data/_clean/vmtable.csv" header_line cleaned, Return tt).
Proof.
  assert (Hfile : fs cleaned !! "/data/_clean/vmtable.csv" = Some (header_line +:+ "vm1,3,43,2,4,40" +:+ nl))
    by (vm_compute; reflexivity).
  split; [exact Hfile|].
  refine (proj2 (preprocess_drops_short_records pipeline "/data/_clean/vmtable.csv" _
            [ [Text "vmid"; Text "vmcreated"; Text "vmdeleted"; Text "vmcorecountbucket";
               Text "vmmemorybucket"; Text "lifetime"];
              [Text "vm1"; Num 3; Num 43; Num 2; Num 4; Num 40] ] cleaned Hfile _ _)).
  - vm_compute; reflexivity.
  - repeat constructor.
Defined.

(** [aria2p_download_adds_required_urls] on the second run: the table file
    is there, and the four urls of the manifest go to aria2. *)
Lemma aria2p_download_adds_required_urls_witness :
  fs rerun !! _download_file pipeline = Some manifest /\
  utf8 manifest = true /\
  added (trace (_aria2p_download pipeline 1 false rerun).1) =
    [([table_url], "/data/_download"); ([readings_url "1"], "/data/_download");
     ([readings_url "2"], "/data/_download"); ([readings_url "3"], "/data/_download")] /\
  fs (_aria2p_download pipeline 1 false rerun).1 = fs rerun.
Proof.
  assert (Hfile : fs rerun !! _download_file pipeline = Some manifest) by (vm_compute; reflexivity).
  assert (Htext : utf8 manifest = true) by (vm_compute; reflexivity).
  split; [exact Hfile|]. split; [exact Htext|].
  destruct (aria2p_download_adds_required_urls pipeline 1 false rerun manifest Hfile Htext)
    as (Hadd & Hfs & _).
  split; [|exact Hfs].
  etransitivity; [exact Hadd|]. vm_compute. reflexivity.
Defined.



End DataCenterFacts.

(** * Properties of the PPO trainer *)

Module PPOFacts.
Import Py PPO PyFacts.

Section Facts.
Context `{Models}.

(** ** [batchize_exp] *)

Lemma comprehension_optional {S A} (key : string) (f : Exp -> option A) (l : list Exp) (st : S) :
  Forall (fun e => is_Some (f e)) l ->
  comprehension (fun e => optional_item key (f e)) l st = (st, Return (omap f l)).
Proof.
  induction 1 as [|e l [v Hv] _ IH]; [done|].
  cbn [comprehension omap list_omap]. unfold bind at 1. rewrite Hv. cbn [optional_item ret].
  unfold bind at 1. by rewrite IH.
Qed.

Lemma comprehension_first {S} (l : list Exp) (st : S) :
  Forall (fun e => is_Some (first_item (e_a e))) l ->
  comprehension (fun e => action_first (e_a e)) l st
  = (st, Return (omap (fun e => first_item (e_a e)) l)).
Proof.
  induction 1 as [|e l [v Hv] _ IH]; [done|].
  cbn [comprehension omap list_omap]. unfold bind at 1. rewrite Hv.
  assert (action_first (S := S) (e_a e) st = (st, Return v)) as ->.
  { destruct (e_a e) as [[|? ?]|?]; simpl in *; unfold ret; congruence. }
  unfold bind at 1. by rewrite IH.
Qed.

(** The entries of the dict that [grad] reads. *)
Lemma batchize_exp_well_formed {S} (batch : list Exp) (st : S) :
  well_formed batch ->
  exists d, batchize_exp batch st = (st, Return d) /\
    d !! "r" = Some (Arr (np_hstack (e_r <$> batch))) /\
    d !! "gamma" = Some (Arr (np_hstack (e_gamma <$> batch))) /\
    d !! "s" = Some (ObsV (batchize (e_obs <$> batch))) /\
    d !! "s_" = Some (ObsV (batchize (e_obs_ <$> batch))) /\
    d !! "a" = Some (Arr (actions_of batch)) /\
    d !! "supplement" = Some (Sups (supplements_of batch)).
Proof.
  intros (Hne & Hsup & Hact & Hself).
  destruct batch as [|batch0 rest]; [done|].
  unfold batchize_exp, actions_of.
  set (b := batch0 :: rest) in *.
  assert (Hs0 : is_Some (e_supplement batch0)) by (by apply Forall_cons in Hsup as [? _]).
  unfold bind at 1.
  destruct (is_tuple (e_a batch0)).
  - unfold bind at 1. rewrite comprehension_first by done. cbn [ret].
    unfold bind at 1. rewrite bool_decide_eq_true_2 by done.
    unfold bind at 1. rewrite comprehension_optional by done. cbn [ret].
    destruct (decide (is_Some (e_self_r batch0))) as [Hr|Hr].
    + unfold bind at 1. rewrite bool_decide_eq_true_2 by done.
      unfold bind at 1. rewrite comprehension_optional by (by apply Hself).
      cbn [ret]. eexists. split; [reflexivity|]. by split_and!.
    + unfold bind at 1. rewrite bool_decide_eq_false_2 by done.
      cbn [ret]. eexists. split; [reflexivity|]. by split_and!.
  - cbn [ret].
    unfold bind at 1. rewrite bool_decide_eq_true_2 by done.
    unfold bind at 1. rewrite comprehension_optional by done. cbn [ret].
    destruct (decide (is_Some (e_self_r batch0))) as [Hr|Hr].
    + unfold bind at 1. rewrite bool_decide_eq_true_2 by done.
      unfold bind at 1. rewrite comprehension_optional by (by apply Hself).
      cbn [ret]. eexists. split; [reflexivity|]. by split_and!.
    + unfold bind at 1. rewrite bool_decide_eq_false_2 by done.
      cbn [ret]. eexists. split; [reflexivity|]. by split_and!.
Qed.

(** ** The loop *)

Lemma epoch_returns l st : epoch l st = (after_epoch l st, Return (loss_mean l st)).
Proof.
  cbv beta iota zeta delta [after_epoch loss_mean epoch bind get add_scalar modify ret].
  destruct (adam_step_gnn _ _ _) as [gopt g], (adam_step_policy _ _ _) as [popt p].
  reflexivity.
Qed.

Lemma after_epoch_networks l st :
  let a := self st in
  let a' := self (after_epoch l st) in
  temporal_gnn a' = (adam_step_gnn (temporal_gnn_opt a) (fun g => objective a l g (policy a)) (temporal_gnn a)).2 /\
  temporal_gnn_opt a' = (adam_step_gnn (temporal_gnn_opt a) (fun g => objective a l g (policy a)) (temporal_gnn a)).1 /\
  policy a' = (adam_step_policy (policy_opt a) (fun p => objective a l (temporal_gnn a) p) (policy a)).2 /\
  policy_opt a' = (adam_step_policy (policy_opt a) (fun p => objective a l (temporal_gnn a) p) (policy a)).1.
Proof.
  cbv beta iota zeta delta [after_epoch objective epoch bind get add_scalar modify ret].
  destruct (adam_step_gnn _ _ _) as [gopt g], (adam_step_policy _ _ _) as [popt p].
  by cbn.
Qed.

Lemma after_epoch_frame l st :
  let a := self st in
  let a' := self (after_epoch l st) in
  old_policy a' = old_policy a /\ old_temporal_gnn a' = old_temporal_gnn a /\
  K_epochs a' = K_epochs a /\ eps_clip a' = eps_clip a /\
  neighbor_cnt a' = neighbor_cnt a /\ per_graph_size a' = per_graph_size a /\
  itr_count (after_epoch l st) = (itr_count st + 1)%Z /\
  epoch_count (after_epoch l st) = epoch_count st.
Proof.
  cbv beta iota zeta delta [after_epoch epoch bind get add_scalar modify ret].
  destruct (adam_step_gnn _ _ _) as [gopt g], (adam_step_policy _ _ _) as [popt p].
  by cbn.
Qed.

Lemma epochs_run n : forall l acc st,
  epochs n l acc st =
  (Nat.iter n (after_epoch l) st,
   Return (acc ++ ((fun k => loss_mean l (Nat.iter k (after_epoch l) st)) <$> seq 0 n))%list).
Proof.
  induction n as [|n IH]; intros l acc st.
  - cbn. by rewrite app_nil_r.
  - cbn [epochs]. unfold bind at 1. rewrite epoch_returns, IH.
    rewrite <- Nat.iter_succ_r. f_equal. f_equal.
    rewrite <- app_assoc. f_equal. cbn [seq fmap list_fmap app].
    f_equal. rewrite <- seq_shift, <- list_fmap_compose.
    apply list_fmap_ext. intros i k _. cbn. by rewrite <- Nat.iter_succ_r.
Qed.

Lemma iter_frame l n st :
  let a := self st in
  let a' := self (Nat.iter n (after_epoch l) st) in
  old_policy a' = old_policy a /\ old_temporal_gnn a' = old_temporal_gnn a /\
  K_epochs a' = K_epochs a /\ eps_clip a' = eps_clip a /\
  neighbor_cnt a' = neighbor_cnt a /\ per_graph_size a' = per_graph_size a /\
  itr_count (Nat.iter n (after_epoch l) st) = (itr_count st + Z.of_nat n)%Z /\
  epoch_count (Nat.iter n (after_epoch l) st) = epoch_count st.
Proof.
  induction n as [|n IH]; cbv zeta; simpl Nat.iter.
  - split_and!; try done. lia.
  - cbv zeta in IH. destruct IH as (? & ? & ? & ? & ? & ? & ? & ?).
    destruct (after_epoch_frame l (Nat.iter n (after_epoch l) st)) as (? & ? & ? & ? & ? & ? & ? & ?).
    cbv zeta. split_and!; try congruence. lia.
Qed.

(** ** What no method assigns *)

Lemma keeps_ret {A} (v : A) : keeps (ret v).
Proof. by intros st. Qed.

Lemma keeps_raise {A} (e : exn) : keeps (raise (A := A) e).
Proof. by intros st. Qed.

Lemma keeps_bind {A B} (m : M State A) (k : A -> M State B) :
  keeps m -> (forall v, keeps (k v)) -> keeps (bind m k).
Proof.
  intros Hm Hk st. unfold bind. specialize (Hm st).
  destruct (m st) as [st' [v|e|]]; cbn in *; [|done|done].
  by rewrite Hk.
Qed.

Lemma keeps_comprehension {A B} (f : A -> M State B) (l : list A) :
  (forall e, keeps (f e)) -> keeps (comprehension f l).
Proof.
  intros Hf. induction l as [|e l IH]; cbn [comprehension]; [apply keeps_ret|].
  apply keeps_bind; [done|]. intros y. apply keeps_bind; [done|]. intros ys. apply keeps_ret.
Qed.

Lemma keeps_batchize_exp batch : keeps (batchize_exp batch).
Proof.
  destruct batch as [|batch0 rest]; [apply keeps_ret|].
  unfold batchize_exp.
  repeat first
    [ apply keeps_ret
    | apply keeps_bind
    | apply keeps_comprehension
    | match goal with |- forall _, _ => intros ? end
    | match goal with
      | |- keeps (if ?b then _ else _) => destruct b
      | |- keeps (action_first ?a) => destruct a as [[|? ?]|?]; cbn [action_first]
      | |- keeps (optional_item _ ?o) => destruct o; cbn [optional_item]
      end
    | apply keeps_raise ].
Qed.

Lemma keeps_add_scalar t v step : keeps (add_scalar t v step).
Proof. by intros st. Qed.

Lemma keeps_epochs n l acc : keeps (epochs n l acc).
Proof.
  intros st. rewrite epochs_run. cbn [fst].
  destruct (iter_frame l n st) as (_ & _ & HK & He & Hn & Hp & _).
  unfold constants. cbv zeta in *. congruence.
Qed.

Lemma keeps_grad batch : keeps (grad batch).
Proof.
  unfold grad.
  repeat first
    [ apply keeps_ret
    | apply keeps_raise
    | apply keeps_batchize_exp
    | apply keeps_add_scalar
    | apply keeps_epochs
    | apply keeps_bind
    | match goal with |- forall _, _ => intros ? end
    | match goal with
      | |- keeps (getitem ?d ?k) => unfold getitem; destruct (d !! k)
      | |- keeps (as_array ?v) => destruct v; cbn [as_array]
      | |- keeps (as_obs ?v) => destruct v; cbn [as_obs]
      | |- keeps (as_supplements ?v) => destruct v; cbn [as_supplements]
      | |- keeps (match py_sum ?l with _ => _ end) => destruct (py_sum l)
      | |- keeps get => by intros ?
      | |- keeps (modify _) => by intros ?
      end ].
Qed.

Lemma reachable_constants st :
  reachable st -> K_epochs (self st) = 4%nat /\ eps_clip (self st) = 2 # 10.
Proof.
  induction 1 as [|st batch _ [HK He]]; [done|].
  pose proof (keeps_grad batch st) as Hk. unfold constants in Hk.
  split; congruence.
Qed.

(** ** [grad] on a well-formed batch *)

Lemma getitem_some {S} (d : gmap string value) key v (st : S) :
  d !! key = Some v -> getitem d key st = (st, Return v).
Proof. intros Hd. unfold getitem. by rewrite Hd. Qed.

Lemma grad_well_formed st batch :
  well_formed batch ->
  let l := locals_of (self st) batch in
  grad batch st =
  finish ((fun k => loss_mean l (Nat.iter k (after_epoch l) (log_reward l st))) <$> seq 0 (K_epochs (self st)))
         (Nat.iter (K_epochs (self st)) (after_epoch l) (log_reward l st)).
Proof.
  intros Hwf l.
  destruct (batchize_exp_well_formed batch st Hwf) as (d & Hb & Hr & Hg & Hs & Hs_ & Ha & Hsup).
  unfold grad.
  erewrite bind_returns by exact Hb.
  erewrite bind_returns by (by apply getitem_some).
  erewrite bind_returns by reflexivity.
  erewrite bind_returns by reflexivity.
  erewrite bind_returns by reflexivity.
  erewrite bind_returns by (by apply getitem_some).
  erewrite bind_returns by reflexivity.
  erewrite bind_returns by (by apply getitem_some).
  erewrite bind_returns by reflexivity.
  erewrite bind_returns by (by apply getitem_some).
  erewrite bind_returns by reflexivity.
  erewrite bind_returns by (by apply getitem_some).
  erewrite bind_returns by reflexivity.
  erewrite bind_returns by (by apply getitem_some).
  erewrite bind_returns by reflexivity.
  erewrite bind_returns by apply epochs_run.
  reflexivity.
Qed.

Lemma finish_returns loss_ret st :
  loss_ret <> [] ->
  exists st',
    finish loss_ret st = (st', Return tt) /\
    temporal_gnn (self st') = temporal_gnn (self st) /\
    policy (self st') = policy (self st) /\
    old_policy (self st') = policy (self st) /\
    old_temporal_gnn (self st') = temporal_gnn (self st) /\
    itr_count st' = itr_count st /\
    epoch_count st' = (epoch_count st + 1)%Z.
Proof.
  intros Hne. destruct loss_ret as [|t ts]; [done|].
  eexists. split; [reflexivity|]. by cbn.
Qed.

Lemma at_pass_frame st batch k :
  let a := self (at_pass st batch k) in
  old_policy a = old_policy (self st) /\ old_temporal_gnn a = old_temporal_gnn (self st) /\
  eps_clip a = eps_clip (self st) /\ neighbor_cnt a = neighbor_cnt (self st).
Proof.
  unfold at_pass.
  destruct (iter_frame (locals_of (self st) batch) k (log_reward (locals_of (self st) batch) st))
    as (Hop & Hog & _ & He & Hn & _).
  cbv zeta in *. rewrite Hop, Hog, He, Hn. by cbn.
Qed.

(** C1, at the empty batch: [batchize_exp] returns the empty dict for it, and
    [grad] goes on to read ["r"] from that dict. The trainer and the two
    counters are as they were, but the call raises. *)
Theorem grad_empty_batch_raises (st : State) :
  grad [] st = (st, Raise (KeyError "r")).
Proof. reflexivity. Qed.

(** C4, amended. In pass [k] of the loop the optimizers step on the mean of
    [loss]; [loss] is the clipped surrogate loss with [eps = 0.2] and the
    entropy weighted by 0.01; its value term is the squared error between
    the current value of [s] and [reward + gamma * lagged-value(s_)], the
    lagged networks being those [grad] was entered with; and the advantage is
    [reward + gamma * lagged-value(s_) - current-value(s)] summed over the
    last axis, the current value in it being taken at the parameters the
    pass starts from and not at the ones differentiated in. *)
Theorem epoch_loss_is_clipped_surrogate (st : State) (batch : list Exp) (k : nat) :
  reachable st ->
  well_formed batch ->
  (k < 4)%nat ->
  let l := locals_of (self st) batch in
  let a := self (at_pass st batch k) in
  let target := td_target (old_temporal_gnn (self st)) (old_policy (self st)) l in
  let A := t_sum_last (td_residual target (temporal_gnn a) (policy a) l) in
  (epoch l (at_pass st batch k)).2 = Return (objective a l (temporal_gnn a) (policy a)) /\
  temporal_gnn (self (at_pass st batch (S k))) =
    (adam_step_gnn (temporal_gnn_opt a) (fun g => objective a l g (policy a)) (temporal_gnn a)).2 /\
  policy (self (at_pass st batch (S k))) =
    (adam_step_policy (policy_opt a) (fun p => objective a l (temporal_gnn a) p) (policy a)).2 /\
  forall g p,
    objective a l g p = t_mean (loss (forward a l g p)) /\
    advantages (forward a l g p) = A /\
    loss (forward a l g p) =
      clipped_surrogate_loss (2 # 10) (1 # 100)
        (ratios (forward a l g p)) A
        (mse_loss (value_of Train g p (s l)) target)
        (att_entropy (forward a l g p)).
Proof.
  intros Hreach Hwf Hk l a target A.
  destruct (reachable_constants st Hreach) as [_ Heps].
  destruct (at_pass_frame st batch k) as (Hop & Hog & He & _). fold a in Hop, Hog, He.
  destruct (after_epoch_networks l (at_pass st batch k)) as (Hg & _ & Hp & _).
  split; [by rewrite epoch_returns|].
  split; [exact Hg|]. split; [exact Hp|].
  intros g p. split; [reflexivity|].
  subst A target.
  unfold clipped_surrogate_loss, td_residual, td_target, forward, value_of, detach.
  cbn [advantages loss ratios att_entropy]. rewrite Hop, Hog, He, Heps. done.
Qed.

(** C10. [act] forwards the observation through the old embedding network
    and the old policy, in evaluation mode; ["att_prob"] of the supplement it
    returns is the logarithm of the attention the old policy gave the chosen
    action; and the result is the same whatever the current networks and
    optimizers are. *)
Theorem act_forwards_old_networks (a : AttGnnPPO) (obs : Obs) :
  let o := obs_to_torch obs in
  let out := policy_forward Eval (old_policy a)
               (gnn_forward Eval (old_temporal_gnn a) (x o) (edge_idx_list o))
               (action_edge_idx o) (actual_amount o) in
  act a obs =
    (to_numpy (choice out), to_numpy (cnt out),
     {| choice_att := att out;
        att_prob := to_numpy (torch_log (t_getitem0_at (att out) (choice out))) |}) /\
  (forall g gopt p popt, act (set_networks g gopt p popt a) obs = act a obs) /\
  (forall a', old_policy a' = old_policy a -> old_temporal_gnn a' = old_temporal_gnn a ->
     act a' obs = act a obs).
Proof.
  split_and!.
  - reflexivity.
  - intros g gopt p popt. reflexivity.
  - intros a' Hp Hg. unfold act. by rewrite Hp, Hg.
Qed.

(** ** More on [batchize_exp], [grad] and [act] *)

Lemma stateless_ret {S A} (v : A) : stateless (ret (S := S) v).
Proof. by intros st. Qed.

Lemma stateless_raise {S A} (e : exn) : stateless (raise (S := S) (A := A) e).
Proof. by intros st. Qed.

Lemma stateless_bind {S A B} (m : M S A) (k : A -> M S B) :
  stateless m -> (forall v, stateless (k v)) -> stateless (bind m k).
Proof.
  intros Hm Hk st. unfold bind. destruct (Hm st) as [Hst Hrun].
  destruct (m st) as [st' [v|e|]]; cbn in *; [|done|done].
  subst st'. apply Hk.
Qed.

Lemma stateless_comprehension {S A B} (f : A -> M S B) (l : list A) :
  (forall e, stateless (f e)) -> stateless (comprehension f l).
Proof.
  intros Hf. induction l as [|e l IH]; cbn [comprehension]; [apply stateless_ret|].
  apply stateless_bind; [done|]. intros y. apply stateless_bind; [done|]. intros ys. apply stateless_ret.
Qed.

Lemma stateless_batchize_exp {S} batch : stateless (batchize_exp (S := S) batch).
Proof.
  destruct batch as [|batch0 rest]; [apply stateless_ret|].
  unfold batchize_exp.
  repeat first
    [ apply stateless_ret
    | apply stateless_bind
    | apply stateless_comprehension
    | match goal with |- forall _, _ => intros ? end
    | match goal with
      | |- stateless (if ?b then _ else _) => destruct b
      | |- stateless (action_first ?a) => destruct a as [[|? ?]|?]; cbn [action_first]
      | |- stateless (optional_item _ ?o) => destruct o; cbn [optional_item]
      end
    | apply stateless_raise ].
Qed.

Lemma comprehension_mapM {S A} (key : string) (f : Exp -> option A) (l : list Exp) (st : S) :
  comprehension (fun e => optional_item key (f e)) l st =
  (st, match mapM f l with Some ys => Return ys | None => Raise (KeyError key) end).
Proof.
  induction l as [|e l IH]; [done|].
  cbn [comprehension mapM]. unfold bind at 1.
  destruct (f e) as [y|]; cbn [optional_item ret raise]; [|done].
  unfold bind at 1. rewrite IH. cbn. by destruct (mapM f l).
Qed.

Lemma comprehension_first_mapM {S} (l : list Exp) (st : S) :
  comprehension (fun e => action_first (e_a e)) l st =
  (st, match mapM (fun e => first_item (e_a e)) l with
       | Some ys => Return ys | None => Raise IndexError end).
Proof.
  induction l as [|e l IH]; [done|].
  cbn [comprehension mapM]. unfold bind at 1.
  destruct (e_a e) as [[|a0 items]|arr]; cbn [action_first first_item ret raise]; [done| |];
    (unfold bind at 1; rewrite IH; cbn; by destruct (mapM _ l)).
Qed.

(** [batchize_exp] in closed form, for a batch that is not empty. *)
Lemma batchize_exp_run {S} (batch0 : Exp) (rest : list Exp) (st : S) :
  let batch := batch0 :: rest in
  batchize_exp batch st =
  (st,
   match stacked_actions batch with
   | None => Raise IndexError
   | Some a =>
       match (if bool_decide (is_Some (e_supplement batch0))
              then (fun l => <["supplement" := Sups l]> (entries a batch)) <$> mapM e_supplement batch
              else Some (entries a batch)) with
       | None => Raise (KeyError "supplement")
       | Some rlt =>
           match (if bool_decide (is_Some (e_self_r batch0))
                  then (fun l => <["self_r" := Arr (np_hstack l)]> rlt) <$> mapM e_self_r batch
                  else Some rlt) with
           | None => Raise (KeyError "self_r")
           | Some rlt => Return rlt
           end
       end
   end).
Proof.
  cbv zeta. unfold batchize_exp, stacked_actions. fold (entries).
  unfold bind at 1.
  destruct (is_tuple (e_a batch0)).
  - unfold bind at 1. rewrite comprehension_first_mapM.
    destruct (mapM _ (batch0 :: rest)) as [acts|]; [|done]. cbn [ret fmap option_fmap option_map].
    unfold bind at 1.
    destruct (bool_decide (is_Some (e_supplement batch0))).
    + unfold bind at 1. rewrite comprehension_mapM.
      destruct (mapM e_supplement (batch0 :: rest)) as [sups|]; [|done].
      cbn [ret fmap option_fmap option_map]. unfold bind at 1.
      destruct (bool_decide (is_Some (e_self_r batch0))).
      * unfold bind at 1. rewrite comprehension_mapM.
        by destruct (mapM e_self_r (batch0 :: rest)).
      * done.
    + cbn [ret]. unfold bind at 1.
      destruct (bool_decide (is_Some (e_self_r batch0))).
      * unfold bind at 1. rewrite comprehension_mapM.
        by destruct (mapM e_self_r (batch0 :: rest)).
      * done.
  - cbn [ret]. unfold bind at 1.
    destruct (bool_decide (is_Some (e_supplement batch0))).
    + unfold bind at 1. rewrite comprehension_mapM.
      destruct (mapM e_supplement (batch0 :: rest)) as [sups|]; [|done].
      cbn [ret fmap option_fmap option_map]. unfold bind at 1.
      destruct (bool_decide (is_Some (e_self_r batch0))).
      * unfold bind at 1. rewrite comprehension_mapM.
        by destruct (mapM e_self_r (batch0 :: rest)).
      * done.
    + cbn [ret]. unfold bind at 1.
      destruct (bool_decide (is_Some (e_self_r batch0))).
      * unfold bind at 1. rewrite comprehension_mapM.
        by destruct (mapM e_self_r (batch0 :: rest)).
      * done.
Qed.

(** X12. The dict that [batchize_exp] returns for a batch that is not
    empty: it always has the six entries ["a"], ["s"], ["s_"], ["r"],
    ["tot_r"] and ["gamma"]; it has ["supplement"] exactly when the first
    transition has one, and then the supplements of all transitions are in
    it; likewise ["self_r"]. A supplement that only a later transition has
    is left out without a word. The state is as it was. *)
Theorem batchize_exp_keys {S} (batch0 : Exp) (rest : list Exp) (st : S) (d : gmap string value) :
  let batch := batch0 :: rest in
  (batchize_exp batch st).2 = Return d ->
  (batchize_exp batch st).1 = st /\
  dom d = list_to_set ["a"; "s"; "s_"; "r"; "tot_r"; "gamma"] ∪
          (if e_supplement batch0 is Some _ then {["supplement"]} else ∅) ∪
          (if e_self_r batch0 is Some _ then {["self_r"]} else ∅) /\
  (exists a, stacked_actions batch = Some a /\ d !! "a" = Some (Arr a)) /\
  d !! "s" = Some (ObsV (batchize (e_obs <$> batch))) /\
  d !! "s_" = Some (ObsV (batchize (e_obs_ <$> batch))) /\
  d !! "r" = Some (Arr (np_hstack (e_r <$> batch))) /\
  d !! "tot_r" = Some (Arr (np_array ((fun e => np_sum (e_r e)) <$> batch))) /\
  d !! "gamma" = Some (Arr (np_hstack (e_gamma <$> batch))) /\
  d !! "supplement" = (if e_supplement batch0 is Some _ then Sups <$> mapM e_supplement batch else None) /\
  d !! "self_r" = (if e_self_r batch0 is Some _ then (fun l => Arr (np_hstack l)) <$> mapM e_self_r batch else None).
Proof.
  cbv zeta. rewrite batchize_exp_run. cbn [fst snd].
  destruct (stacked_actions (batch0 :: rest)) as [a|]; [|done].
  destruct (e_supplement batch0) as [sup0|] eqn:Hsup0.
  - rewrite bool_decide_eq_true_2 by done.
    destruct (mapM e_supplement (batch0 :: rest)) as [sups|]; [|done].
    cbn [fmap option_fmap option_map].
    destruct (e_self_r batch0) as [r0|] eqn:Hr0.
    + rewrite bool_decide_eq_true_2 by done.
      destruct (mapM e_self_r (batch0 :: rest)) as [rs|]; [|done].
      cbn [fmap option_fmap option_map]. intros [= <-].
      split_and!; try done; by exists a.
    + rewrite bool_decide_eq_false_2 by (by intros [? ?]). intros [= <-].
      split_and!; try done; by exists a.
  - rewrite bool_decide_eq_false_2 by (by intros [? ?]).
    destruct (e_self_r batch0) as [r0|] eqn:Hr0.
    + rewrite bool_decide_eq_true_2 by done.
      destruct (mapM e_self_r (batch0 :: rest)) as [rs|]; [|done].
      cbn [fmap option_fmap option_map]. intros [= <-].
      split_and!; try done; by exists a.
    + rewrite bool_decide_eq_false_2 by (by intros [? ?]). intros [= <-].
      split_and!; try done; by exists a.
Qed.


Lemma mapM_omap {A B} (f : A -> option B) (l : list A) (k : list B) :
  mapM f l = Some k -> omap f l = k.
Proof.
  intros Hm%mapM_Some_1. induction Hm as [|x y l k Hx _ IH]; [done|].
  cbn [omap list_omap]. by rewrite Hx, IH.
Qed.

Lemma mapM_all {A B} (f : A -> option B) (l : list A) :
  Forall (fun x => is_Some (f x)) l -> mapM f l = Some (omap f l).
Proof.
  intros Hall. destruct (mapM_is_Some_2 f l Hall) as [k Hk].
  by rewrite Hk, (mapM_omap f l k Hk).
Qed.

Lemma stacked_actions_actions_of batch a :
  stacked_actions batch = Some a -> actions_of batch = a.
Proof.
  destruct batch as [|batch0 rest]; [done|].
  unfold stacked_actions, actions_of.
  destruct (is_tuple (e_a batch0)); [|congruence].
  destruct (mapM _ (batch0 :: rest)) as [l|] eqn:Hm; [|done].
  intros [= <-]. by rewrite (mapM_omap _ _ _ Hm).
Qed.

Lemma well_formed_readable batch : well_formed batch -> readable batch.
Proof.
  intros (Hne & Hsup & Hact & Hself). split_and!; [|done|done].
  destruct batch as [|batch0 rest]; [done|].
  unfold stacked_actions. destruct (is_tuple (e_a batch0)); [|by eexists].
  rewrite (mapM_all _ _ Hact). by eexists.
Qed.

(** [grad] on a batch that it can read, up to the end of the loop. *)
Lemma grad_readable st batch :
  readable batch ->
  let l := locals_of (self st) batch in
  grad batch st =
  finish ((fun k => loss_mean l (Nat.iter k (after_epoch l) (log_reward l st))) <$> seq 0 (K_epochs (self st)))
         (Nat.iter (K_epochs (self st)) (after_epoch l) (log_reward l st)).
Proof.
  intros ([a Ha] & Hsup & Hself) l.
  destruct batch as [|batch0 rest]; [done|].
  assert (Hs0 : is_Some (e_supplement batch0)) by (by apply Forall_cons in Hsup as [? _]).
  assert (Hd : exists d, batchize_exp (batch0 :: rest) st = (st, Return d) /\
    d !! "r" = Some (Arr (np_hstack (e_r <$> batch0 :: rest))) /\
    d !! "gamma" = Some (Arr (np_hstack (e_gamma <$> batch0 :: rest))) /\
    d !! "s" = Some (ObsV (batchize (e_obs <$> batch0 :: rest))) /\
    d !! "s_" = Some (ObsV (batchize (e_obs_ <$> batch0 :: rest))) /\
    d !! "a" = Some (Arr (actions_of (batch0 :: rest))) /\
    d !! "supplement" = Some (Sups (supplements_of (batch0 :: rest)))).
  { rewrite batchize_exp_run. cbv zeta. rewrite Ha, (stacked_actions_actions_of _ _ Ha).
    rewrite bool_decide_eq_true_2 by done.
    rewrite (mapM_all e_supplement _ Hsup). cbn [fmap option_fmap option_map].
    destruct (decide (is_Some (e_self_r batch0))) as [Hr|Hr].
    - rewrite bool_decide_eq_true_2 by done.
      rewrite (mapM_all e_self_r _ (Hself Hr)). cbn [fmap option_fmap option_map].
      eexists. split; [reflexivity|]. by split_and!.
    - rewrite bool_decide_eq_false_2 by done.
      eexists. split; [reflexivity|]. by split_and!. }
  destruct Hd as (d & Hb & Hr & Hg & Hs & Hs_ & Hact & Hsups).
  unfold grad.
  erewrite bind_returns by exact Hb.
  erewrite bind_returns by (by apply getitem_some).
  erewrite bind_returns by reflexivity.
  erewrite bind_returns by reflexivity.
  erewrite bind_returns by reflexivity.
  erewrite bind_returns by (by apply getitem_some).
  erewrite bind_returns by reflexivity.
  erewrite bind_returns by (by apply getitem_some).
  erewrite bind_returns by reflexivity.
  erewrite bind_returns by (by apply getitem_some).
  erewrite bind_returns by reflexivity.
  erewrite bind_returns by (by apply getitem_some).
  erewrite bind_returns by reflexivity.
  erewrite bind_returns by (by apply getitem_some).
  erewrite bind_returns by reflexivity.
  erewrite bind_returns by apply epochs_run.
  reflexivity.
Qed.


(** [grad] on a batch that it cannot read: it raises before the loop. *)
Lemma grad_unreadable st batch :
  ~ readable batch ->
  exists e, (grad batch st).2 = Raise e /\ training_state (grad batch st).1 = training_state st.
Proof.
  intros Hno.
  destruct batch as [|batch0 rest]; [by exists (KeyError "r")|].
  assert (Hg : exists st' e, grad (batch0 :: rest) st = (st', Raise e) /\
                             training_state st' = training_state st);
    [|by destruct Hg as (st' & e & -> & Hst); exists e].
  unfold grad. unfold bind at 1. rewrite batchize_exp_run. cbv zeta.
  destruct (stacked_actions (batch0 :: rest)) as [a|] eqn:Ha; [|by eexists _, _].
  destruct (e_supplement batch0) as [sup0|] eqn:Hsup0.
  - rewrite bool_decide_eq_true_2 by done.
    destruct (mapM e_supplement (batch0 :: rest)) as [sups|] eqn:Hsups; [|by eexists _, _].
    cbn [fmap option_fmap option_map].
    assert (Hall : Forall (fun e => is_Some (e_supplement e)) (batch0 :: rest))
      by (apply (mapM_is_Some_1 e_supplement); by rewrite Hsups).
    destruct (decide (is_Some (e_self_r batch0))) as [Hr|Hr].
    + rewrite bool_decide_eq_true_2 by done.
      destruct (mapM e_self_r (batch0 :: rest)) as [rs|] eqn:Hrs; [|by eexists _, _].
      destruct Hno. split_and!; [by eexists | done |].
      intros _. apply (mapM_is_Some_1 e_self_r). by rewrite Hrs.
    + destruct Hno. split_and!; [by eexists | done | done].
  - rewrite bool_decide_eq_false_2 by (by intros [? ?]).
    assert (Hd : forall o,
      o = (if bool_decide (is_Some (e_self_r batch0))
           then (fun l => <["self_r" := Arr (np_hstack l)]> (entries a (batch0 :: rest))) <$>
                mapM e_self_r (batch0 :: rest)
           else Some (entries a (batch0 :: rest))) ->
      o = None \/
      exists d, o = Some d /\
        (exists r, d !! "r" = Some (Arr r)) /\
        (exists g, d !! "gamma" = Some (Arr g)) /\
        (exists o, d !! "s" = Some (ObsV o)) /\
        (exists o, d !! "s_" = Some (ObsV o)) /\
        (exists a, d !! "a" = Some (Arr a)) /\
        d !! "supplement" = None).
    { intros o ->. destruct (bool_decide (is_Some (e_self_r batch0))).
      - destruct (mapM e_self_r (batch0 :: rest)) as [rs|]; [|by left].
        right. eexists. split; [reflexivity|]. split_and!; try done; by eexists.
      - right. eexists. split; [reflexivity|]. split_and!; try done; by eexists. }
    destruct (Hd _ eq_refl) as [-> | (d & -> & (r & Hr) & (g & Hgam) & (o & Hs) & (o_ & Hs_) & (a' & Hact) & Hnone)];
      [by eexists _, _|].
    erewrite bind_returns by (by apply getitem_some).
    erewrite bind_returns by reflexivity.
    erewrite bind_returns by reflexivity.
    erewrite bind_returns by reflexivity.
    erewrite bind_returns by (by apply getitem_some).
    erewrite bind_returns by reflexivity.
    erewrite bind_returns by (by apply getitem_some).
    erewrite bind_returns by reflexivity.
    erewrite bind_returns by (by apply getitem_some).
    erewrite bind_returns by reflexivity.
    erewrite bind_returns by (by apply getitem_some).
    erewrite bind_returns by reflexivity.
    unfold bind, getitem. rewrite Hnone. by eexists _, _.
Qed.


Lemma after_epoch_steps l st :
  let a := self st in
  let a' := self (after_epoch l st) in
  (temporal_gnn_opt a', temporal_gnn a') =
    adam_step_gnn (temporal_gnn_opt a) (fun g => t_mean (loss (forward a l g (policy a)))) (temporal_gnn a) /\
  (policy_opt a', policy a') =
    adam_step_policy (policy_opt a) (fun p => t_mean (loss (forward a l (temporal_gnn a) p))) (policy a).
Proof.
  cbv beta iota zeta delta [after_epoch epoch bind get add_scalar modify ret].
  destruct (adam_step_gnn _ _ _) as [gopt g], (adam_step_policy _ _ _) as [popt p].
  by cbn.
Qed.



(** C5. [grad] on a batch that it can read is the passes of its loop, all
    on the same locals, followed by what it does after the loop; in every
    pass the optimizers step on the mean of a loss whose ratio is the
    exponential of the log-probability that the policy being stepped gives
    the stored actions, minus the stored log-probabilities; and these are
    the ["att_prob"] entries of the supplements of the batch, stacked and
    flattened: the same tensor in every pass, made of the batch alone. On a
    batch that it cannot read [grad] raises before the loop, so there is no
    pass. *)
Theorem ratio_uses_stored_log_probability (st : State) (batch : list Exp) :
  let l := locals_of (self st) batch in
  let K := K_epochs (self st) in
  let stored :=
    t_reshape (t_float (torch_from_numpy
      (np_vstack ((fun sup => np_reshape (att_prob sup) [-1]%Z) <$> supplements_of batch)))) [-1]%Z in
  (readable batch ->
   Forall2 (fun e sup => e_supplement e = Some sup) batch (supplements_of batch) /\
   grad batch st =
     finish ((fun k => loss_mean l (at_pass st batch k)) <$> seq 0 K) (at_pass st batch K) /\
   forall k, (k < K)%nat ->
     let a := self (at_pass st batch k) in
     let a' := self (at_pass st batch (S k)) in
     at_pass st batch (S k) = (epoch l (at_pass st batch k)).1 /\
     (epoch l (at_pass st batch k)).2 =
       Return (t_mean (loss (forward a l (temporal_gnn a) (policy a)))) /\
     (temporal_gnn_opt a', temporal_gnn a') =
       adam_step_gnn (temporal_gnn_opt a)
         (fun g => t_mean (loss (forward a l g (policy a)))) (temporal_gnn a) /\
     (policy_opt a', policy a') =
       adam_step_policy (policy_opt a)
         (fun p => t_mean (loss (forward a l (temporal_gnn a) p))) (policy a) /\
     forall g p,
       ratios (forward a l g p) =
         torch_exp (t_sub (action_logprobs (neighbor_cnt (self st)) g p l) stored) /\
       loss (forward a l g p) =
         clipped_surrogate_loss (eps_clip (self st)) (1 # 100)
           (torch_exp (t_sub (action_logprobs (neighbor_cnt (self st)) g p l) stored))
           (advantages (forward a l g p)) (mloss (forward a l g p))
           (att_entropy (forward a l g p))) /\
  (~ readable batch ->
   exists e, (grad batch st).2 = Raise e /\ training_state (grad batch st).1 = training_state st).
Proof.
  intros l K stored. split; [|apply grad_unreadable].
  intros Hread. pose proof Hread as (_ & Hsup & _).
  split_and!.
  - clear -Hsup. induction Hsup as [|e b [sup He] _ IH]; [constructor|].
    unfold supplements_of. cbn [omap list_omap]. rewrite He. by constructor.
  - exact (grad_readable st batch Hread).
  - intros k Hk. cbv zeta.
    destruct (at_pass_frame st batch k) as (_ & _ & He & Hn).
    destruct (after_epoch_steps l (at_pass st batch k)) as [Hsg Hsp].
    split_and!; try done.
    + by rewrite epoch_returns.
    + intros g p. cbv zeta in He, Hn.
      unfold forward, action_logprobs, clipped_surrogate_loss, detach.
      cbn [ratios loss advantages mloss att_entropy]. rewrite He, Hn. done.
Qed.

Ltac raised :=
  intros [= <- <-]; left; eexists; cbn; split_and!;
  [reflexivity | reflexivity | first [by left | right; eexists; reflexivity]].

Ltac read_item d key :=
  unfold bind at 1, getitem at 1;
  let v := fresh "v" in
  destruct (d !! key) as [v|]; [cbn [ret] | raised].

Ltac read_array :=
  unfold bind at 1;
  match goal with |- context [as_array ?v] => destruct v; cbn [as_array ret raise]; [| raised ..] end.

(** [grad] from a trainer with four epochs, on any batch: either it raises
    before the loop, or it goes through the loop and returns. *)
Lemma grad_outcome st batch :
  K_epochs (self st) = 4%nat ->
  let st' := (grad batch st).1 in
  (exists e, (grad batch st).2 = Raise e /\ training_state st' = training_state st /\
     (writer (self st') = writer (self st) \/
      exists v, writer (self st') = (writer (self st) ++ [reward_scalar st v])%list)) \/
  ((grad batch st).2 = Return tt /\
   old_policy (self st') = policy (self st') /\
   old_temporal_gnn (self st') = temporal_gnn (self st') /\
   itr_count st' = (itr_count st + 4)%Z /\
   epoch_count st' = (epoch_count st + 1)%Z).
Proof.
  intros HK. cbv zeta. destruct (grad batch st) as [st' o] eqn:Hg. cbn [fst snd].
  revert Hg. unfold grad.
  unfold bind at 1.
  destruct (stateless_batchize_exp batch st) as [Hstateless Hrun].
  destruct (batchize_exp batch st) as [st0 [d|e0|]]; cbn [fst snd] in Hstateless, Hrun; subst st0;
    [| raised | done].
  read_item d "r". read_array.
  unfold bind at 1. cbn [get]. rewrite HK.
  unfold bind at 1. cbn [add_scalar modify].
  read_item d "gamma". read_array.
  read_item d "s". unfold bind at 1. destruct v; cbn [as_obs ret raise]; [raised | | raised].
  read_item d "s_". unfold bind at 1. destruct v; cbn [as_obs ret raise]; [raised | | raised].
  read_item d "a". read_array.
  read_item d "supplement". unfold bind at 1. destruct v; cbn [as_supplements ret raise]; [raised | raised |].
  unfold bind at 1. rewrite epochs_run. cbv beta iota.
  match goal with |- context [Nat.iter 4 (after_epoch ?l) ?st1] =>
    destruct (iter_frame l 4 st1) as (_ & _ & _ & _ & _ & _ & Hitr & Hep);
    destruct (finish_returns
                ([] ++ ((fun k => loss_mean l (Nat.iter k (after_epoch l) st1)) <$> seq 0 4))%list
                (Nat.iter 4 (after_epoch l) st1))
      as (st'' & Hfin & Hg & Hp & Hop & Hog & Hi & He); [done|]
  end.
  unfold finish in Hfin. rewrite Hfin. intros [= <- <-]. right.
  cbv zeta in Hitr, Hep. cbn [itr_count epoch_count with_self] in Hitr, Hep.
  split_and!; [done | congruence | congruence | |].
  - rewrite Hi, Hitr. reflexivity.
  - rewrite He, Hep. reflexivity.
Qed.

(** X14. [grad] trains all the way or not at all: when it raises, on
    whatever batch, the two networks, their old copies, the two optimizers
    and the two counters are as they were, so [act] answers as before; the
    one thing it may have done is to write the ["Reward"] scalar. *)
Theorem grad_fails_without_training (st : State) (batch : list Exp) (e : exn) :
  reachable st ->
  (grad batch st).2 = Raise e ->
  training_state (grad batch st).1 = training_state st /\
  (forall obs, act (self (grad batch st).1) obs = act (self st) obs) /\
  (writer (self (grad batch st).1) = writer (self st) \/
   exists v, writer (self (grad batch st).1) = (writer (self st) ++ [reward_scalar st v])%list).
Proof.
  intros Hreach Hraise.
  destruct (reachable_constants st Hreach) as [HK _].
  destruct (grad_outcome st batch HK) as [(e' & _ & Hsame & Hw)|(Hret & _)]; [|congruence].
  split_and!; [done | | done].
  intros obs. unfold training_state in Hsame. unfold act.
  assert (old_temporal_gnn (self (grad batch st).1) = old_temporal_gnn (self st)) as -> by congruence.
  assert (old_policy (self (grad batch st).1) = old_policy (self st)) as -> by congruence.
  reflexivity.
Qed.

(** X15. Between calls of [grad] the old networks hold the parameters of
    the current ones: [__init__] copies them, a [grad] that returns loads
    them, and a [grad] that raises changes neither. So [act] always forwards
    through the current parameters, in evaluation mode. And [itr_count] is
    four times [epoch_count], the number of calls of [grad] that returned. *)
Theorem reachable_networks_in_step (st : State) :
  reachable st ->
  old_policy (self st) = policy (self st) /\
  old_temporal_gnn (self st) = temporal_gnn (self st) /\
  itr_count st = (4 * epoch_count st)%Z /\
  (0 <= epoch_count st)%Z /\
  forall obs,
    let o := obs_to_torch obs in
    let out := policy_forward Eval (policy (self st))
                 (gnn_forward Eval (temporal_gnn (self st)) (x o) (edge_idx_list o))
                 (action_edge_idx o) (actual_amount o) in
    act (self st) obs =
      (to_numpy (choice out), to_numpy (cnt out),
       {| choice_att := att out;
          att_prob := to_numpy (torch_log (t_getitem0_at (att out) (choice out))) |}).
Proof.
  intros Hreach.
  assert (Hinv : old_policy (self st) = policy (self st) /\
                 old_temporal_gnn (self st) = temporal_gnn (self st) /\
                 itr_count st = (4 * epoch_count st)%Z /\ (0 <= epoch_count st)%Z).
  { induction Hreach as [|st batch Hreach IH]; [by cbn|].
    destruct (reachable_constants st Hreach) as [HK _].
    destruct IH as (Hp & Hg & Hi & He).
    destruct (grad_outcome st batch HK) as [(e & _ & Hsame & _)|(_ & Hp' & Hg' & Hi' & He')].
    - unfold training_state in Hsame.
      split_and!; [congruence | congruence | |].
      + assert (itr_count (grad batch st).1 = itr_count st) as -> by congruence.
        assert (epoch_count (grad batch st).1 = epoch_count st) as -> by congruence. done.
      + assert (epoch_count (grad batch st).1 = epoch_count st) as -> by congruence. done.
    - split_and!; [done | done | lia | lia]. }
  destruct Hinv as (Hp & Hg & Hi & He). split_and!; try done.
  intros obs. cbv zeta. unfold act. by rewrite Hp, Hg.
Qed.

Lemma after_epoch_writer l st :
  writer (self (after_epoch l st)) = (writer (self st) ++ pass_scalars l st)%list.
Proof.
  cbv beta iota zeta delta [after_epoch pass_scalars epoch bind get add_scalar modify ret].
  destruct (adam_step_gnn _ _ _) as [gopt g], (adam_step_policy _ _ _) as [popt p].
  cbn. by rewrite <- !app_assoc.
Qed.

Lemma iter_writer l n st :
  writer (self (Nat.iter n (after_epoch l) st)) =
  (writer (self st) ++ flat_map (fun k => pass_scalars l (Nat.iter k (after_epoch l) st)) (seq 0 n))%list.
Proof.
  induction n as [|n IH]; [by rewrite app_nil_r|].
  rewrite seq_S, flat_map_app, Nat.iter_succ. cbn [flat_map].
  rewrite after_epoch_writer, IH, app_nil_r, <- app_assoc. reflexivity.
Qed.

(** X16. A call of [grad] that returns writes fourteen scalars: ["Reward"]
    at step [epoch_count]; in each of the four passes ["policy loss"],
    ["mse loss"] and ["entropy"] at step [itr_count], which goes up by one
    with each pass; and ["Loss"] at step [epoch_count], its value being
    [(0 + l0 + l1 + l2 + l3) / 4] for the means [l0 .. l3] of the loss of
    the four passes. *)
Theorem grad_writes_fourteen_scalars (st : State) (batch : list Exp) :
  reachable st ->
  well_formed batch ->
  let l := locals_of (self st) batch in
  let st' := (grad batch st).1 in
  let losses : list Tensor := (fun k => loss_mean l (at_pass st batch k)) <$> seq 0 4 in
  writer (self st') =
    (writer (self st) ++
     [reward_scalar st (t_mean (rewards l))] ++
     flat_map (fun k => pass_scalars l (at_pass st batch k)) (seq 0 4) ++
     loss_scalar st losses)%list /\
  tag <$> drop (length (writer (self st))) (writer (self st')) =
    (["Reward" +:+ backslash] ++
     concat (replicate 4 ["policy loss" +:+ backslash; "mse loss" +:+ backslash; "entropy" +:+ backslash]) ++
     ["Loss" +:+ backslash])%list /\
  global_step <$> drop (length (writer (self st))) (writer (self st')) =
    ([epoch_count st] ++
     flat_map (fun k => replicate 3 (itr_count st + Z.of_nat k)%Z) (seq 0 4) ++
     [epoch_count st])%list /\
  loss_scalar st losses =
    [ {| tag := "Loss" +:+ backslash;
         scalar_value :=
           t_div_int (t_add (t_add (t_add (t_radd_int 0 (loss_mean l (at_pass st batch 0)))
                                          (loss_mean l (at_pass st batch 1)))
                                   (loss_mean l (at_pass st batch 2)))
                            (loss_mean l (at_pass st batch 3))) 4;
         global_step := epoch_count st |} ].
Proof.
  intros Hreach Hwf l st' losses.
  destruct (reachable_constants st Hreach) as [HK _].
  assert (Hw : writer (self st') =
    (writer (self st) ++
     [reward_scalar st (t_mean (rewards l))] ++
     flat_map (fun k => pass_scalars l (at_pass st batch k)) (seq 0 4) ++
     loss_scalar st losses)%list).
  { subst st'. rewrite (grad_well_formed st batch Hwf), HK. fold l.
    pose proof (iter_writer l 4 (log_reward l st)) as Hiter.
    destruct (iter_frame l 4 (log_reward l st)) as (_ & _ & _ & _ & _ & _ & _ & Hep).
    cbv zeta in Hep.
    unfold finish, losses, loss_scalar, at_pass. fold l.
    cbn [seq fmap list_fmap py_sum fold_left length].
    cbn [bind modify get add_scalar fst with_self self load_old_networks writer epoch_count].
    rewrite Hiter, Hep.
    change (writer (self (log_reward l st)))
      with (writer (self st) ++ [reward_scalar st (t_mean (rewards l))])%list.
    change (epoch_count (log_reward l st)) with (epoch_count st).
    by rewrite <- !app_assoc. }
  assert (Hsteps : forall k, itr_count (at_pass st batch k) = (itr_count st + Z.of_nat k)%Z).
  { intros k. unfold at_pass.
    destruct (iter_frame (locals_of (self st) batch) k (log_reward (locals_of (self st) batch) st))
      as (_ & _ & _ & _ & _ & _ & Hitr & _).
    exact Hitr. }
  split_and!.
  - exact Hw.
  - rewrite Hw, drop_app_length. reflexivity.
  - rewrite Hw, drop_app_length. unfold loss_scalar, losses.
    cbn [seq fmap list_fmap py_sum flat_map pass_scalars app global_step reward_scalar replicate].
    by rewrite !Hsteps.
  - reflexivity.
Qed.


End Facts.

(** ** The claims on the small instance *)

Import Small.

Lemma transition_well_formed : well_formed [transition].
Proof.
  split_and!.
  - discriminate.
  - constructor; [by eexists | constructor].
  - constructor; [by eexists | constructor].
  - intros [v Hv]. discriminate Hv.
Qed.



(** [epoch_loss_is_clipped_surrogate] on the second pass of the small
    trainer. *)
Lemma epoch_loss_witness :
  reachable (start trainer) /\
  well_formed [transition] /\
  (1 < 4)%nat /\
  let l := locals_of trainer [transition] in
  let a := self (at_pass (start trainer) [transition] 1) in
  forall g p,
    advantages (forward a l g p) =
    t_sum_last (td_residual (td_target (old_temporal_gnn trainer) (old_policy trainer) l)
                            (temporal_gnn a) (policy a) l).
Proof.
  pose proof (reachable_start 1 1 2 1 1 (9 # 10)) as Hreach.
  split; [exact Hreach|]. split; [exact transition_well_formed|].
  split; [repeat constructor|].
  intros l a g p.
  destruct (epoch_loss_is_clipped_surrogate (start trainer) [transition] 1 Hreach
              transition_well_formed ltac:(repeat constructor))
    as (_ & _ & _ & Hloss).
  exact (proj1 (proj2 (Hloss g p))).
Defined.

(** C4 as it is stated, with the advantage not summed, fails on the small
    instance: with two stations the advantage of the claim has one entry per
    station and so has the loss made from it, where the loss of the code has
    one entry per graph. *)
Lemma loss_sums_advantage_over_nodes :
  let a := trainer in
  let l := locals_of a [transition] in
  let g := temporal_gnn a in
  let p := policy a in
  let target := td_target (old_temporal_gnn a) (old_policy a) l in
  loss (forward a l g p) <>
  clipped_surrogate_loss (2 # 10) (1 # 100)
    (ratios (forward a l g p))
    (td_residual target g p l)
    (mse_loss (value_of Train g p (s l)) target)
    (att_entropy (forward a l g p)).
Proof. vm_compute. discriminate. Qed.

(** [ratio_uses_stored_log_probability] on the small trainer: [grad] is
    its four passes, and the ratio of the last one is made with the
    log-probability that [act] stored. *)
Lemma ratio_witness :
  readable [transition] /\
  grad [transition] (start trainer) =
    finish ((fun k => loss_mean (locals_of trainer [transition]) (at_pass (start trainer) [transition] k))
              <$> seq 0 4)
           (at_pass (start trainer) [transition] 4) /\
  forall g p,
    ratios (forward (self (at_pass (start trainer) [transition] 3)) (locals_of trainer [transition]) g p) =
    torch_exp (t_sub (action_logprobs 1 g p (locals_of trainer [transition])) [[-1 # 2]]).
Proof.
  pose proof (well_formed_readable _ transition_well_formed) as Hread.
  split; [exact Hread|].
  destruct (proj1 (ratio_uses_stored_log_probability (start trainer) [transition]) Hread)
    as (_ & Hrun & Hpass).
  split; [exact Hrun|].
  intros g p.
  exact (proj1 (proj2 (proj2 (proj2 (proj2 (Hpass 3%nat ltac:(repeat constructor))))) g p)).
Defined.

(** ** The further properties on the small instance *)

(** [batchize_exp_keys] on the transition with its supplement, and on the
    one without. *)
Lemma batchize_exp_keys_witness :
  (exists d, (batchize_exp [transition] tt).2 = Return d /\
     dom d = list_to_set ["a"; "s"; "s_"; "r"; "tot_r"; "gamma"; "supplement"]) /\
  (exists d, (batchize_exp [unsupplemented] tt).2 = Return d /\
     dom d = list_to_set ["a"; "s"; "s_"; "r"; "tot_r"; "gamma"]).
Proof.
  split.
  - eexists. split; [reflexivity|].
    etransitivity;
      [exact (proj1 (proj2 (batchize_exp_keys transition [] tt _ eq_refl)))|].
    vm_compute. reflexivity.
  - eexists. split; [reflexivity|].
    etransitivity;
      [exact (proj1 (proj2 (batchize_exp_keys unsupplemented [] tt _ eq_refl)))|].
    vm_compute. reflexivity.
Defined.


(** [grad_fails_without_training] on the empty batch. *)
Lemma grad_fails_without_training_witness :
  reachable (start trainer) /\
  (grad [] (start trainer)).2 = Raise (KeyError "r") /\
  training_state (grad [] (start trainer)).1 = training_state (start trainer).
Proof.
  pose proof (reachable_start 1 1 2 1 1 (9 # 10)) as Hreach.
  assert (Hraise : (grad [] (start trainer)).2 = Raise (KeyError "r")) by reflexivity.
  split; [exact Hreach|]. split; [exact Hraise|].
  exact (proj1 (grad_fails_without_training (start trainer) [] _ Hreach Hraise)).
Defined.

(** [reachable_networks_in_step] after one call of [grad]. *)
Lemma reachable_networks_in_step_witness :
  reachable trained /\
  old_policy (self trained) = policy (self trained) /\
  old_temporal_gnn (self trained) = temporal_gnn (self trained) /\
  itr_count trained = (4 * epoch_count trained)%Z.
Proof.
  assert (Hreach : reachable trained)
    by (apply reachable_grad, (reachable_start 1 1 2 1 1 (9 # 10))).
  split; [exact Hreach|].
  destruct (reachable_networks_in_step trained Hreach) as (Hp & Hg & Hi & _).
  split; [exact Hp|]. split; [exact Hg | exact Hi].
Defined.

(** [grad_writes_fourteen_scalars] on the first call of [grad]. *)
Lemma grad_writes_fourteen_scalars_witness :
  reachable (start trainer) /\
  well_formed [transition] /\
  length (writer (self trained)) = 14%nat /\
  global_step <$> writer (self trained) = [0; 0; 0; 0; 1; 1; 1; 2; 2; 2; 3; 3; 3; 0]%Z.
Proof.
  pose proof (reachable_start 1 1 2 1 1 (9 # 10)) as Hreach.
  split; [exact Hreach|]. split; [exact transition_well_formed|].
  destruct (grad_writes_fourteen_scalars (start trainer) [transition] Hreach transition_well_formed)
    as (Hw & _ & Hsteps & _).
  split.
  - unfold trained. rewrite Hw. reflexivity.
  - exact Hsteps.
Defined.


End PPOFacts.
